(** * Re-ranking engine of the movie dashboard: shallow embedding

    The repository is a series of iterations of one Streamlit dashboard.
    Each iteration is embedded in a module of its own, named after the
    line of the corpus file at which it starts, so that the functions keep
    the names they have in the source.

    Conventions of the embedding.
    - A pandas DataFrame is the list of its rows, in index order; the set
      of columns of a frame is fixed by the type of its rows.
    - A cell of a text column read from CSV is [Some s] for a string and
      [None] for the missing value (NaN).  A text column is a column of
      Python objects whatever its cells are; what pandas does differently
      for a column it has typed as numeric because it is empty or wholly
      missing is outside the model.
    - Scores and ratings are rationals ([Q]) and are computed exactly,
      except in [Dashboard52.Double], which computes the boosted scores
      as the program does, in doubles.  NaN and infinite scores are
      outside the model.
    - Text is ASCII. *)

From Stdlib Require Import QArith Qround Lqa Ascii String.
From stdpp Require Import gmap strings list sorting pretty.

Local Open Scope list_scope.

(** ** The table [watched] of the SQLite database

    Rows are kept in insertion order, which is the order in which
    [SELECT] returns them from a table that has no index. *)

Module Db.

Record watched_row := WatchedRow {
  username : string;
  movie_title : string
}.

#[global] Instance watched_row_eq_dec : EqDecision watched_row.
Proof. solve_decision. Defined.

(** The rows of table [watched]. *)
Abbreviation table := (list watched_row).

(** [WHERE username=? AND movie_title=?] *)
Definition matches (u t : string) (r : watched_row) : bool :=
  bool_decide (username r = u) && bool_decide (movie_title r = t).

(** [SELECT movie_title FROM watched WHERE username=?], all rows. *)
Definition select_titles (u : string) (db : table) : list string :=
  movie_title <$> filter (λ r, username r = u) db.

(** [INSERT INTO watched (username, movie_title) VALUES (?, ?)] on the
    table declared without a uniqueness constraint. *)
Definition insert (u t : string) (db : table) : table :=
  db ++ [WatchedRow u t].

(** [DELETE FROM watched WHERE username=? AND movie_title=?] *)
Definition delete (u t : string) (db : table) : table :=
  filter (λ r, ¬ matches u t r) db.

End Db.

(** ** The Python built-ins the dashboards use *)

Module Py.

(** Exceptions the modelled code can raise. *)
Inductive exn := TypeError | KeyError.

(** Outcome of an expression that may raise. *)
Inductive result (A : Type) :=
| Ok (a : A)
| Raise (e : exn).
Arguments Ok {A} a.
Arguments Raise {A} e.

Definition bind {A B} (r : result A) (k : A → result B) : result B :=
  match r with
  | Ok a => k a
  | Raise e => Raise e
  end.

(** Evaluates [f] on the elements from left to right and stops at the
    first one that raises. *)
Fixpoint map_result {A B} (f : A → result B) (l : list A) : result (list B) :=
  match l with
  | [] => Ok []
  | x :: l' =>
      bind (f x) (λ y, bind (map_result f l') (λ ys, Ok (y :: ys)))
  end.

(** [c.isspace()] on ASCII. *)
Definition isspace (c : ascii) : bool :=
  match c with
  | "009" | "010" | "011" | "012" | "013"
  | "028" | "029" | "030" | "031" | " " => true
  | _ => false
  end%char.

Fixpoint lstrip (s : string) : string :=
  match s with
  | String c s' => if isspace c then lstrip s' else s
  | EmptyString => EmptyString
  end.

Fixpoint rstrip (s : string) : string :=
  match s with
  | String c s' =>
      match rstrip s' with
      | EmptyString => if isspace c then EmptyString else String c EmptyString
      | r => String c r
      end
  | EmptyString => EmptyString
  end.

(** [s.strip()] *)
Definition strip (s : string) : string := rstrip (lstrip s).

(** [s.split(sep)] for a separator of one character: every occurrence
    splits, empty pieces are kept. *)
Fixpoint split (sep : ascii) (s : string) : list string :=
  match s with
  | EmptyString => [EmptyString]
  | String c s' =>
      if decide (c = sep) then EmptyString :: split sep s'
      else match split sep s' with
           | piece :: pieces => String c piece :: pieces
           | [] => [String c EmptyString]
           end
  end.

Fixpoint startswith (p s : string) : bool :=
  match p, s with
  | EmptyString, _ => true
  | String a p', String b s' => bool_decide (a = b) && startswith p' s'
  | String _ _, EmptyString => false
  end.

(** [p in s] on two strings: [p] occurs in [s] as a substring. *)
Fixpoint contains (p s : string) : bool :=
  startswith p s ||
  match s with
  | String _ s' => contains p s'
  | EmptyString => false
  end.

(** Decimal digits with single underscores between them. *)
Fixpoint int_digits (acc : Z) (after_digit : bool) (s : string) : option Z :=
  match s with
  | EmptyString => if after_digit then Some acc else None
  | String c s' =>
      match Ascii.is_nat c with
      | Some d => int_digits (10 * acc + Z.of_nat d) true s'
      | None =>
          if bool_decide (c = "_"%char) && after_digit
          then int_digits acc false s'
          else None
      end
  end.

(** The white space that [int] skips at both ends of its argument.  The
    characters 28 to 31 are white space for [isspace] and [strip], not
    for [int]. *)
Definition int_isspace (c : ascii) : bool :=
  match c with
  | "009" | "010" | "011" | "012" | "013" | " " => true
  | _ => false
  end%char.

Fixpoint int_lstrip (s : string) : string :=
  match s with
  | String c s' => if int_isspace c then int_lstrip s' else s
  | EmptyString => EmptyString
  end.

Fixpoint int_rstrip (s : string) : string :=
  match s with
  | String c s' =>
      match int_rstrip s' with
      | EmptyString => if int_isspace c then EmptyString else String c EmptyString
      | r => String c r
      end
  | EmptyString => EmptyString
  end.

(** The digits of a numeral.  The interpreter refuses to convert a
    decimal numeral of more than 4300 digits, its default limit since
    version 3.11; the sign, the underscores and the white space do not
    count. *)
Fixpoint count_digits (s : string) : nat :=
  match s with
  | EmptyString => 0
  | String c s' =>
      match Ascii.is_nat c with
      | Some _ => S (count_digits s')
      | None => count_digits s'
      end
  end.

Definition int_max_str_digits : nat := 4300.

(** [int(s)] on a string; [None] stands for the [ValueError] that the
    callers catch. *)
Definition int (s : string) : option Z :=
  let r := int_rstrip (int_lstrip s) in
  if decide (int_max_str_digits < count_digits r) then None
  else
    match r with
    | String "-" r => Z.opp <$> int_digits 0 false r
    | String "+" r => int_digits 0 false r
    | r => int_digits 0 false r
    end.

Section sorted.
Context {A : Type} (gt : A → A → bool).

(** Puts [x] in front of the first element that is not strictly
    greater: [x] stays ahead of the elements equal to it. *)
Fixpoint insert_desc (x : A) (l : list A) : list A :=
  match l with
  | [] => [x]
  | y :: l' => if gt y x then y :: insert_desc x l' else x :: l
  end.

(** [sorted(l, key=..., reverse=True)]: descending, and stable.
    [gt y x] tells that the key of [y] is strictly greater than that
    of [x]. *)
Definition sorted_desc (l : list A) : list A := foldr insert_desc [] l.
End sorted.

Section counter.
Context {K : Type} `{EqDecision K}.

(** [c[k] = c.get(k, 0) + 1] on a dict in insertion order. *)
Fixpoint counter_incr (k : K) (c : list (K * nat)) : list (K * nat) :=
  match c with
  | [] => [(k, 1)]
  | (k', n) :: c' =>
      if decide (k = k') then (k', S n) :: c'
      else (k', n) :: counter_incr k c'
  end.

(** [Counter(l)]: the items, in the order in which the keys were
    first met. *)
Definition Counter (l : list K) : list (K * nat) :=
  fold_left (λ c k, counter_incr k c) l [].

(** [c.most_common(k)], that is
    [heapq.nlargest(k, c.items(), key=itemgetter(1))], which equals
    [sorted(c.items(), key=itemgetter(1), reverse=True)[:k]]. *)
Definition most_common (k : nat) (c : list (K * nat)) : list (K * nat) :=
  take k (sorted_desc (λ y x, bool_decide (x.2 < y.2)) c).
End counter.

End Py.

(** ** The pandas operations the dashboards use *)

Module Pd.

(** [df.sort_values(by=key, ascending=False)].  The dashboards never pass
    [kind], so the sorting algorithm is the library's default, which is
    not one of the stable ones: all that is known of the result is that
    it holds the same rows, in descending order of the key. *)
Class SortValues := {
  sort_values_desc : ∀ {A : Type}, (A → Q) → list A → list A;
  sort_values_perm : ∀ (A : Type) (key : A → Q) (l : list A),
    sort_values_desc key l ≡ₚ l;
  sort_values_sorted : ∀ (A : Type) (key : A → Q) (l : list A),
    StronglySorted (λ x y, key y <= key x)%Q (sort_values_desc key l)
}.

(** [max(a, b)] of Python on two numbers: [b] only if [b > a]. *)
Definition max (a b : Q) : Q := if Qle_bool b a then a else b.

(** [s.min()] and [s.max()] of a numeric column; [None] is the NaN that
    an empty column gives. *)
Definition series_min (s : list Q) : option Q :=
  foldr (λ x acc, match acc with
                  | None => Some x
                  | Some m => Some (if Qle_bool x m then x else m)
                  end) None s.

Definition series_max (s : list Q) : option Q :=
  foldr (λ x acc, match acc with
                  | None => Some x
                  | Some m => Some (if Qle_bool m x then x else m)
                  end) None s.

(** [left.merge(right, on=key, how='left')]: the left rows in their
    order, each one paired with every right row of the same key, in the
    order of the right frame, or with the missing value once when there
    is none. *)
Definition merge_left {L R : Type} (lkey : L → Z) (lrows : list L)
    (rrows : list (Z * R)) : list (L * option R) :=
  l ← lrows;
  match filter (λ kr, kr.1 = lkey l) rrows with
  | [] => [(l, None)]
  | matched => (λ kr, (l, Some kr.2)) <$> matched
  end.

End Pd.

(** ** The doubles of the program

    A finite double is the rational it stands for.  An operation on
    doubles gives the double nearest to the exact result, and of two
    that are as near the one with the even mantissa.  Results beyond the
    largest double, which the machine makes infinite, are outside the
    model, and so is the sign of zero. *)

Module Float64.

(** [2 ^ e] *)
Definition pow2 (e : Z) : Q :=
  if (0 <=? e)%Z then inject_Z (2 ^ e) else / inject_Z (2 ^ (- e)).

(** The exponent of a number other than 0: the [e] for which
    [2 ^ e <= |q| < 2 ^ (e + 1)]. *)
Definition exponent (q : Q) : Z :=
  let e := (Z.log2 (Z.abs (Qnum q)) - Z.log2 (Zpos (Qden q)))%Z in
  if Qle_bool (pow2 e) (Z.abs (Qnum q) # Qden q) then e else (e - 1)%Z.

(** The integer nearest to [q], the even one of two that are as near. *)
Definition nearest_even (q : Q) : Z :=
  let f := Qfloor q in
  match (q - inject_Z f ?= 1 # 2)%Q with
  | Lt => f
  | Gt => (f + 1)%Z
  | Eq => if Z.even f then f else (f + 1)%Z
  end.

(** The double nearest to [q]: a mantissa of 53 bits, and exponents from
    -1022 on, below which the doubles are the multiples of
    [2 ^ -1074]. *)
Definition round (q : Q) : Q :=
  if Qeq_bool q 0 then 0
  else
    let e := Z.max (exponent q) (-1022) in
    let ulp := pow2 (e - 52) in
    Qred (inject_Z (nearest_even (q / ulp)) * ulp).

Definition add (x y : Q) : Q := round (x + y).
Definition sub (x y : Q) : Q := round (x - y).
Definition mul (x y : Q) : Q := round (x * y).
Definition div (x y : Q) : Q := round (x / y).

End Float64.

(** ** The iteration with login and recommendations boosted by preferred
       genres (corpus lines 52 to 363) *)

Module Dashboard52.

(** A row of [recs_df]: columns [movie_id], [title], [score]. *)
Record Rec := mkRec {
  movie_id : Z;
  title : string;
  score : Q
}.

(** A row of the catalog table [movie_metadata_df]; a frame need not
    have both text columns, see [Metadata]. *)
Record MetaRow := mkMetaRow {
  meta_movie_id : Z;
  genres_clean : option string;
  genres : option string
}.

(** The catalog table: which of the two genre columns it has, its rows,
    and the column [genres_list] once it has been assigned. *)
Record Metadata := mkMetadata {
  has_genres_clean : bool;
  has_genres : bool;
  meta_rows : list MetaRow;
  meta_genres_list : option (list (list string))
}.

(** A row of the frame [boost_recommendations] builds: the columns of
    [recs_df], then [genres_list] ([None] is the missing value a left
    merge leaves), [overlap] and [score_boosted]. *)
Record Boosted := mkBoosted {
  rec : Rec;
  genres_list : option (list string);
  overlap : Q;
  score_boosted : Q
}.

(** The frames of this iteration, by the columns they have. *)
Inductive frame :=
| FRecs (rows : list Rec)
| FMeta (meta : Metadata)
| FMerged (rows : list (Rec * option (list string)))
| FOverlap (rows : list (Rec * option (list string) * Q))
| FBoosted (rows : list Boosted).

(** Frames are Python objects: a variable holds a reference into the
    store, [df[col] = ...] writes through the reference, and [copy],
    [merge] and [sort_values] make new objects. *)
Abbreviation ref := nat.
Abbreviation heap := (list frame).
Definition M (A : Type) : Type := heap → option (A * heap).

Definition ret {A} (a : A) : M A := λ h, Some (a, h).
Definition bind {A B} (m : M A) (k : A → M B) : M B :=
  λ h, match m h with
       | Some (a, h') => k a h'
       | None => None
       end.
Definition stuck {A} : M A := λ _, None.

Notation "'do' x <- m ; k" := (bind m (λ x, k))
  (at level 10, x name, m at level 100, k at level 200).
Notation "m ;; k" := (bind m (λ _, k))
  (at level 100, k at level 200, right associativity).

Definition new (f : frame) : M ref := λ h, Some (length h, h ++ [f]).
Definition load (r : ref) : M frame := λ h, (λ f, (f, h)) <$> h !! r.
Definition store (r : ref) (f : frame) : M unit :=
  λ h, if decide (r < length h) then Some (tt, <[r := f]> h) else None.

Definition load_recs (r : ref) : M (list Rec) :=
  do f <- load r; match f with FRecs rows => ret rows | _ => stuck end.
Definition load_meta (r : ref) : M Metadata :=
  do f <- load r; match f with FMeta m => ret m | _ => stuck end.
Definition load_merged (r : ref) : M (list (Rec * option (list string))) :=
  do f <- load r; match f with FMerged rows => ret rows | _ => stuck end.
Definition load_overlap (r : ref) : M (list (Rec * option (list string) * Q)) :=
  do f <- load r; match f with FOverlap rows => ret rows | _ => stuck end.
Definition load_boosted (r : ref) : M (list Boosted) :=
  do f <- load r; match f with FBoosted rows => ret rows | _ => stuck end.

(** [[gg.strip() for gg in g.split("|")] if isinstance(g, str) else []] *)
Definition to_genres_list (g : option string) : list string :=
  match g with
  | Some s => Py.strip <$> Py.split "|" s
  | None => []
  end.

(** [meta['genres_list'] = col] *)
Definition set_genres_list (m : Metadata) (col : list (list string)) : Metadata :=
  mkMetadata (has_genres_clean m) (has_genres m) (meta_rows m) (Some col).

(** [meta[['movie_id', 'genres_list']]]; without the column it would be
    a [KeyError], which the program below never reaches. *)
Definition id_and_genres_list (m : Metadata) : option (list (Z * list string)) :=
  zip (meta_movie_id <$> meta_rows m) <$> meta_genres_list m.

(** The local function [overlap_boost] of [boost_recommendations]. *)
Definition overlap_boost (user_pref_genres : list string)
    (genres_list : option (list string)) : Q :=
  match genres_list with
  | None | Some [] => 0
  | Some gl =>
      let overlap :=
        size (list_to_set gl ∩ list_to_set user_pref_genres : gset string) in
      if decide (overlap = 0) then 0
      else inject_Z (Z.of_nat overlap)
           / inject_Z (Z.of_nat (Nat.max (length user_pref_genres) 1))
  end.

(** [max(1e-6, (max_s - min_s))]; a comparison with NaN is false, so
    an empty column gives [1e-6]. *)
Definition score_range (scores : list Q) : Q :=
  match Pd.series_min scores, Pd.series_max scores with
  | Some min_s, Some max_s => Pd.max (1 # 1000000) (max_s - min_s)
  | _, _ => 1 # 1000000
  end.

Section boost.
Context `{!Pd.SortValues}.

Definition boost_recommendations (recs_df : ref)
    (user_pref_genres : list string) (movie_metadata_df : ref)
    (boost_factor : Q) : M ref :=
  match user_pref_genres with
  | [] => ret recs_df
  | _ :: _ =>
      (* meta = movie_metadata_df.copy() *)
      do m <- load_meta movie_metadata_df;
      do meta <- new (FMeta m);
      (* meta['genres_list'] = ... *)
      do m <- load_meta meta;
      store meta (FMeta (set_genres_list m
        (if has_genres_clean m then
           (λ r, to_genres_list (genres_clean r)) <$> meta_rows m
         else if has_genres m then
           (λ r, to_genres_list (genres r)) <$> meta_rows m
         else replicate (length (meta_rows m)) [])));;
      (* merged = recs_df.merge(meta[['movie_id', 'genres_list']], ...) *)
      do recs <- load_recs recs_df;
      do m <- load_meta meta;
      do merged <- match id_and_genres_list m with
                   | Some cat => new (FMerged (Pd.merge_left movie_id recs cat))
                   | None => stuck
                   end;
      (* merged['overlap'] = merged['genres_list'].apply(overlap_boost) *)
      do rows <- load_merged merged;
      store merged (FOverlap
        ((λ r, (r, overlap_boost user_pref_genres r.2)) <$> rows));;
      (* merged['score_boosted'] = merged['score'] + ... *)
      do rows <- load_overlap merged;
      let range := score_range ((λ r, score r.1.1) <$> rows) in
      store merged (FBoosted
        ((λ r, mkBoosted r.1.1 r.1.2 r.2
                 (score r.1.1 + boost_factor * range * r.2)) <$> rows));;
      (* merged.sort_values(by='score_boosted', ascending=False) *)
      do rows <- load_boosted merged;
      do sorted <- new (FBoosted (Pd.sort_values_desc score_boosted rows));
      ret sorted
  end.

(** What the page shows for one row: title, boosted score, genres. *)
Definition card : Type := string * Q * list string.

(** The loop over [top_boosted.iterrows()]: [row['score_boosted']]
    is a [KeyError] on a frame without that column, and joining the
    genres is a [TypeError] when [genres_list] is the missing value,
    which is not falsy. *)
Definition show_rows (f : frame) (top_n : nat) : Py.result (list card) :=
  match f with
  | FBoosted rows =>
      Py.map_result
        (λ row, match genres_list row with
                | Some gl => Py.Ok (title (rec row), score_boosted row, gl)
                | None => Py.Raise Py.TypeError
                end)
        (take top_n rows)
  | FRecs rows =>
      Py.map_result (λ _, Py.Raise Py.KeyError) (take top_n rows)
  | _ => Py.Raise Py.KeyError
  end.

(** The page, from the recommendations of the model on: nothing when
    there are none, else the cards of the first [top_n] boosted rows. *)
Definition show_recommendations (recs_df : ref) (user_pref : list string)
    (movies_df : ref) (top_n : nat) : M (Py.result (list card)) :=
  do recs <- load_recs recs_df;
  match recs with
  | [] => ret (Py.Ok [])
  | _ :: _ =>
      do boosted <- boost_recommendations recs_df user_pref movies_df (1 # 4);
      do f <- load boosted;
      ret (show_rows f top_n)
  end.

(** [boost_recommendations] run on a store that holds just its two
    arguments; the result is the frame it returns. *)
Definition boost (recs : list Rec) (user_pref_genres : list string)
    (meta : Metadata) (boost_factor : Q) : option frame :=
  match boost_recommendations 0 user_pref_genres 1 boost_factor
          [FRecs recs; FMeta meta] with
  | Some (r, h) => h !! r
  | None => None
  end.
End boost.

(** *** [boost_recommendations] in the arithmetic of the program

    Above, the boosted scores are computed exactly.  The program
    computes them in doubles, where every operation rounds: two scores
    that are equal when computed exactly need not be equal then, and the
    sort orders the rows by the scores as computed.  Here the same
    function is written with the operations on doubles.  A score of
    [recs_df] and the boost factor stand for the doubles nearest to
    them, as the decimal numerals of the program do. *)
Module Double.

(** The local function [overlap_boost]: [/] on two integers gives the
    double nearest to their quotient. *)
Definition overlap_boost (user_pref_genres : list string)
    (genres_list : option (list string)) : Q :=
  match genres_list with
  | None | Some [] => 0
  | Some gl =>
      let overlap :=
        size (list_to_set gl ∩ list_to_set user_pref_genres : gset string) in
      if decide (overlap = 0) then 0
      else Float64.div (inject_Z (Z.of_nat overlap))
             (inject_Z (Z.of_nat (Nat.max (length user_pref_genres) 1)))
  end.

(** [max(1e-6, (max_s - min_s))] *)
Definition score_range (scores : list Q) : Q :=
  match Pd.series_min scores, Pd.series_max scores with
  | Some min_s, Some max_s =>
      Pd.max (Float64.round (1 # 1000000)) (Float64.sub max_s min_s)
  | _, _ => Float64.round (1 # 1000000)
  end.

Section boost.
Context `{!Pd.SortValues}.

Definition boost_recommendations (recs_df : ref)
    (user_pref_genres : list string) (movie_metadata_df : ref)
    (boost_factor : Q) : M ref :=
  match user_pref_genres with
  | [] => ret recs_df
  | _ :: _ =>
      (* meta = movie_metadata_df.copy() *)
      do m <- load_meta movie_metadata_df;
      do meta <- new (FMeta m);
      (* meta['genres_list'] = ... *)
      do m <- load_meta meta;
      store meta (FMeta (set_genres_list m
        (if has_genres_clean m then
           (λ r, to_genres_list (genres_clean r)) <$> meta_rows m
         else if has_genres m then
           (λ r, to_genres_list (genres r)) <$> meta_rows m
         else replicate (length (meta_rows m)) [])));;
      (* merged = recs_df.merge(meta[['movie_id', 'genres_list']], ...) *)
      do recs <- load_recs recs_df;
      do m <- load_meta meta;
      do merged <- match id_and_genres_list m with
                   | Some cat => new (FMerged (Pd.merge_left movie_id recs cat))
                   | None => stuck
                   end;
      (* merged['overlap'] = merged['genres_list'].apply(overlap_boost) *)
      do rows <- load_merged merged;
      store merged (FOverlap
        ((λ r, (r, overlap_boost user_pref_genres r.2)) <$> rows));;
      (* merged['score_boosted'] = merged['score'] + ... *)
      do rows <- load_overlap merged;
      let range := score_range ((λ r, Float64.round (score r.1.1)) <$> rows) in
      store merged (FBoosted
        ((λ r, mkBoosted r.1.1 r.1.2 r.2
                 (Float64.add (Float64.round (score r.1.1))
                    (Float64.mul
                       (Float64.mul (Float64.round boost_factor) range) r.2)))
           <$> rows));;
      (* merged.sort_values(by='score_boosted', ascending=False) *)
      do rows <- load_boosted merged;
      do sorted <- new (FBoosted (Pd.sort_values_desc score_boosted rows));
      ret sorted
  end.

(** [boost_recommendations] run on a store that holds just its two
    arguments; the result is the frame it returns. *)
Definition boost (recs : list Rec) (user_pref_genres : list string)
    (meta : Metadata) (boost_factor : Q) : option frame :=
  match boost_recommendations 0 user_pref_genres 1 boost_factor
          [FRecs recs; FMeta meta] with
  | Some (r, h) => h !! r
  | None => None
  end.
End boost.

End Double.

End Dashboard52.


(** ** The catalog table [movies_df] of the iterations with a database *)

Module Catalog.

(** A row of [movie_metadata.csv]: columns [title], [genres_clean],
    [avg_rating]. *)
Record movie := Movie {
  title : string;
  genres_clean : option string;
  avg_rating : Q
}.

(** [df[df['title'].isin(titles)]] *)
Definition isin (titles : list string) (df : list movie) : list movie :=
  filter (λ m, title m ∈ titles) df.

(** [df[~df['title'].isin(titles)]] *)
Definition not_isin (titles : list string) (df : list movie) : list movie :=
  filter (λ m, title m ∉ titles) df.

(** [df['genres_clean'].str.split('|').explode()]: the pieces of every
    cell, row after row; a missing cell stays one missing value. *)
Definition split_explode (df : list movie) : list (option string) :=
  m ← df;
  match genres_clean m with
  | Some s => Some <$> Py.split "|" s
  | None => [None]
  end.

(** [s.dropna()] *)
Definition dropna (s : list (option string)) : list string := omap id s.

End Catalog.

(** ** The first iteration with a database (corpus lines 365 to 644) *)

Module Dashboard365.
Import Catalog.

Definition TOP_N : nat := 12.

Definition mark_watched (username movie_title : string) (db : Db.table) : Db.table :=
  match filter (λ r, Db.matches username movie_title r) db with
  | [] => Db.insert username movie_title db
  | _ :: _ => db
  end.

Definition get_watched (db : Db.table) (username : string) : list string :=
  Db.select_titles username db.

(** The series [watched_genres] of [get_top_genres], after [dropna]. *)
Definition watched_genres (movies_df : list movie) (watched : list string) : list string :=
  dropna (split_explode (isin watched movies_df)).

Definition get_top_genres (movies_df : list movie) (db : Db.table)
    (username : string) (k : nat) : list string :=
  let watched := get_watched db username in
  match watched with
  | [] => []
  | _ :: _ =>
      (Py.most_common k (Py.Counter (watched_genres movies_df watched))).*1
  end.

(** [any(gen in g for gen in top_genres)] on strings. *)
Definition any_genre_in (top_genres : list string) (g : string) : bool :=
  existsb (λ gen, Py.contains gen g) top_genres.

Section recs.
Context `{!Pd.SortValues}.
Context (final_recs : gmap Z (list string)) (movies_df : list movie).

Definition get_genre_recommendations (db : Db.table) (username : string)
    (top_n : nat) : list string :=
  let watched : gset string := list_to_set (get_watched db username) in
  if decide (watched = ∅) then
    title <$> take top_n (Pd.sort_values_desc avg_rating movies_df)
  else
    let top_genres := get_top_genres movies_df db username 4 in
    let cand := filter (λ m, title m ∉ watched) movies_df in
    let cand :=
      filter (λ m, any_genre_in top_genres (default "" (genres_clean m)) = true)
             cand in
    let cand := take top_n (Pd.sort_values_desc avg_rating cand) in
    title <$> cand.

(** The titles [rec_titles] of the recommendations tab. *)
Definition recommendations (db : Db.table) (username : string) : list string :=
  let user_id := Py.int username in
  match user_id ≫= (final_recs !!.) with
  | Some recs => take TOP_N recs
  | None => get_genre_recommendations db username TOP_N
  end.

End recs.
End Dashboard365.

(** ** The iteration that reads a list of predictions (corpus lines 871
       to 943) *)

Module Dashboard871.

(** A row of [movies_meta]: columns [movie_id] and [title]. *)
Record meta_row := MetaRow {
  movie_id : Z;
  title : string
}.

(** A prediction [(user, item, score)]. *)
Definition pred : Type := Z * Z * Q.

Definition recommend_for_user (user_id : Z) (model_data : list pred)
    (movies_meta : list meta_row) (top_n : nat) : list (string * Q) :=
  let hybrid_preds := model_data in
  let user_preds := filter (λ p : pred, p.1.1 = user_id) hybrid_preds in
  let top_preds :=
    take top_n (Py.sorted_desc (λ y x : pred, negb (Qle_bool y.2 x.2)) user_preds) in
  (λ p : pred,
     let title_row := filter (λ m, movie_id m = p.1.2) movies_meta in
     match title_row with
     | m :: _ => (title m, p.2)
     | [] => ("Movie ID " +:+ pretty p.1.2, p.2)
     end) <$> top_preds.

End Dashboard871.

(** ** An iteration that inserts without looking (corpus lines 1299 to
       1433) *)

Module Dashboard1299.

Definition mark_watched (username movie_title : string) (db : Db.table) : Db.table :=
  Db.insert username movie_title db.

Definition get_watched (db : Db.table) (username : string) : list string :=
  Db.select_titles username db.

End Dashboard1299.

(** ** The iteration with the silent choice between the model and the
       genres (corpus lines 1901 to 2059) *)

Module Dashboard1901.
Import Catalog.

Definition TOP_N : nat := 10.

Definition mark_watched (username movie_title : string) (db : Db.table) : Db.table :=
  Db.insert username movie_title db.

Definition get_watched (db : Db.table) (username : string) : list string :=
  Db.select_titles username db.

(** [any(genre in g for genre in top_genres)]: the generator stops at
    the first genre found; [in] raises when its right operand is the
    missing value (a float) and when its left operand is. *)
Fixpoint any_genre_in (top_genres : list (option string)) (g : option string)
    : Py.result bool :=
  match top_genres with
  | [] => Py.Ok false
  | genre :: rest =>
      match g, genre with
      | Some s, Some p =>
          if Py.contains p s then Py.Ok true else any_genre_in rest g
      | _, _ => Py.Raise Py.TypeError
      end
  end.

Section recs.
Context `{!Pd.SortValues}.
Context (final_recs : gmap Z (list string)) (movies_df : list movie).

(** The mask that [apply] computes for a frame without rows is a column
    of objects, not of booleans: indexing with it selects columns, none
    of them, and [sort_values] then finds no column [avg_rating]. *)
Definition get_genre_recommendations (db : Db.table) (username : string)
    (top_n : nat) : Py.result (list string) :=
  let watched := get_watched db username in
  match watched with
  | [] => Py.Ok (title <$> take top_n (Pd.sort_values_desc avg_rating movies_df))
  | _ :: _ =>
      let watched_genres := split_explode (isin watched movies_df) in
      let top_genres := (Py.most_common 4 (Py.Counter watched_genres)).*1 in
      let recs := not_isin watched movies_df in
      Py.bind
        (Py.map_result (λ m, any_genre_in top_genres (genres_clean m)) recs)
        (λ mask,
           match mask with
           | [] => Py.Raise Py.KeyError
           | _ :: _ =>
               let recs :=
                 (filter (λ mb : movie * bool, mb.2 = true) (zip recs mask)).*1 in
               let recs := take top_n (Pd.sort_values_desc avg_rating recs) in
               Py.Ok (title <$> recs)
           end)
  end.

(** The titles the recommendations tab works with. *)
Definition recommendations (db : Db.table) (username : string)
    : Py.result (list string) :=
  let user_id := Py.int username in
  match user_id ≫= (final_recs !!.) with
  | Some recs => Py.Ok recs
  | None => get_genre_recommendations db username TOP_N
  end.

(** [rec_df], the rows the tab shows. *)
Definition rec_df (recs : list string) : list movie := isin recs movies_df.

End recs.
End Dashboard1901.

(** ** The iteration that gives a reason for each recommendation (corpus
       lines 2605 to 2861) *)

Module Dashboard2605.
Import Catalog.

Definition TOP_N : nat := 10.

Definition mark_watched (username movie_title : string) (db : Db.table) : Db.table :=
  Db.insert username movie_title db.

Definition get_watched (db : Db.table) (username : string) : list string :=
  Db.select_titles username db.

(** [str(g)] on a cell. *)
Definition str (g : option string) : string :=
  match g with
  | Some s => s
  | None => "nan"
  end.

(** [any(genre in str(g) for genre in top_genres)] *)
Fixpoint any_genre_in (top_genres : list (option string)) (g : option string)
    : Py.result bool :=
  match top_genres with
  | [] => Py.Ok false
  | Some p :: rest =>
      if Py.contains p (str g) then Py.Ok true else any_genre_in rest g
  | None :: _ => Py.Raise Py.TypeError
  end.

Section recs.
Context `{!Pd.SortValues}.
Context (final_recs : gmap Z (list string)) (movies_df : list movie).

(** Returns the titles and the most seen genre; the outer [None] of the
    genre is Python's [None], the inner one the missing value. *)
Definition get_genre_recommendations (db : Db.table) (username : string)
    (top_n : nat) : Py.result (list string * option (option string)) :=
  let watched := get_watched db username in
  match watched with
  | [] =>
      Py.Ok (title <$> take top_n (Pd.sort_values_desc avg_rating movies_df), None)
  | _ :: _ =>
      let watched_genres := split_explode (isin watched movies_df) in
      let top_genre := head (Py.most_common 1 (Py.Counter watched_genres)).*1 in
      let top_genres := (Py.most_common 4 (Py.Counter watched_genres)).*1 in
      let recs := not_isin watched movies_df in
      Py.bind
        (Py.map_result (λ m, any_genre_in top_genres (genres_clean m)) recs)
        (λ mask,
           let recs := (filter (λ mb : movie * bool, mb.2 = true) (zip recs mask)).*1 in
           let recs := take top_n (Pd.sort_values_desc avg_rating recs) in
           Py.Ok (title <$> recs, top_genre))
  end.

(** The titles of the recommendations tab, after the watched ones are
    removed. *)
Definition recommendations (db : Db.table) (username : string)
    : Py.result (list string) :=
  let user_id := Py.int username in
  Py.bind
    match user_id ≫= (final_recs !!.) with
    | Some recs => Py.Ok recs
    | None =>
        Py.bind (get_genre_recommendations db username TOP_N)
                (λ r, Py.Ok r.1)
    end
    (λ recs,
       let watched_movies : gset string := list_to_set (get_watched db username) in
       Py.Ok (filter (λ t, t ∉ watched_movies) recs)).

(** [rec_df], the rows the tab shows. *)
Definition rec_df (recs : list string) : list movie := isin recs movies_df.

End recs.
End Dashboard2605.

(** ** The first iteration with an unwatch action (corpus lines 3079 to
       3262) *)

Module Dashboard3079.

Definition mark_watched (username movie_title : string) (db : Db.table) : Db.table :=
  Db.insert username movie_title db.

Definition unwatch_movie (username movie_title : string) (db : Db.table) : Db.table :=
  Db.delete username movie_title db.

End Dashboard3079.

(** ** The last iteration with a database (corpus lines 3556 to 3883) *)

Module Dashboard3556.
Import Catalog.

(** [INSERT OR IGNORE] on the table declared with
    [UNIQUE(username, movie_title)]; the statement does not raise, so the
    handler around it is never entered. *)
Definition mark_watched (username movie_title : string) (db : Db.table) : Db.table :=
  if decide (Db.WatchedRow username movie_title ∈ db) then db
  else Db.insert username movie_title db.

(** The [DELETE] does not raise, so the handler around it is never
    entered. *)
Definition unwatch_movie (username movie_title : string) (db : Db.table) : Db.table :=
  Db.delete username movie_title db.

(** The arguments of one [movie_card] call of the recommendations tab:
    title, genres, rating, watched. *)
Definition card : Type := string * option string * Q * bool.

(** The loop [for title in recs] of the recommendations tab. *)
Definition recommendation_cards (movies_df : list movie)
    (watched_now : gset string) (recs : list string) : list card :=
  title ← recs;
  let row := filter (λ m, Catalog.title m = title) movies_df in
  match row with
  | [] => []
  | row :: _ =>
      [(title, genres_clean row, avg_rating row, bool_decide (title ∈ watched_now))]
  end.

End Dashboard3556.


(** ** More of the Python built-ins *)

Module PyText.

(** A character of the class [[A-Za-z0-9]]. *)
Definition isalnum (c : ascii) : bool :=
  let n := nat_of_ascii c in
  ((48 <=? n) && (n <=? 57)) || ((65 <=? n) && (n <=? 90))
  || ((97 <=? n) && (n <=? 122)).

(** [re.sub(r'[^A-Za-z0-9]+', '_', s)]: every maximal run of characters
    outside the class becomes one underscore.  [in_run] tells that the
    character before was outside the class. *)
Fixpoint sub_non_alnum (in_run : bool) (s : string) : string :=
  match s with
  | EmptyString => EmptyString
  | String c s' =>
      if isalnum c then String c (sub_non_alnum false s')
      else if in_run then sub_non_alnum true s'
      else String "_" (sub_non_alnum true s')
  end.

(** [s[:n]] *)
Fixpoint slice_to (n : nat) (s : string) : string :=
  match n, s with
  | S n', String c s' => String c (slice_to n' s')
  | _, _ => EmptyString
  end.

(** [s.replace(old, new)] for [old] of one character. *)
Fixpoint replace (old : ascii) (new : string) (s : string) : string :=
  match s with
  | EmptyString => EmptyString
  | String c s' =>
      if decide (c = old) then new +:+ replace old new s'
      else String c (replace old new s')
  end.

(** [sep.join(l)] *)
Fixpoint join (sep : string) (l : list string) : string :=
  match l with
  | [] => EmptyString
  | [x] => x
  | x :: l' => x +:+ sep +:+ join sep l'
  end.

(** [round(x)] of a number to an integer: to the nearest, and to the
    even one of the two when [x] lies half way. *)
Definition round (x : Q) : Z :=
  let f := Qfloor x in
  let r := (x - inject_Z f)%Q in
  if Qle_bool r (1 # 2) then
    if Qle_bool (1 # 2) r then (if Z.even f then f else f + 1)%Z else f
  else (f + 1)%Z.

(** [min(a, b)] on two numbers: [b] only if [b < a]. *)
Definition min (a b : Q) : Q := if Qle_bool a b then a else b.

(** [list(dict.fromkeys(l))]: the elements in the order in which they
    are first met. *)
Definition fromkeys {K : Type} `{EqDecision K} (l : list K) : list K :=
  foldl (λ keys k, if decide (k ∈ keys) then keys else keys ++ [k]) [] l.

End PyText.

(** ** Star ratings

    The two characters of which [rating_to_stars] builds its string. *)

Inductive star := FullStar | HollowStar.

#[global] Instance star_eq_dec : EqDecision star.
Proof. solve_decision. Defined.

(** ["⭐" * full + "☆" * (5 - full)]; a string times a negative number
    is empty. *)
Definition stars (full : Z) : list star :=
  replicate (Z.to_nat full) FullStar ++ replicate (Z.to_nat (5 - full)) HollowStar.

(** ** Sorting by a column of positions *)

Module PdMore.

(** [df.sort_values(key)], ascending, on a column of indices.  As for
    [Pd.SortValues] the algorithm is the library's default, of which
    only the contract is known: the same rows, in ascending order of the
    key. *)
Class SortValuesAsc := {
  sort_values_asc : ∀ {A : Type}, (A → nat) → list A → list A;
  sort_values_asc_perm : ∀ (A : Type) (key : A → nat) (l : list A),
    sort_values_asc key l ≡ₚ l;
  sort_values_asc_sorted : ∀ (A : Type) (key : A → nat) (l : list A),
    StronglySorted (λ x y, key x ≤ key y) (sort_values_asc key l)
}.

End PdMore.

(** ** More of the first iteration with a database (corpus lines 365 to
       644) *)

Module Dashboard365More.
Import Catalog.

Definition slug_key (text : string) : string :=
  PyText.slice_to 40 (PyText.sub_non_alnum false text).

(** [enumerate(l)], counting from [i]. *)
Fixpoint enumerate_from {A : Type} (i : nat) (l : list A) : list (nat * A) :=
  match l with
  | [] => []
  | x :: l' => (i, x) :: enumerate_from (S i) l'
  end.

(** [{t: i for i, t in enumerate(ordered_titles)}]: a title met again
    takes the later index. *)
Definition order_map (ordered_titles : list string) : gmap string nat :=
  foldl (λ m it, <[it.2 := it.1]> m) ∅ (enumerate_from 0 ordered_titles).

(** The rows kept all have their title in [order_map], so that the
    column [__order] has no missing value; it is dropped at the end, and
    the frame keeps its three columns. *)
Definition order_df_by_titles `{!PdMore.SortValuesAsc} (df : list movie)
    (ordered_titles : list string) : list movie :=
  let order_map := order_map ordered_titles in
  let df := isin ordered_titles df in
  PdMore.sort_values_asc (λ m, default 0 (order_map !! title m)) df.

End Dashboard365More.

(** ** The iteration with users in memory (corpus lines 725 to 869) *)

Module Dashboard725.

(** The iteration at line 3079 has the same function (corpus line
    3169). *)
Definition rating_to_stars (rating : Q) : list star :=
  let full_stars := PyText.round rating in
  stars full_stars.

End Dashboard725.

(** ** The iteration with the cards of one column (corpus lines 2862 to
       3078) *)

Module Dashboard2862.

(** On a number; the handler for what [float] refuses is not entered. *)
Definition rating_to_stars (r : Q) : list star :=
  let stars_n := PyText.round (PyText.min (Pd.max r 0) 5) in
  stars stars_n.

End Dashboard2862.

(** ** More of the last iteration with a database (corpus lines 3556 to
       3883) *)

Module Dashboard3556More.

(** [None] is a missing value, for which [pd.isna] holds. *)
Definition split_genres (genres_str : option string) : list string :=
  match genres_str with
  | None => []
  | Some g =>
      let s := PyText.replace "|" "," g in
      filter (λ g, g ≠ EmptyString) (Py.strip <$> Py.split "," s)
  end.

Definition rating_to_stars (rating : Q) : list star :=
  let full := PyText.round rating in
  let full := Z.max 0 (Z.min 5 full) in
  stars full.

(** The order of the index that keeps [UNIQUE(username, movie_title)]:
    for the rows of one user, that of the titles compared byte by
    byte. *)
Definition title_le : relation string := λ s1 s2, String.leb s1 s2 = true.

#[global] Instance title_le_dec : RelDecision title_le.
Proof. intros s1 s2. unfold title_le. apply _. Defined.

(** The table of this iteration has the constraint, and SQLite answers
    [SELECT movie_title FROM watched WHERE username=?] from its index:
    the titles come in the order of the index, not in that of the
    insertions. *)
Definition get_watched (db : Db.table) (username : string) : list string :=
  merge_sort title_le (Db.select_titles username db).

(** A row of the frame that [pd.read_csv] hands to [load_movies], with
    the three required columns; [None] is a missing cell and, for the
    rating, also a cell that [pd.to_numeric] cannot read. *)
Record raw_movie := RawMovie {
  raw_title : option string;
  raw_genres : option string;
  raw_rating : option Q
}.

(** [df.drop_duplicates(subset=["title"])]: the first row of every title
    stays; [seen] holds the titles met so far.  Missing titles count as
    equal to one another. *)
Fixpoint drop_duplicates (seen : list (option string)) (df : list raw_movie)
    : list raw_movie :=
  match df with
  | [] => []
  | r :: df' =>
      if decide (raw_title r ∈ seen) then drop_duplicates seen df'
      else r :: drop_duplicates (raw_title r :: seen) df'
  end.

(** [col.astype(str)] on a cell: a string stays as it is.  What a
    missing cell becomes is the choice of the library and depends on its
    version and on the type it has given the column: the text "nan" up
    to version 2 and in a column of numbers, the missing value in a
    column of strings from version 3 on.  [missing] is what it
    becomes. *)
Definition astype_str (missing : option string) (cell : option string)
    : option string :=
  match cell with
  | Some s => Some s
  | None => missing
  end.

(** A row of the frame that [load_movies] returns: a title or a genres
    cell can be missing where the library keeps missing cells. *)
Record loaded_movie := LoadedMovie {
  loaded_title : option string;
  loaded_genres : option string;
  loaded_rating : Q
}.

(** [load_movies], from the frame read: the duplicates are dropped
    first, then the two text columns go through [astype(str)], which
    makes [missing_title] of a missing title and [missing_genres] of a
    missing genres cell, and [fillna(0.0)] gives a rating to every
    row. *)
Definition load_movies (missing_title missing_genres : option string)
    (df : list raw_movie) : list loaded_movie :=
  (λ r, LoadedMovie (astype_str missing_title (raw_title r))
          (astype_str missing_genres (raw_genres r))
          (default 0%Q (raw_rating r)))
  <$> drop_duplicates [] df.

Section recs.
Import Catalog.
Context `{!Pd.SortValues}.
(** [final_recs]: the lists the model holds under a name. *)
Context (final_recs : gmap string (list string)) (movies_df : list movie).

(** The genres are those of [get_combined_recommendations], where a
    watched row whose cell has no genre in it leaves a missing value;
    [x in g] is [Dashboard1901.any_genre_in]. *)
Definition get_genre_top_rated (genres : list (option string))
    (exclude_titles : gset string) (top_n : nat) : Py.result (list string) :=
  match genres with
  | [] =>
      Py.Ok (title <$> take top_n
               (Pd.sort_values_desc avg_rating
                  (filter (λ m, title m ∉ exclude_titles) movies_df)))
  | _ :: _ =>
      Py.bind
        (Py.map_result (λ m, Dashboard1901.any_genre_in genres (genres_clean m))
           movies_df)
        (λ mask,
           let rows :=
             (filter (λ mb : movie * bool, mb.2 = true ∧ title mb.1 ∉ exclude_titles)
                (zip movies_df mask)).*1 in
           Py.Ok (title <$> take top_n (Pd.sort_values_desc avg_rating rows)))
  end.

(** [...["genres_clean"].astype(str).apply(split_genres).explode()]: an
    empty list explodes to one missing value. *)
Definition watched_genres_series (watched_list : gset string)
    : list (option string) :=
  m ← filter (λ m, title m ∈ watched_list) movies_df;
  match split_genres (Some (Dashboard2605.str (genres_clean m))) with
  | [] => [None]
  | gs => Some <$> gs
  end.

Definition get_combined_recommendations (db : Db.table) (username : string)
    (top_n : nat) : Py.result (list string) :=
  let watched_list : gset string := list_to_set (get_watched db username) in
  let hybrid := default [] (final_recs !! username) in
  let watched_genres_series := watched_genres_series watched_list in
  let top_genres :=
    match watched_genres_series with
    | [] => []
    | _ :: _ => (Py.most_common 3 (Py.Counter watched_genres_series)).*1
    end in
  Py.bind (get_genre_top_rated top_genres watched_list (top_n * 3))
    (λ genre_recs,
       let overall_top :=
         title <$> take (top_n * 3)
           (Pd.sort_values_desc avg_rating
              (filter (λ m, title m ∉ watched_list) movies_df)) in
       let merged := PyText.fromkeys (hybrid ++ genre_recs ++ overall_top) in
       let ranked :=
         title <$> take top_n
           (Pd.sort_values_desc avg_rating
              (filter (λ m, title m ∈ merged) movies_df)) in
       Py.Ok ranked).

End recs.

End Dashboard3556More.

(** ** The iterations that collect the recommendations in a loop (corpus
       lines 1299 to 1433, 3263 to 3419 and 3420 to 3555) *)

Module Dashboard3263.
Import Catalog.

Definition TOP_N : nat := 10.

(** What a call gives: a value, or the [AttributeError] of a method
    called on a missing value. *)
Inductive outcome (A : Type) :=
| Return (a : A)
| AttributeError.
Arguments Return {A} a.
Arguments AttributeError {A}.

Definition get_watched (db : Db.table) (username : string) : list string :=
  Db.select_titles username db.

(** [any(g in row['genres_clean'].split('|') for g in top_genres)]: the
    cell is split once for every genre tried, so not at all when there
    is no genre; a missing value among the genres is in no list of
    strings. *)
Definition any_genre_of (top_genres : list (option string)) (cell : option string)
    : outcome bool :=
  match top_genres with
  | [] => Return false
  | _ :: _ =>
      match cell with
      | None => AttributeError
      | Some s =>
          Return (existsb (λ g, match g with
                                | Some p => bool_decide (p ∈ Py.split "|" s)
                                | None => false
                                end) top_genres)
      end
  end.

(** The loop [for _, row in movies_df.iterrows()], from the rows that
    are left and the list [recs] so far. *)
Fixpoint collect (top_n : nat) (watched : list string)
    (top_genres : list (option string)) (rows : list movie) (recs : list string)
    : outcome (list string) :=
  match rows with
  | [] => Return recs
  | row :: rows' =>
      if decide (title row ∈ watched) then
        collect top_n watched top_genres rows' recs
      else
        match any_genre_of top_genres (genres_clean row) with
        | AttributeError => AttributeError
        | Return found =>
            let recs := if found then recs ++ [title row] else recs in
            if decide (top_n ≤ length recs) then Return recs
            else collect top_n watched top_genres rows' recs
        end
  end.

Section recs.
(** [final_recs]: the lists the model holds under a name.  The
    iterations at lines 1299 and 3420 call the column [genres]. *)
Context (final_recs : gmap string (list string)) (movies_df : list movie).

Definition get_genre_recommendations (db : Db.table) (username : string)
    (top_n : nat) : outcome (list string) :=
  let watched := get_watched db username in
  match watched with
  | [] => Return (take top_n (default [] (final_recs !! username)))
  | _ :: _ =>
      let watched_genres := split_explode (isin watched movies_df) in
      let top_genres := (Py.most_common 3 (Py.Counter watched_genres)).*1 in
      collect top_n watched top_genres movies_df []
  end.

End recs.
End Dashboard3263.

(** ** More of the iteration that gives a reason for each recommendation
       (corpus lines 2605 to 2861) *)

Module Dashboard2605More.
Import Catalog.

(** [to_set(genre_map.get(t))]: the outer [None] is that of [get], the
    inner one the missing value; [pd.isna] holds of both. *)
Definition to_set (g : option (option string)) : gset string :=
  match g with
  | Some (Some s) => list_to_set (Py.split "|" s)
  | _ => ∅
  end.

(** [(len(inter) / len(union)) if union else 0.0], as the exact ratio;
    the floats compare as the ratios do for sets of fewer than 2^26
    elements. *)
Definition score (rec_set w_set : gset string) : Q :=
  let union := rec_set ∪ w_set in
  let inter := rec_set ∩ w_set in
  if decide (union = ∅) then 0%Q
  else (Z.of_nat (size inter) # Pos.of_nat (size union))%Q.

(** The loop [for w, w_set in watched_sets.items()], from the best
    title and score so far. *)
Definition best_watched (rec_set : gset string)
    (watched_sets : list (string * gset string))
    : option string * Q :=
  foldl (λ best item,
           let score := score rec_set item.2 in
           if Qle_bool score best.2 then best else (Some item.1, score))
        (None, (-1)%Q) watched_sets.

Section reason.
Context (movies_df : list movie).

(** [movies_df.set_index("title")["genres_clean"].to_dict()]: of two
    rows with a title, the later one stays. *)
Definition genre_map : gmap string (option string) :=
  foldl (λ m row, <[title row := genres_clean row]> m) ∅ movies_df.

(** The body of the loop [for t in rec_titles], for a list [watched]
    that is not empty.  [watched_sets] is a dict: a title watched twice
    is in it once, where it was first met. *)
Definition reason (watched : list string) (t : string) : string :=
  let watched_sets :=
    (λ w, (w, to_set (genre_map !! w))) <$> PyText.fromkeys watched in
  let rec_set := to_set (genre_map !! t) in
  match (best_watched rec_set watched_sets).1 with
  | Some best_w =>
      if decide (best_w = EmptyString) then "Recommended for you"
      else "Because you watched " +:+ best_w
  | None => "Recommended for you"
  end.

Definition build_reason_map (db : Db.table) (username : string)
    (rec_titles : list string) : gmap string string :=
  let watched := Dashboard2605.get_watched db username in
  match watched with
  | [] => foldl (λ m t, <[t := "Recommended for you"]> m) ∅ rec_titles
  | _ :: _ => foldl (λ m t, <[t := reason watched t]> m) ∅ rec_titles
  end.

End reason.
End Dashboard2605More.

(** ** The wrapper around the model's function (file
       [recommender_wrapper.py]) and the dashboards that filter by genre
       (corpus lines 1 to 51, 645 to 724 and 3884 to 4010) *)

Module Wrapper.
Import Dashboard52.

(** A row of [movie_metadata[["movie_id", "genres_clean"]]]: in these
    files [genres_clean] holds a list of genres. *)
Abbreviation meta := (Z * list string)%type.

(** The step that makes the column [genres_clean] of a frame that has
    none, from the column [genres]. *)
Definition ensure_genres_clean (movie_metadata : list (Z * option string))
    : list meta :=
  (λ row, (row.1, to_genres_list row.2)) <$> movie_metadata.

Section wrapper.
(** The function the pickle holds; nothing is known of it. *)
Context (recommend_for_user_func : Z → list meta → nat → list Rec).
Context (movie_metadata : list meta).

(** [recommend_movies_for_user] of [recommender_wrapper.py]: a left
    merge. *)
Definition recommend_movies_for_user (user_id : Z) (top_n : nat)
    : list (Rec * option (list string)) :=
  let recommendations := recommend_for_user_func user_id movie_metadata top_n in
  let rec_df := recommendations in
  Pd.merge_left movie_id rec_df movie_metadata.

(** [dict(zip(movie_metadata["movie_id"], movie_metadata["genres_clean"]))]:
    of two rows with an id, the later one stays. *)
Definition genres_map : gmap Z (list string) :=
  foldl (λ m row, <[row.1 := row.2]> m) ∅ movie_metadata.

(** [recommend_movies_for_user] of the dashboards: [rec_df] never has
    the column, so it is always assigned, with [map]. *)
Definition recommend_movies_for_user_map (user_id : Z) (top_n : nat)
    : list (Rec * option (list string)) :=
  let recommendations := recommend_for_user_func user_id movie_metadata top_n in
  let rec_df := recommendations in
  (λ r, (r, genres_map !! movie_id r)) <$> rec_df.

End wrapper.

(** [rec_df[rec_df["genres_clean"].apply(lambda g_list: selected_genre in
    g_list)]]: [in] raises on the missing value, which is a float. *)
Definition genre_filter (selected_genre : string)
    (rec_df : list (Rec * option (list string)))
    : Py.result (list (Rec * option (list string))) :=
  Py.bind
    (Py.map_result
       (λ row : Rec * option (list string),
          match row.2 with
          | Some g_list => Py.Ok (bool_decide (selected_genre ∈ g_list))
          | None => Py.Raise Py.TypeError
          end) rec_df)
    (λ mask,
       Py.Ok (filter (λ rb : (Rec * option (list string)) * bool, rb.2 = true)
                (zip rec_df mask)).*1).

End Wrapper.

(** ** The users of the iteration that keeps them in memory (corpus
       lines 725 to 869) *)

Module Dashboard725Users.

(** A value of [users_db]: the hashed password and the list of watched
    titles. *)
Record user := User {
  password : string;
  watched : list string
}.

Section users.
(** [hashlib.sha256(password.encode()).hexdigest()]; nothing of the hash
    is used but that it is a function. *)
Context (hash_password : string → string).

Definition signup (username password : string) (users_db : gmap string user)
    : bool * gmap string user :=
  if decide (is_Some (users_db !! username)) then (false, users_db)
  else (true, <[username := User (hash_password password) []]> users_db).

Definition login (username password : string) (users_db : gmap string user) : bool :=
  match users_db !! username with
  | Some u => bool_decide (Dashboard725Users.password u = hash_password password)
  | None => false
  end.

(** [users_db[username]] raises [KeyError] for a name the dict lacks. *)
Definition watch_movie (username title : string) (users_db : gmap string user)
    : Py.result (gmap string user) :=
  match users_db !! username with
  | None => Py.Raise Py.KeyError
  | Some u =>
      if decide (title ∉ watched u)
      then Py.Ok (<[username := User (Dashboard725Users.password u) (watched u ++ [title])]>
                    users_db)
      else Py.Ok users_db
  end.

End users.
End Dashboard725Users.

(** ** The accounts of the last iteration (corpus lines 3635 to 3648) *)

Module Dashboard3556Users.

(** The rows of table [users], declared with [username TEXT PRIMARY
    KEY]: name and password. *)
Abbreviation table := (list (string * string)).

(** The [INSERT] raises [IntegrityError] when the name is in the table,
    and the handler leaves the table as it is. *)
Definition signup (username password : string) (db : table) : table :=
  if decide (username = EmptyString ∨ password = EmptyString) then db
  else if decide (username ∈ db.*1) then db
  else db ++ [(username, password)].

(** [SELECT 1 FROM users WHERE username=? AND password=?] *)
Definition login (username password : string) (db : table) : bool :=
  bool_decide (filter (λ r : string * string, r.1 = username ∧ r.2 = password) db ≠ []).

End Dashboard3556Users.

(** ** More of the first iteration with an unwatch action (corpus lines
       3079 to 3262) *)

Module Dashboard3079More.
Import Catalog.

Definition TOP_N : nat := 10.

(** The exceptions of [get_combined_recommendations]. *)
Inductive exn := AttributeError | TypeError.

Inductive outcome (A : Type) :=
| Return (a : A)
| Raise (e : exn).
Arguments Return {A} a.
Arguments Raise {A} e.

Definition get_watched (db : Db.table) (username : string) : list string :=
  Db.select_titles username db.

(** [[g.strip() for g, _ in ...]]: [strip] is no method of the missing
    value. *)
Fixpoint strip_all (keys : list (option string)) : outcome (list string) :=
  match keys with
  | [] => Return []
  | None :: _ => Raise AttributeError
  | Some g :: keys' =>
      match strip_all keys' with
      | Return gs => Return (Py.strip g :: gs)
      | Raise e => Raise e
      end
  end.

(** [any(g in row['genres_clean'] for g in top_genres)] on strings; a
    missing cell is no container. *)
Definition any_genre_in (top_genres : list string) (cell : option string)
    : outcome bool :=
  match top_genres with
  | [] => Return false
  | _ :: _ =>
      match cell with
      | None => Raise TypeError
      | Some s => Return (existsb (λ g, Py.contains g s) top_genres)
      end
  end.

(** The list [genre_recs]: the test of the genres comes before the test
    of the title. *)
Fixpoint genre_recs (top_genres : list string) (watched : list string)
    (rows : list movie) : outcome (list string) :=
  match rows with
  | [] => Return []
  | row :: rows' =>
      match any_genre_in top_genres (genres_clean row) with
      | Raise e => Raise e
      | Return found =>
          match genre_recs top_genres watched rows' with
          | Raise e => Raise e
          | Return recs =>
              Return (if found && bool_decide (title row ∉ watched)
                      then title row :: recs else recs)
          end
      end
  end.

Section recs.
Context `{!Pd.SortValues}.
(** [final_recs]: the lists the model holds under a name. *)
Context (final_recs : gmap string (list string)) (movies_df : list movie).

Definition get_combined_recommendations (db : Db.table) (username : string)
    (top_n : nat) : outcome (list string) :=
  let watched := get_watched db username in
  let hybrid_recs := default [] (final_recs !! username) in
  let watched_genres :=
    m ← isin watched movies_df;
    match genres_clean m with
    | Some s => Some <$> Py.split "," s
    | None => [None]
    end in
  match strip_all (Py.most_common 3 (Py.Counter watched_genres)).*1 with
  | Raise e => Raise e
  | Return top_genres =>
      match genre_recs top_genres watched movies_df with
      | Raise e => Raise e
      | Return genre_recs =>
          let combined := PyText.fromkeys (hybrid_recs ++ genre_recs) in
          let combined_sorted :=
            title <$> take top_n
              (Pd.sort_values_desc avg_rating
                 (filter (λ m, title m ∈ combined) movies_df)) in
          Return combined_sorted
      end
  end.

End recs.
End Dashboard3079More.
(** * The vocabulary of the statements *)

(** ** The frames [boost_recommendations] builds, as functions of its
       arguments *)

Module Boost52.
Import Dashboard52.

(** The column [genres_list] that [boost_recommendations] computes for
    the catalog. *)
Definition genres_list_of (m : Metadata) : list (list string) :=
  if has_genres_clean m then (λ r, to_genres_list (genres_clean r)) <$> meta_rows m
  else if has_genres m then (λ r, to_genres_list (genres r)) <$> meta_rows m
  else replicate (length (meta_rows m)) [].

(** The frame [merged] after the merge. *)
Definition merged_rows (recs : list Rec) (m : Metadata)
    : list (Rec * option (list string)) :=
  Pd.merge_left movie_id recs (zip (meta_movie_id <$> meta_rows m) (genres_list_of m)).

(** The frame [merged] after both columns are assigned, before the
    sort. *)
Definition scored_rows (recs : list Rec) (prefs : list string) (m : Metadata)
    (boost_factor : Q) : list Boosted :=
  let rows := merged_rows recs m in
  let range := score_range ((λ r, score r.1) <$> rows) in
  (λ r, mkBoosted r.1 r.2 (overlap_boost prefs r.2)
          (score r.1 + boost_factor * range * overlap_boost prefs r.2)) <$> rows.


End Boost52.

(** ** Occurrences in a list *)

Section occurrences.
Context {K : Type} `{EqDecision K}.

(** The distinct elements of a list, in the order in which they are first
    met. *)
Fixpoint first_seen (l : list K) : list K :=
  match l with
  | [] => []
  | x :: l' => x :: filter (λ y, y ≠ x) (first_seen l')
  end.

(** How often [k] occurs in [l]. *)
Definition occurrences (k : K) (l : list K) : nat :=
  length (filter (λ y, y = k) l).

(** The position at which [k] is first met in [l]; the length of [l]
    when it never is. *)
Fixpoint index_of (k : K) (l : list K) : nat :=
  match l with
  | [] => 0
  | x :: l' => if decide (x = k) then 0 else S (index_of k l')
  end.

End occurrences.

(** ** Predicates of the statements *)

(** [y > x] on rationals. *)
Definition Qgt_bool (y x : Q) : bool := negb (Qle_bool y x).



(** [lo] is the least and [hi] the greatest number of a column. *)
Definition is_min (lo : Q) (s : list Q) : Prop :=
  lo ∈ s ∧ ∀ x, x ∈ s → (lo <= x)%Q.
Definition is_max (hi : Q) (s : list Q) : Prop :=
  hi ∈ s ∧ ∀ x, x ∈ s → (x <= hi)%Q.

(** The number of distinct genres of an entry that are preferred. *)
Definition genres_in_common (gl prefs : list string) : nat :=
  length (remove_dups (filter (.∈ prefs) gl)).

(** The genres of a catalog row, from the genre column the table has. *)
Definition row_genres (m : Dashboard52.Metadata) (r : Dashboard52.MetaRow)
    : list string :=
  if Dashboard52.has_genres_clean m
  then Dashboard52.to_genres_list (Dashboard52.genres_clean r)
  else if Dashboard52.has_genres m
  then Dashboard52.to_genres_list (Dashboard52.genres r)
  else [].

(** [g] is what the catalog gives for [id]: the genres of a row with
    that id, or the missing value when there is no such row. *)
Definition catalog_genres (m : Dashboard52.Metadata) (id : Z)
    (g : option (list string)) : Prop :=
  match g with
  | Some gl => ∃ r, r ∈ Dashboard52.meta_rows m ∧
                    Dashboard52.meta_movie_id r = id ∧ gl = row_genres m r
  | None => id ∉ Dashboard52.meta_movie_id <$> Dashboard52.meta_rows m
  end.

(** The recommendations a frame returned by [boost_recommendations]
    holds. *)
Definition frame_recs (f : Dashboard52.frame) : list Dashboard52.Rec :=
  match f with
  | Dashboard52.FRecs rows => rows
  | Dashboard52.FBoosted rows => Dashboard52.rec <$> rows
  | _ => []
  end.

(** Descending order of the counts. *)
Definition by_count : relation (string * nat) := λ a b, b.2 ≤ a.2.

(** [m] has a genre string in which one of the genres occurs. *)
Definition matches_top_genre (top_genres : list (option string))
    (m : Catalog.movie) : bool :=
  match Catalog.genres_clean m with
  | Some s =>
      existsb (λ o, match o with
                    | Some p => Py.contains p s
                    | None => false
                    end) top_genres
  | None => false
  end.

(** The four genres most seen by the user, as the iteration at line 1901
    computes them. *)
Definition top_genres_1901 (movies_df : list Catalog.movie)
    (watched : list string) : list (option string) :=
  (Py.most_common 4
     (Py.Counter (Catalog.split_explode (Catalog.isin watched movies_df)))).*1.

(** ** Inputs of the examples *)

(** The catalog of the scenario of the specification: "A" is an action
    film, "B" a comedy, "C" action and drama. *)
Definition scenario_meta : Dashboard52.Metadata :=
  Dashboard52.mkMetadata true false
    [Dashboard52.mkMetaRow 1 (Some "Action") None;
     Dashboard52.mkMetaRow 2 (Some "Comedy") None;
     Dashboard52.mkMetaRow 3 (Some "Action|Drama") None] None.

(** Its base list: "B" with score 4.5 and "C" with score 3. *)
Definition scenario_recs : list Dashboard52.Rec :=
  [Dashboard52.mkRec 2 "B" (9 # 2); Dashboard52.mkRec 3 "C" 3].

(** A catalog with two rows for id 1. *)
Definition twice_in_catalog : Dashboard52.Metadata :=
  Dashboard52.mkMetadata true false
    [Dashboard52.mkMetaRow 1 (Some "Action") None;
     Dashboard52.mkMetaRow 1 (Some "Action|Drama") None] None.

(** The scores 0.15, 0.05, 0.45 and 0.15 again.  With the boost factor
    0.25 and a full overlap the boosted score of the second entry is
    0.05 + 0.25 × 0.4, which is the 0.15 of the first and the last when
    computed exactly, and the next double above 0.15 when computed in
    doubles. *)
Definition equal_when_exact : list Dashboard52.Rec :=
  [Dashboard52.mkRec 1 "A" (15 # 100); Dashboard52.mkRec 2 "B" (5 # 100);
   Dashboard52.mkRec 3 "C" (45 # 100); Dashboard52.mkRec 7 "X" (15 # 100)].

(** Two scores that differ by less than a millionth. *)
Definition close_scores : list Dashboard52.Rec :=
  [Dashboard52.mkRec 1 "A" 0; Dashboard52.mkRec 2 "B" (1 # 2000000)].

(** A candidate with an id that [scenario_meta] does not have. *)
Definition not_in_catalog : Dashboard52.Rec := Dashboard52.mkRec 7 "X" 1.



(** A model with thirteen titles for user 1, and a catalog that has
    them. *)
Definition thirteen_titles : list string :=
  ["T01"; "T02"; "T03"; "T04"; "T05"; "T06"; "T07"; "T08"; "T09"; "T10"; "T11";
   "T12"; "T13"].

Definition model_of_user_1 : gmap Z (list string) := {[ 1%Z := thirteen_titles ]}.

Definition thirteen_movies : list Catalog.movie :=
  (λ t, Catalog.Movie t (Some "Drama") 3) <$> thirteen_titles.

(** A catalog in which the best rated title is a comedy, and a user who
    has watched an action film. *)
Definition action_first : list Catalog.movie :=
  [Catalog.Movie "A" (Some "Action") 3;
   Catalog.Movie "B" (Some "Comedy") 5;
   Catalog.Movie "C" (Some "Action") 4].

Definition bob_watched_a : list Db.watched_row := [Db.WatchedRow "bob" "A"].

(** ** Shapes of strings *)

(** Every character of [s] satisfies [P]. *)
Fixpoint str_all (P : ascii → bool) (s : string) : bool :=
  match s with
  | EmptyString => true
  | String c s' => P c && str_all P s'
  end.

(** [s] is made of letters, digits and single underscores; [after_us]
    tells that an underscore stands before [s]. *)
Fixpoint slug_shape (after_us : bool) (s : string) : bool :=
  match s with
  | EmptyString => true
  | String c s' =>
      if PyText.isalnum c then slug_shape false s'
      else bool_decide (c = "_"%char) && negb after_us && slug_shape true s'
  end.


(** ** Genre names *)

(** A genre name as [split_genres] gives them: not empty, no white space
    at either end, no comma and no bar. *)
Definition genre_name (g : string) : Prop :=
  g ≠ EmptyString ∧ Py.strip g = g ∧
  str_all (λ c, bool_decide (c ≠ ","%char ∧ c ≠ "|"%char)) g = true.

(** ** A small catalogue *)

(** The best rated title is a comedy; the user has watched an action
    film. *)
Definition comedy_on_top : list Catalog.movie :=
  [Catalog.Movie "A" (Some "Action") 3;
   Catalog.Movie "B" (Some "Comedy") 5;
   Catalog.Movie "C" (Some "Action") 4].

Definition bob_saw_a : list Db.watched_row := [Db.WatchedRow "bob" "A"].

(** The cell of the second title has no genre in it. *)
Definition blank_cell : list Catalog.movie :=
  [Catalog.Movie "A" (Some "Action") 3;
   Catalog.Movie "B" (Some " , ") 5].

Definition bob_saw_b : list Db.watched_row := [Db.WatchedRow "bob" "B"].

(** The cell of a row holds a genre. *)
Definition has_genre (m : Catalog.movie) : Prop :=
  ∃ g, Catalog.genres_clean m = Some g ∧
       Dashboard3556More.split_genres (Some g) ≠ [].

(** ** A frame as read from a file *)

Definition two_rows_of_a_title : list Dashboard3556More.raw_movie :=
  [Dashboard3556More.RawMovie (Some "A") (Some "Action") (Some 3%Q);
   Dashboard3556More.RawMovie (Some "A") None (Some 5%Q);
   Dashboard3556More.RawMovie None (Some "Drama") None].

(** ** The genres a loop looks for *)

(** The three genres most seen in the watched titles, as the loop of
    [Dashboard3263] has them. *)
Definition top_genres_3263 (movies_df : list Catalog.movie) (watched : list string)
    : list (option string) :=
  (Py.most_common 3
     (Py.Counter (Catalog.split_explode (Catalog.isin watched movies_df)))).*1.

(** One of the genres is a piece of the cell of [m]. *)
Definition has_top_genre (top_genres : list (option string)) (m : Catalog.movie)
    : Prop :=
  ∃ p s, Some p ∈ top_genres ∧ Catalog.genres_clean m = Some s ∧
         p ∈ Py.split "|" s.

#[global] Instance has_top_genre_dec top_genres m :
  Decision (has_top_genre top_genres m).
Proof.
  unfold has_top_genre. destruct (Catalog.genres_clean m) as [s|].
  - destruct (decide (Exists (λ p, Some p ∈ top_genres) (Py.split "|" s)))
      as [Hex|Hex].
    + left. apply Exists_exists in Hex as (p & Hp & Htop). by exists p, s.
    + right. intros (p & s' & Htop & [= <-] & Hp). apply Hex.
      apply Exists_exists. by exists p.
  - right. by intros (p & s & _ & [=] & _).
Defined.

Definition five_action_films : list Catalog.movie :=
  [Catalog.Movie "A" (Some "Action") 3;
   Catalog.Movie "B" (Some "Action|Drama") 5;
   Catalog.Movie "C" (Some "Comedy") 4;
   Catalog.Movie "D" (Some "Sci-Fi|Action") 2;
   Catalog.Movie "E" (Some "Action") 1].

(** ** A sort by positions *)

(** The merge sort of the library, as an instance of the contract. *)
Program Definition merge_sort_values : PdMore.SortValuesAsc := {|
  PdMore.sort_values_asc A key l :=
    @merge_sort A (λ x y, key x ≤ key y) (λ x y, decide (key x ≤ key y)) l
|}.
Next Obligation. intros A key l. apply merge_sort_Permutation. Qed.
Next Obligation.
  intros A key l. apply StronglySorted_merge_sort.
  - intros x y z. lia.
  - intros x y. lia.
Qed.

(** ** The overlap of two titles *)

(** The Jaccard overlap of the genres of two titles of the catalogue,
    as [build_reason_map] measures it. *)
Definition jaccard (movies_df : list Catalog.movie) (t w : string) : Q :=
  Dashboard2605More.score
    (Dashboard2605More.to_set (Dashboard2605More.genre_map movies_df !! t))
    (Dashboard2605More.to_set (Dashboard2605More.genre_map movies_df !! w)).

Definition bob_saw_b_then_a : list Db.watched_row :=
  [Db.WatchedRow "bob" "B"; Db.WatchedRow "bob" "A"].

(** ** A model and a frame of metadata *)

Definition two_recs (user_id : Z) (movie_metadata : list Wrapper.meta) (top_n : nat)
    : list Dashboard52.Rec :=
  take top_n [Dashboard52.mkRec 2 "B" (9 # 2); Dashboard52.mkRec 7 "X" 4].

Definition two_metadata : list Wrapper.meta :=
  [(1%Z, ["Action"]); (2%Z, ["Comedy"; "Drama"])].

(** ** A catalogue with ids *)

Definition three_meta_rows : Dashboard52.Metadata :=
  Dashboard52.mkMetadata true false
    [Dashboard52.mkMetaRow 1 (Some "Action") None;
     Dashboard52.mkMetaRow 2 (Some "Comedy") None;
     Dashboard52.mkMetaRow 3 (Some "Action|Drama") None] None.

Definition two_base_recs : list Dashboard52.Rec :=
  [Dashboard52.mkRec 2 "B" (9 # 2); Dashboard52.mkRec 3 "C" 3].

(** ** The candidates of a fallback *)

(** * Properties *)

(** ** Lists: order of two elements *)

Section before.
Context {A : Type}.
Implicit Types l k : list A.


End before.

(** ** Python's stable descending sort *)

Section sorted_desc_facts.
Context {A : Type} (gt : A → A → bool).
Implicit Types l : list A.

Lemma insert_desc_split x l :
  ∃ l1 l2, l = l1 ++ l2 ∧ Py.insert_desc gt x l = l1 ++ x :: l2
           ∧ Forall (λ y, gt y x = true) l1.
Proof.
  induction l as [|y l IH]; simpl.
  - by exists [], [].
  - destruct (gt y x) eqn:Hgt.
    + destruct IH as (l1 & l2 & -> & -> & Hall).
      exists (y :: l1), l2. split_and!; [done..|]. by constructor.
    + by exists [], (y :: l).
Qed.

Lemma insert_desc_perm x l : Py.insert_desc gt x l ≡ₚ x :: l.
Proof.
  destruct (insert_desc_split x l) as (l1 & l2 & -> & -> & _).
  by rewrite Permutation_middle.
Qed.

Lemma sorted_desc_perm l : Py.sorted_desc gt l ≡ₚ l.
Proof.
  induction l as [|x l IH]; [done|]. simpl.
  fold (Py.sorted_desc gt l). by rewrite insert_desc_perm, IH.
Qed.


Context (R : relation A) `{!Transitive R}.
Hypothesis gt_R : ∀ y x, gt y x = true → R y x.
Hypothesis not_gt_R : ∀ y x, gt y x = false → R x y.

Lemma insert_desc_sorted x l :
  StronglySorted R l → StronglySorted R (Py.insert_desc gt x l).
Proof.
  induction 1 as [|y l Hl IH Hy]; simpl; [repeat constructor|].
  destruct (gt y x) eqn:Hgt.
  - constructor; [done|]. rewrite insert_desc_perm. constructor; auto.
  - constructor; [by constructor|]. constructor; [auto|].
    eapply Forall_impl; [exact Hy|]. intros z ?. by trans y; [apply not_gt_R|].
Qed.

Lemma sorted_desc_sorted l : StronglySorted R (Py.sorted_desc gt l).
Proof.
  induction l as [|x l IH]; [constructor|]. by apply insert_desc_sorted.
Qed.

End sorted_desc_facts.

(** ** A stable implementation of [sort_values] *)

Lemma Qgt_bool_true y x : Qgt_bool y x = true → (x <= y)%Q.
Proof.
  unfold Qgt_bool. destruct (Qle_bool y x) eqn:H; [done|]. intros _.
  apply Qlt_le_weak, Qnot_le_lt. rewrite <-Qle_bool_iff. congruence.
Qed.

Lemma Qgt_bool_false y x : Qgt_bool y x = false → (y <= x)%Q.
Proof.
  unfold Qgt_bool. destruct (Qle_bool y x) eqn:H; [|done]. intros _.
  by apply Qle_bool_iff.
Qed.

#[local] Instance Qge_key_trans {A} (key : A → Q) :
  Transitive (λ x y, key y <= key x)%Q.
Proof. intros x y z ??. by eapply Qle_trans. Qed.

Program Definition stable_sort_values : Pd.SortValues := {|
  Pd.sort_values_desc A key := Py.sorted_desc (λ y x, Qgt_bool (key y) (key x))
|}.
Next Obligation. intros. apply sorted_desc_perm. Qed.
Next Obligation.
  intros A key l. apply sorted_desc_sorted; [apply _|..]; simpl.
  - intros y x. apply Qgt_bool_true.
  - intros y x. apply Qgt_bool_false.
Qed.

(** ** [boost_recommendations]: what it returns and what it leaves *)

Module Boost52Facts.
Import Dashboard52 Boost52.

Lemma bind_run {A B} (m : M A) (k : A → M B) h a h' :
  m h = Some (a, h') → bind m k h = k a h'.
Proof. unfold bind. by intros ->. Qed.

Lemma load_run h r f : h !! r = Some f → load r h = Some (f, h).
Proof. unfold load. by intros ->. Qed.

Lemma load_recs_run h r rows :
  h !! r = Some (FRecs rows) → load_recs r h = Some (rows, h).
Proof. intros Hr. unfold load_recs. by rewrite (bind_run _ _ _ _ _ (load_run _ _ _ Hr)). Qed.

Lemma load_meta_run h r m :
  h !! r = Some (FMeta m) → load_meta r h = Some (m, h).
Proof. intros Hr. unfold load_meta. by rewrite (bind_run _ _ _ _ _ (load_run _ _ _ Hr)). Qed.

Lemma load_merged_run h r rows :
  h !! r = Some (FMerged rows) → load_merged r h = Some (rows, h).
Proof. intros Hr. unfold load_merged. by rewrite (bind_run _ _ _ _ _ (load_run _ _ _ Hr)). Qed.

Lemma load_overlap_run h r rows :
  h !! r = Some (FOverlap rows) → load_overlap r h = Some (rows, h).
Proof. intros Hr. unfold load_overlap. by rewrite (bind_run _ _ _ _ _ (load_run _ _ _ Hr)). Qed.

Lemma load_boosted_run h r rows :
  h !! r = Some (FBoosted rows) → load_boosted r h = Some (rows, h).
Proof. intros Hr. unfold load_boosted. by rewrite (bind_run _ _ _ _ _ (load_run _ _ _ Hr)). Qed.

Lemma store_last h f g : store (length h) g (h ++ [f]) = Some (tt, h ++ [g]).
Proof.
  unfold store. rewrite length_app. simpl.
  destruct (decide _) as [_|]; [|lia].
  by rewrite insert_app_r_alt, Nat.sub_diag by lia.
Qed.

Lemma lookup_last (h : list frame) f : (h ++ [f]) !! length h = Some f.
Proof. by apply list_lookup_middle. Qed.

Section run.
Context `{!Pd.SortValues}.

Lemma boost_recommendations_no_prefs h recs_df mm bf :
  boost_recommendations recs_df [] mm bf h = Some (recs_df, h).
Proof. done. Qed.

Lemma boost_recommendations_run h recs_df mm p prefs bf recs m :
  h !! recs_df = Some (FRecs recs) →
  h !! mm = Some (FMeta m) →
  boost_recommendations recs_df (p :: prefs) mm bf h =
    Some (S (S (length h)),
          h ++ [FMeta (set_genres_list m (genres_list_of m));
                FBoosted (scored_rows recs (p :: prefs) m bf);
                FBoosted (Pd.sort_values_desc score_boosted
                            (scored_rows recs (p :: prefs) m bf))]).
Proof.
  intros Hrecs Hmeta. unfold boost_recommendations.
  erewrite bind_run by (by apply load_meta_run).
  erewrite bind_run by reflexivity.
  erewrite bind_run by apply load_meta_run, lookup_last.
  erewrite bind_run by apply store_last.
  fold (genres_list_of m).
  erewrite bind_run by (by apply load_recs_run, lookup_app_l_Some).
  erewrite bind_run by apply load_meta_run, lookup_last.
  unfold id_and_genres_list. simpl.
  fold (merged_rows recs m).
  erewrite bind_run by reflexivity.
  erewrite bind_run by apply load_merged_run, lookup_last.
  erewrite bind_run by apply store_last.
  erewrite bind_run by apply load_overlap_run, lookup_last.
  erewrite bind_run by apply store_last.
  erewrite bind_run by apply load_boosted_run, lookup_last.
  erewrite bind_run by reflexivity.
  unfold ret. rewrite <-!list_fmap_compose. unfold compose. simpl.
  fold (scored_rows recs (p :: prefs) m bf).
  rewrite !length_app. simpl.
  rewrite <-!(assoc_L (++)). simpl.
  do 2 f_equal. lia.
Qed.


End run.
End Boost52Facts.
(** The frame [boost] hands back. *)
Lemma boost_eq `{!Pd.SortValues} recs prefs m bf :
  Dashboard52.boost recs prefs m bf =
    Some (match prefs with
          | [] => Dashboard52.FRecs recs
          | _ :: _ => Dashboard52.FBoosted
              (Pd.sort_values_desc Dashboard52.score_boosted
                 (Boost52.scored_rows recs prefs m bf))
          end).
Proof.
  unfold Dashboard52.boost. destruct prefs as [|p prefs]; [done|].
  by erewrite Boost52Facts.boost_recommendations_run by done.
Qed.

(** C10.  [boost_recommendations] does not mutate its inputs: called on
    any store in which [recs_df] and [movie_metadata_df] are the list of
    recommendations and the catalog table, it returns, and every frame of
    the store, these two among them, is then what it was; the frames it
    writes to are the ones it has made itself. *)
Theorem boost_recommendations_leaves_inputs `{!Pd.SortValues}
    (h : list Dashboard52.frame) (recs_df movie_metadata_df : nat)
    (user_pref_genres : list string) (boost_factor : Q)
    (recs : list Dashboard52.Rec) (m : Dashboard52.Metadata) :
  h !! recs_df = Some (Dashboard52.FRecs recs) →
  h !! movie_metadata_df = Some (Dashboard52.FMeta m) →
  ∃ r h',
    Dashboard52.boost_recommendations recs_df user_pref_genres
      movie_metadata_df boost_factor h = Some (r, h') ∧
    h' !! recs_df = Some (Dashboard52.FRecs recs) ∧
    h' !! movie_metadata_df = Some (Dashboard52.FMeta m) ∧
    (∀ r0 f, h !! r0 = Some f → h' !! r0 = Some f).
Proof.
  intros Hrecs Hmeta. destruct user_pref_genres as [|p prefs].
  - exists recs_df, h. by rewrite Boost52Facts.boost_recommendations_no_prefs.
  - eexists _, _. split; [by apply Boost52Facts.boost_recommendations_run|].
    split_and!; [by apply lookup_app_l_Some..|].
    intros r0 f ?. by apply lookup_app_l_Some.
Qed.

Lemma boost_recommendations_leaves_inputs_witness :
  ∃ r h',
    Dashboard52.boost_recommendations (H := stable_sort_values) 0 ["Action"] 1 (1 # 4)
      [Dashboard52.FRecs scenario_recs; Dashboard52.FMeta scenario_meta]
      = Some (r, h') ∧
    h' !! 0 = Some (Dashboard52.FRecs scenario_recs) ∧
    h' !! 1 = Some (Dashboard52.FMeta scenario_meta) ∧
    (∀ r0 f, [Dashboard52.FRecs scenario_recs; Dashboard52.FMeta scenario_meta] !! r0
             = Some f → h' !! r0 = Some f).
Proof.
  apply (boost_recommendations_leaves_inputs (H := stable_sort_values)
           _ 0 1 ["Action"] (1 # 4) scenario_recs scenario_meta);
    reflexivity.
Defined.

(** With no preferred genres the input comes back as it is. *)
Lemma boost_empty_profile_returns_input `{!Pd.SortValues}
    (recs : list Dashboard52.Rec) (m : Dashboard52.Metadata) (boost_factor : Q) :
  Dashboard52.boost recs [] m boost_factor = Some (Dashboard52.FRecs recs).
Proof. apply boost_eq. Qed.

(** C2.  With an empty list of preferred genres [boost_recommendations]
    hands back [recs_df] itself: same rows, same order, same scores, but
    a frame with no [overlap] and no [score_boosted] column.  The other
    path gives every row an overlap, 0 when no genre matches, and the page
    reads [score_boosted] from whichever frame it gets, which is a
    [KeyError] here. *)
Theorem boost_empty_profile_adds_no_overlap :
  Dashboard52.boost (H := stable_sort_values) scenario_recs [] scenario_meta (1 # 4)
    = Some (Dashboard52.FRecs scenario_recs) ∧
  (∃ rows,
     Dashboard52.boost (H := stable_sort_values) scenario_recs ["Western"]
       scenario_meta (1 # 4) = Some (Dashboard52.FBoosted rows) ∧
     Dashboard52.rec <$> rows = scenario_recs ∧
     Forall (λ r, Dashboard52.overlap r = 0%Q) rows) ∧
  fst <$> Dashboard52.show_recommendations (H := stable_sort_values) 0 [] 1 10
            [Dashboard52.FRecs scenario_recs; Dashboard52.FMeta scenario_meta]
    = Some (Py.Raise Py.KeyError).
Proof.
  split_and!; [done| |done].
  eexists. split; [vm_compute; reflexivity|]. split; [done|].
  by repeat constructor.
Qed.

(** ** The left merge *)

Section merge_left_facts.
Context {L R : Type} (lkey : L → Z).
Implicit Types (lrows : list L) (rrows : list (Z * R)).

Lemma elem_of_merge_left lrows rrows l o :
  (l, o) ∈ Pd.merge_left lkey lrows rrows ↔
  l ∈ lrows ∧
  match o with
  | None => lkey l ∉ rrows.*1
  | Some r => (lkey l, r) ∈ rrows
  end.
Proof.
  unfold Pd.merge_left. rewrite list_elem_of_bind. split.
  - intros (l' & Hin & Hl').
    destruct (filter _ rrows) as [|kr matched] eqn:Hf.
    + apply list_elem_of_singleton in Hin as [= <- ->]. split; [done|].
      intros ((k & r) & Hk & Hkr)%list_elem_of_fmap. simpl in *. subst k.
      assert ((lkey l, r) ∈ filter (λ kr, kr.1 = lkey l) rrows) as Hin
        by by apply list_elem_of_filter.
      rewrite Hf in Hin. by apply elem_of_nil in Hin.
    + apply list_elem_of_fmap in Hin as ((k & r) & [= <- ->] & Hin). simpl.
      split; [done|]. rewrite <-Hf in Hin.
      apply list_elem_of_filter in Hin as [? ?]. simpl in *. by subst k.
  - intros [Hl Ho]. exists l. split; [|done].
    destruct o as [r|].
    + assert ((lkey l, r) ∈ filter (λ kr, kr.1 = lkey l) rrows) as Hin
        by by apply list_elem_of_filter.
      destruct (filter _ rrows) as [|kr matched]; [by apply elem_of_nil in Hin|].
      apply list_elem_of_fmap. by exists (lkey l, r).
    + destruct (filter _ rrows) as [|[k r] matched] eqn:Hf; [set_solver|].
      exfalso. apply Ho.
      assert ((k, r) ∈ filter (λ kr, kr.1 = lkey l) rrows) as Hin
        by (rewrite Hf; left).
      apply list_elem_of_filter in Hin as [? ?]. simpl in *. subst k.
      apply list_elem_of_fmap. by exists (lkey l, r).
Qed.

(** No left row is lost. *)
Lemma merge_left_covers lrows rrows l :
  l ∈ lrows → ∃ o, (l, o) ∈ Pd.merge_left lkey lrows rrows.
Proof.
  intros Hl. destruct (decide (lkey l ∈ rrows.*1)) as [Hin|Hin].
  - apply list_elem_of_fmap in Hin as ((k & r) & ? & Hin). simpl in *. subst k.
    exists (Some r). by apply elem_of_merge_left.
  - exists None. by apply elem_of_merge_left.
Qed.

Lemma filter_key_NoDup rrows k :
  NoDup rrows.*1 → (length (filter (λ kr : Z * R, kr.1 = k) rrows) ≤ 1)%nat.
Proof.
  induction rrows as [|[k' r] rrows IH]; simpl; [lia|].
  intros [Hk' Hnd]%NoDup_cons. rewrite filter_cons. simpl.
  destruct (decide (k' = k)) as [->|]; [|by apply IH].
  simpl. rewrite (elem_of_nil_inv (filter _ rrows)); [simpl; lia|].
  intros [k2 r2] [? Hin]%list_elem_of_filter. simpl in *. subst k2.
  apply Hk', list_elem_of_fmap. by exists (k, r2).
Qed.

(** With unique keys on the right, the merge has the left rows, each
    once, in their order. *)
Lemma merge_left_fst lrows rrows :
  NoDup rrows.*1 → (Pd.merge_left lkey lrows rrows).*1 = lrows.
Proof.
  intros Hnd. unfold Pd.merge_left.
  induction lrows as [|l lrows IH]; [done|].
  rewrite bind_cons, fmap_app, IH. simpl. f_equal.
  pose proof (filter_key_NoDup rrows (lkey l) Hnd) as Hlen.
  destruct (filter _ rrows) as [|kr [|kr' matched]]; simpl in *; [done..|lia].
Qed.

End merge_left_facts.

(** ** The re-sort of [boost_recommendations] *)


Lemma length_genres_list_of m :
  length (Boost52.genres_list_of m) = length (Dashboard52.meta_rows m).
Proof.
  unfold Boost52.genres_list_of.
  repeat case_match; by rewrite ?length_fmap, ?length_replicate.
Qed.


Lemma scored_rows_rec recs prefs m bf :
  Dashboard52.rec <$> Boost52.scored_rows recs prefs m bf
  = (Boost52.merged_rows recs m).*1.
Proof. unfold Boost52.scored_rows. by rewrite <-list_fmap_compose. Qed.





(** The scores of [equal_when_exact].  Computed exactly, the entries
    1, 2 and 7 have the same boosted score, 3/20, and a stable sort
    leaves them in the order of the input.  Computed in doubles, the
    score of entry 2 is the next double above that of the entries 1 and
    7: entry 2 comes first, and the entries 1 and 7, whose scores are
    equal, follow in the order of the input. *)
Remark boost_equal_when_exact :
  (∃ c a b x,
     Dashboard52.boost (H := stable_sort_values) equal_when_exact ["Comedy"]
       scenario_meta (1 # 4) = Some (Dashboard52.FBoosted [c; a; b; x]) ∧
     Dashboard52.movie_id ∘ Dashboard52.rec <$> [c; a; b; x] = [3; 1; 2; 7]%Z ∧
     (Dashboard52.score_boosted a == 3 # 20)%Q ∧
     (Dashboard52.score_boosted b == 3 # 20)%Q ∧
     (Dashboard52.score_boosted x == 3 # 20)%Q) ∧
  (∃ c b a x,
     Dashboard52.Double.boost (H := stable_sort_values) equal_when_exact ["Comedy"]
       scenario_meta (1 # 4) = Some (Dashboard52.FBoosted [c; b; a; x]) ∧
     Dashboard52.movie_id ∘ Dashboard52.rec <$> [c; b; a; x] = [3; 2; 1; 7]%Z ∧
     (Dashboard52.score_boosted a == Float64.round (15 # 100))%Q ∧
     (Dashboard52.score_boosted x == Float64.round (15 # 100))%Q ∧
     (Dashboard52.score_boosted b
      == Float64.round (15 # 100) + Float64.pow2 (-55))%Q).
Proof.
  split; eexists _, _, _, _; (split; [vm_compute; reflexivity|]);
    split_and!; [done|by vm_compute..].
Qed.

(** The invariant of the catalog is needed for the length: with two
    rows for id 1 in the catalog, one input entry gives two result
    entries. *)
Remark boost_catalog_with_id_twice :
  ∃ rows,
    Dashboard52.Double.boost (H := stable_sort_values) [Dashboard52.mkRec 1 "A" 3]
      ["Action"] twice_in_catalog (1 # 4) = Some (Dashboard52.FBoosted rows) ∧
    length rows = 2.
Proof. eexists. split; [vm_compute; reflexivity|done]. Qed.

(** ** The boosted score *)

Lemma series_min_spec (s : list Q) :
  s ≠ [] → ∃ lo, Pd.series_min s = Some lo ∧ is_min lo s.
Proof.
  induction s as [|x s IH]; [done|]. intros _. simpl.
  destruct s as [|y s].
  - exists x. split; [done|]. split; [left|].
    intros z ->%list_elem_of_singleton. apply Qle_refl.
  - destruct IH as (lo & -> & Hin & Hlo); [done|].
    destruct (Qle_bool x lo) eqn:Hx.
    + exists x. split; [done|]. split; [left|].
      apply Qle_bool_iff in Hx.
      intros z [->|Hz]%elem_of_cons; [apply Qle_refl|].
      eapply Qle_trans; [exact Hx|]. by apply Hlo.
    + exists lo. split; [done|]. split; [by right|].
      intros z [->|Hz]%elem_of_cons; [|by apply Hlo].
      apply Qlt_le_weak, Qnot_le_lt. rewrite <-Qle_bool_iff. congruence.
Qed.

Lemma series_max_spec (s : list Q) :
  s ≠ [] → ∃ hi, Pd.series_max s = Some hi ∧ is_max hi s.
Proof.
  induction s as [|x s IH]; [done|]. intros _. simpl.
  destruct s as [|y s].
  - exists x. split; [done|]. split; [left|].
    intros z ->%list_elem_of_singleton. apply Qle_refl.
  - destruct IH as (hi & -> & Hin & Hhi); [done|].
    destruct (Qle_bool hi x) eqn:Hx.
    + exists x. split; [done|]. split; [left|].
      apply Qle_bool_iff in Hx.
      intros z [->|Hz]%elem_of_cons; [apply Qle_refl|].
      eapply Qle_trans; [|exact Hx]. by apply Hhi.
    + exists hi. split; [done|]. split; [by right|].
      intros z [->|Hz]%elem_of_cons; [|by apply Hhi].
      apply Qlt_le_weak, Qnot_le_lt. rewrite <-Qle_bool_iff. congruence.
Qed.

Lemma Pd_max_gt (a b : Q) : (a < b)%Q → Pd.max a b = b.
Proof.
  intros Hlt. unfold Pd.max. destruct (Qle_bool b a) eqn:Hle; [|done].
  apply Qle_bool_iff in Hle. by apply Qle_not_lt in Hle.
Qed.

Lemma Pd_max_le (a b : Q) : (b <= a)%Q → Pd.max a b = a.
Proof. intros Hle. unfold Pd.max. by apply Qle_bool_iff in Hle as ->. Qed.

Lemma size_common (gl prefs : list string) :
  size (list_to_set gl ∩ list_to_set prefs : gset string)
  = genres_in_common gl prefs.
Proof.
  unfold genres_in_common.
  rewrite <-(size_list_to_set (C := gset string) (remove_dups _))
    by apply NoDup_remove_dups.
  f_equal. apply set_eq. intros x.
  rewrite elem_of_intersection, !elem_of_list_to_set, elem_of_remove_dups,
    list_elem_of_filter. tauto.
Qed.

Lemma overlap_boost_ratio (prefs : list string) (g : option (list string)) :
  (Dashboard52.overlap_boost prefs g ==
   inject_Z (Z.of_nat (genres_in_common (default [] g) prefs))
   / inject_Z (Z.of_nat (Nat.max (length prefs) 1)))%Q.
Proof.
  destruct g as [[|x gl]|]; [done| |done].
  change (default [] (Some (x :: gl))) with (x :: gl).
  unfold Dashboard52.overlap_boost. rewrite size_common.
  destruct (decide (genres_in_common (x :: gl) prefs = 0)) as [Heq|];
    [by rewrite Heq|reflexivity].
Qed.

Lemma genres_list_of_fmap m :
  Boost52.genres_list_of m = row_genres m <$> Dashboard52.meta_rows m.
Proof.
  unfold Boost52.genres_list_of, row_genres.
  repeat case_match; [done..|].
  induction (Dashboard52.meta_rows m); simpl; by f_equal.
Qed.

Lemma zip_fmap_diag {A B C} (f : A → B) (g : A → C) (l : list A) :
  zip (f <$> l) (g <$> l) = (λ x, (f x, g x)) <$> l.
Proof. induction l; simpl; by f_equal. Qed.

Lemma elem_of_merged_rows recs m r g :
  (r, g) ∈ Boost52.merged_rows recs m ↔
  r ∈ recs ∧ catalog_genres m (Dashboard52.movie_id r) g.
Proof.
  unfold Boost52.merged_rows. rewrite elem_of_merge_left.
  rewrite genres_list_of_fmap, zip_fmap_diag.
  apply and_iff_compat_l. destruct g as [gl|]; simpl.
  - rewrite list_elem_of_fmap. split.
    + intros (row & [= ? ?] & ?). by exists row.
    + intros (row & ? & ? & ?). exists row. split; [congruence|done].
  - by rewrite <-list_fmap_compose.
Qed.

(** C4, as the code has it.  For a non-empty list of recommendations and
    a non-empty list of preferred genres, every input entry is in the
    result, and every entry of the result is an input entry with the
    genres the catalog has for its id, with
    [overlap = |genres ∩ preferred| / max(|preferred|, 1)] and
    [score_boosted = score + boost_factor × range × overlap], where
    [range] is [max(score) − min(score)] over the input when that is
    above [1e-6] and [1e-6] in every other case. *)
Theorem boost_score_formula (S : Pd.SortValues)
    (recs : list Dashboard52.Rec) (user_pref_genres : list string)
    (m : Dashboard52.Metadata) (boost_factor : Q) :
  recs ≠ [] → user_pref_genres ≠ [] →
  ∃ rows lo hi,
    Dashboard52.boost recs user_pref_genres m boost_factor
      = Some (Dashboard52.FBoosted rows) ∧
    is_min lo (Dashboard52.score <$> recs) ∧
    is_max hi (Dashboard52.score <$> recs) ∧
    (∀ r, r ∈ recs → ∃ row, row ∈ rows ∧ Dashboard52.rec row = r) ∧
    ∀ row, row ∈ rows →
      let r := Dashboard52.rec row in
      let ratio :=
        (inject_Z (Z.of_nat (genres_in_common
                               (default [] (Dashboard52.genres_list row))
                               user_pref_genres))
         / inject_Z (Z.of_nat (Nat.max (length user_pref_genres) 1)))%Q in
      r ∈ recs ∧
      catalog_genres m (Dashboard52.movie_id r) (Dashboard52.genres_list row) ∧
      (Dashboard52.overlap row == ratio)%Q ∧
      ((1 # 1000000 < hi - lo)%Q →
         (Dashboard52.score_boosted row
          == Dashboard52.score r + boost_factor * (hi - lo) * ratio)%Q) ∧
      ((hi - lo <= 1 # 1000000)%Q →
         (Dashboard52.score_boosted row
          == Dashboard52.score r + boost_factor * (1 # 1000000) * ratio)%Q).
Proof.
  intros Hrecs Hprefs. destruct user_pref_genres as [|p prefs]; [done|].
  set (prefs' := p :: prefs) in *.
  set (scores := (λ r : Dashboard52.Rec * option (list string),
                    Dashboard52.score r.1) <$> Boost52.merged_rows recs m).
  assert (∀ x, x ∈ scores ↔ x ∈ Dashboard52.score <$> recs) as Hscores.
  { intros x. unfold scores. rewrite !list_elem_of_fmap. split.
    - intros ([r g] & -> & [Hr _]%elem_of_merged_rows). by exists r.
    - intros (r & -> & Hr).
      destruct (merge_left_covers Dashboard52.movie_id recs
                  (zip (Dashboard52.meta_movie_id <$> Dashboard52.meta_rows m)
                       (Boost52.genres_list_of m)) r Hr) as [g Hg].
      by exists (r, g). }
  assert (scores ≠ []) as Hne.
  { destruct recs as [|r recs']; [done|].
    assert (Dashboard52.score r ∈ scores) as Hin by (apply Hscores; left).
    intros Heq. rewrite Heq in Hin. by apply elem_of_nil in Hin. }
  destruct (series_min_spec scores Hne) as (lo & Hlo & Hlo_in & Hlo_le).
  destruct (series_max_spec scores Hne) as (hi & Hhi & Hhi_in & Hhi_le).
  exists (Pd.sort_values_desc Dashboard52.score_boosted
            (Boost52.scored_rows recs prefs' m boost_factor)), lo, hi.
  split; [by rewrite boost_eq|].
  split; [split; [by apply Hscores|intros x ?; by apply Hlo_le, Hscores]|].
  split; [split; [by apply Hscores|intros x ?; by apply Hhi_le, Hscores]|].
  split.
  - intros r Hr.
    destruct (merge_left_covers Dashboard52.movie_id recs
                (zip (Dashboard52.meta_movie_id <$> Dashboard52.meta_rows m)
                     (Boost52.genres_list_of m)) r Hr) as [g Hg].
    eexists. split; [|shelve].
    rewrite Pd.sort_values_perm. unfold Boost52.scored_rows.
    apply list_elem_of_fmap. exists (r, g). split; [reflexivity|exact Hg].
    Unshelve. done.
  - intros row Hrow. rewrite Pd.sort_values_perm in Hrow.
    unfold Boost52.scored_rows in Hrow.
    apply list_elem_of_fmap in Hrow as ([r g] & -> & Hrg). simpl.
    apply elem_of_merged_rows in Hrg as [Hr Hg].
    fold scores. unfold Dashboard52.score_range. rewrite Hlo, Hhi.
    split_and!; [done|done|apply overlap_boost_ratio|..].
    + intros Hgt. rewrite Pd_max_gt by done. by rewrite overlap_boost_ratio.
    + intros Hle. rewrite Pd_max_le by done. by rewrite overlap_boost_ratio.
Qed.

Lemma boost_score_formula_witness :
  ∃ rows lo hi,
    Dashboard52.boost (H := stable_sort_values) scenario_recs ["Action"]
      scenario_meta (1 # 4) = Some (Dashboard52.FBoosted rows) ∧
    is_min lo (Dashboard52.score <$> scenario_recs) ∧
    is_max hi (Dashboard52.score <$> scenario_recs) ∧
    (∀ r, r ∈ scenario_recs → ∃ row, row ∈ rows ∧ Dashboard52.rec row = r) ∧
    ∀ row, row ∈ rows →
      let r := Dashboard52.rec row in
      let ratio :=
        (inject_Z (Z.of_nat (genres_in_common
                               (default [] (Dashboard52.genres_list row))
                               ["Action"]))
         / inject_Z (Z.of_nat (Nat.max (length ["Action"]) 1)))%Q in
      r ∈ scenario_recs ∧
      catalog_genres scenario_meta (Dashboard52.movie_id r)
        (Dashboard52.genres_list row) ∧
      (Dashboard52.overlap row == ratio)%Q ∧
      ((1 # 1000000 < hi - lo)%Q →
         (Dashboard52.score_boosted row
          == Dashboard52.score r + (1 # 4) * (hi - lo) * ratio)%Q) ∧
      ((hi - lo <= 1 # 1000000)%Q →
         (Dashboard52.score_boosted row
          == Dashboard52.score r + (1 # 4) * (1 # 1000000) * ratio)%Q).
Proof.
  apply (boost_score_formula stable_sort_values scenario_recs ["Action"]
           scenario_meta (1 # 4)); discriminate.
Defined.

(** C4 fails as stated: two entries with scores 0 and 0.0000005.  The
    scores differ and [max − min] is 0.0000005, yet the entry that
    matches the one preferred genre gets [0 + 0.25 × 0.000001 × 1]: the
    range used is [1e-6]. *)
Lemma boost_range_counterexample :
  ∃ b a,
    Dashboard52.boost (H := stable_sort_values) close_scores ["Action"]
      scenario_meta (1 # 4) = Some (Dashboard52.FBoosted [b; a]) ∧
    Dashboard52.rec a = Dashboard52.mkRec 1 "A" 0 ∧
    Dashboard52.genres_list a = Some ["Action"] ∧
    (Dashboard52.overlap a == 1)%Q ∧
    is_min 0 (Dashboard52.score <$> close_scores) ∧
    is_max (1 # 2000000) (Dashboard52.score <$> close_scores) ∧
    (Dashboard52.score_boosted a == 1 # 4000000)%Q ∧
    ¬ (Dashboard52.score_boosted a
       == 0 + (1 # 4) * ((1 # 2000000) - 0) * Dashboard52.overlap a)%Q.
Proof.
  eexists _, _. split; [vm_compute; reflexivity|]. simpl.
  split_and!; [done..| | |done|done].
  - split; [left|]. intros x Hx. repeat (apply elem_of_cons in Hx as [->|Hx]); [done..|].
    by apply elem_of_nil in Hx.
  - split; [right; left|]. intros x Hx.
    repeat (apply elem_of_cons in Hx as [->|Hx]); [done..|].
    by apply elem_of_nil in Hx.
Qed.

(** ** Candidates that are not in the catalog *)

Lemma recommendation_cards_titles movies_df watched_now recs :
  (λ c : Dashboard3556.card, c.1.1.1)
    <$> Dashboard3556.recommendation_cards movies_df watched_now recs
  = filter (λ t, t ∈ Catalog.title <$> movies_df) recs.
Proof.
  unfold Dashboard3556.recommendation_cards.
  induction recs as [|t recs IH]; [done|].
  rewrite bind_cons, fmap_app, IH, filter_cons.
  destruct (filter (λ m, Catalog.title m = t) movies_df) as [|row rows] eqn:Hf.
  - rewrite decide_False; [done|].
    intros (row & -> & Hrow)%list_elem_of_fmap.
    by apply (filter_nil_not_elem_of _ _ row Hf).
  - rewrite decide_True; [done|]. apply list_elem_of_fmap. exists row.
    assert (row ∈ filter (λ m, Catalog.title m = t) movies_df) as Hin
      by (rewrite Hf; left).
    by apply list_elem_of_filter in Hin as [? ?].
Qed.

(** C8, as the code has it.  A candidate whose id the catalog does not
    have raises no error in [boost_recommendations], but it is not
    skipped either: the left merge keeps it, with genres missing, overlap 0
    and its score unchanged, and with no preferred genres the list comes
    back whole.  [recommend_for_user] drops no prediction on account of
    the catalog; it shows a missing one under the title "Movie ID <id>".
    Only the card loop of the recommendations tab skips: it shows the
    titles that the catalog has. *)
Theorem missing_catalog_id_is_kept (S : Pd.SortValues)
    (recs : list Dashboard52.Rec) (user_pref_genres : list string)
    (m : Dashboard52.Metadata) (boost_factor : Q) (r : Dashboard52.Rec)
    (user_id : Z) (model_data : list Dashboard871.pred)
    (movies_meta : list Dashboard871.meta_row) (top_n : nat)
    (movies_df : list Catalog.movie) (watched_now : gset string)
    (titles : list string) :
  (r ∈ recs →
   Dashboard52.movie_id r ∉ Dashboard52.meta_movie_id <$> Dashboard52.meta_rows m →
   ∃ f, Dashboard52.boost recs user_pref_genres m boost_factor = Some f ∧
        r ∈ frame_recs f ∧
        (∀ rows, f = Dashboard52.FBoosted rows →
           ∃ row, row ∈ rows ∧ Dashboard52.rec row = r ∧
                  Dashboard52.genres_list row = None ∧
                  Dashboard52.overlap row = 0%Q ∧
                  (Dashboard52.score_boosted row == Dashboard52.score r)%Q)) ∧
  ((length (Dashboard871.recommend_for_user user_id model_data movies_meta top_n)
    = Nat.min top_n
        (length (filter (λ p : Dashboard871.pred, p.1.1 = user_id) model_data))) ∧
   (∀ t s, (t, s) ∈ Dashboard871.recommend_for_user user_id model_data movies_meta top_n →
      ∃ i, (user_id, i, s) ∈ model_data ∧
           ((i ∈ Dashboard871.movie_id <$> movies_meta ∧
             t ∈ Dashboard871.title <$> movies_meta)
            ∨ ((i ∉ (Dashboard871.movie_id <$> movies_meta)) ∧
               t = ("Movie ID " +:+ pretty i))))) ∧
  ((λ c : Dashboard3556.card, c.1.1.1)
     <$> Dashboard3556.recommendation_cards movies_df watched_now titles
   = filter (λ t, t ∈ Catalog.title <$> movies_df) titles).
Proof.
  split_and!; [| | |apply recommendation_cards_titles].
  - intros Hr Hid. eexists. split; [apply boost_eq|].
    destruct user_pref_genres as [|p prefs]; simpl; [split; [done|]; by intros|].
    assert ((r, None) ∈ Boost52.merged_rows recs m) as Hin
      by by apply elem_of_merged_rows.
    set (row := Dashboard52.mkBoosted r None 0
           (Dashboard52.score r + boost_factor
              * Dashboard52.score_range
                  ((λ r : Dashboard52.Rec * option (list string),
                      Dashboard52.score r.1) <$> Boost52.merged_rows recs m) * 0)).
    assert (row ∈ Pd.sort_values_desc Dashboard52.score_boosted
                    (Boost52.scored_rows recs (p :: prefs) m boost_factor)) as Hrow.
    { rewrite Pd.sort_values_perm. unfold Boost52.scored_rows.
      apply list_elem_of_fmap. by exists (r, None). }
    split.
    + apply list_elem_of_fmap. by exists row.
    + intros rows [= <-]. exists row. split_and!; [done..|]. simpl. ring.
  - unfold Dashboard871.recommend_for_user.
    by rewrite length_fmap, length_take, sorted_desc_perm.
  - intros t s Hts. unfold Dashboard871.recommend_for_user in Hts.
    apply list_elem_of_fmap in Hts as ([[u i] s'] & Heq & Hp).
    apply elem_of_take in Hp as (k & Hp & _).
    apply list_elem_of_lookup_2 in Hp. rewrite sorted_desc_perm in Hp.
    apply list_elem_of_filter in Hp as [Hu Hp]. simpl in *. subst u.
    exists i.
    destruct (filter (λ m0, Dashboard871.movie_id m0 = i) movies_meta)
      as [|row rows] eqn:Hf; simplify_eq.
    + split; [done|]. right. split; [|done].
      intros (row & -> & Hrow)%list_elem_of_fmap.
      by apply (filter_nil_not_elem_of _ _ row Hf).
    + split; [done|]. left.
      assert (row ∈ filter (λ m0, Dashboard871.movie_id m0 = i) movies_meta)
        as [? ?]%list_elem_of_filter by (rewrite Hf; left).
      split; apply list_elem_of_fmap; by exists row.
Qed.

Lemma missing_catalog_id_is_kept_witness :
  ∃ f, Dashboard52.boost (H := stable_sort_values) [not_in_catalog] ["Action"]
         scenario_meta (1 # 4) = Some f ∧
       not_in_catalog ∈ frame_recs f.
Proof.
  destruct (missing_catalog_id_is_kept stable_sort_values [not_in_catalog]
              ["Action"] scenario_meta (1 # 4) not_in_catalog
              0%Z [] [] 0 [] ∅ []) as [Hkept _].
  destruct Hkept as (f & Hf & Hin & _).
  - left.
  - apply (bool_decide_unpack _). vm_compute. exact I.
  - exists f. split; [exact Hf|exact Hin].
Defined.

(** C8 fails as stated: the candidate with id 7, which the catalog does
    not have, is in the list [boost_recommendations] returns. *)
Lemma missing_id_counterexample :
  ∃ row,
    Dashboard52.boost (H := stable_sort_values) [not_in_catalog] ["Action"]
      scenario_meta (1 # 4) = Some (Dashboard52.FBoosted [row]) ∧
    Dashboard52.rec row = not_in_catalog ∧
    Dashboard52.movie_id not_in_catalog
      ∉ (Dashboard52.meta_movie_id <$> Dashboard52.meta_rows scenario_meta).
Proof.
  eexists. split; [vm_compute; reflexivity|]. split; [done|].
  apply (bool_decide_unpack _). vm_compute. exact I.
Qed.

(** ** The table of watched titles *)

Lemma delete_absent u t (db : list Db.watched_row) :
  Db.WatchedRow u t ∉ db → Db.delete u t db = db.
Proof.
  intros Hnot. unfold Db.delete.
  induction db as [|[u' t'] db IH]; [done|].
  apply not_elem_of_cons in Hnot as [Hne Hnot].
  rewrite filter_cons_True, IH; [done..|].
  unfold Db.matches. simpl. intros [Hu Ht]%andb_prop_elim.
  apply bool_decide_unpack in Hu, Ht. congruence.
Qed.

Lemma not_elem_of_delete u t (db : list Db.watched_row) :
  Db.WatchedRow u t ∉ Db.delete u t db.
Proof.
  unfold Db.delete. intros [Hm _]%list_elem_of_filter. apply Hm.
  unfold Db.matches. simpl. by rewrite !bool_decide_eq_true_2.
Qed.

(** C9.  [unwatch_movie], in both iterations that have it: removing a
    record that is not in the table leaves the table as it is, and it is
    a total function on tables, so no error; hence removing twice is
    removing once. *)
Theorem unwatch_movie_absent_is_noop (username movie_title : string)
    (db : list Db.watched_row) :
  (Db.WatchedRow username movie_title ∉ db →
   Dashboard3079.unwatch_movie username movie_title db = db ∧
   Dashboard3556.unwatch_movie username movie_title db = db) ∧
  (Dashboard3079.unwatch_movie username movie_title
     (Dashboard3079.unwatch_movie username movie_title db)
   = Dashboard3079.unwatch_movie username movie_title db) ∧
  (Dashboard3556.unwatch_movie username movie_title
     (Dashboard3556.unwatch_movie username movie_title db)
   = Dashboard3556.unwatch_movie username movie_title db).
Proof.
  split; [|split].
  - intros Hnot. split; by apply delete_absent.
  - apply delete_absent, not_elem_of_delete.
  - apply delete_absent, not_elem_of_delete.
Qed.

Lemma unwatch_movie_absent_is_noop_witness :
  Dashboard3079.unwatch_movie "ann" "Heat" [Db.WatchedRow "ann" "Alien"]
    = [Db.WatchedRow "ann" "Alien"] ∧
  Dashboard3556.unwatch_movie "ann" "Heat" [Db.WatchedRow "ann" "Alien"]
    = [Db.WatchedRow "ann" "Alien"].
Proof.
  refine (proj1 (unwatch_movie_absent_is_noop "ann" "Heat"
                   [Db.WatchedRow "ann" "Alien"]) _).
  apply (bool_decide_unpack _). vm_compute. exact I.
Defined.

(** The iterations that look before they insert: marking a title that is
    marked already changes nothing, and no record is ever there twice. *)
Lemma mark_watched_365_present u t (db : list Db.watched_row) :
  Db.WatchedRow u t ∈ db → Dashboard365.mark_watched u t db = db.
Proof.
  intros Hin. unfold Dashboard365.mark_watched.
  assert (Db.WatchedRow u t ∈ filter (λ r, Db.matches u t r) db) as Hf.
  { apply list_elem_of_filter. split; [|done].
    unfold Db.matches. simpl. by rewrite !bool_decide_eq_true_2. }
  destruct (filter _ db); [by apply elem_of_nil in Hf|done].
Qed.

Lemma mark_watched_365_elem_of u t (db : list Db.watched_row) :
  Db.WatchedRow u t ∈ Dashboard365.mark_watched u t db.
Proof.
  unfold Dashboard365.mark_watched.
  destruct (filter _ db) as [|[u' t'] rows] eqn:Hf.
  - unfold Db.insert. set_solver.
  - assert (Db.WatchedRow u' t' ∈ filter (λ r, Db.matches u t r) db) as Hin
      by (rewrite Hf; left).
    apply list_elem_of_filter in Hin as [[Hu Ht]%andb_prop_elim Hin].
    apply bool_decide_unpack in Hu, Ht. simpl in *. by subst.
Qed.

Lemma mark_watched_365_idempotent u t (db : list Db.watched_row) :
  Dashboard365.mark_watched u t (Dashboard365.mark_watched u t db)
  = Dashboard365.mark_watched u t db.
Proof. apply mark_watched_365_present, mark_watched_365_elem_of. Qed.

Lemma mark_watched_365_NoDup u t (db : list Db.watched_row) :
  NoDup db → NoDup (Dashboard365.mark_watched u t db).
Proof.
  intros Hnd. unfold Dashboard365.mark_watched.
  destruct (filter _ db) as [|r rows] eqn:Hf; [|done].
  unfold Db.insert. apply NoDup_app. split_and!; [done| |apply NoDup_singleton].
  intros r Hr ->%list_elem_of_singleton.
  apply (filter_nil_not_elem_of _ _ (Db.WatchedRow u t) Hf); [|done].
  unfold Db.matches. simpl. by rewrite !bool_decide_eq_true_2.
Qed.

Lemma mark_watched_3556_idempotent u t (db : list Db.watched_row) :
  Dashboard3556.mark_watched u t (Dashboard3556.mark_watched u t db)
  = Dashboard3556.mark_watched u t db.
Proof.
  unfold Dashboard3556.mark_watched.
  destruct (decide (Db.WatchedRow u t ∈ db)) as [Hin|Hin].
  - by rewrite decide_True.
  - rewrite decide_True; [done|]. unfold Db.insert. set_solver.
Qed.

Lemma mark_watched_3556_NoDup u t (db : list Db.watched_row) :
  NoDup db → NoDup (Dashboard3556.mark_watched u t db).
Proof.
  intros Hnd. unfold Dashboard3556.mark_watched. case_decide as Hin; [done|].
  unfold Db.insert. apply NoDup_app. split_and!; [done| |apply NoDup_singleton].
  by intros r Hr ->%list_elem_of_singleton.
Qed.

(** C7.  The iterations that insert without looking: marking the same
    title twice leaves two records of it, and the list of watched titles
    has it twice.  The iteration that looks first keeps one. *)
Theorem mark_watched_plain_duplicates :
  let db := Dashboard1299.mark_watched "ann" "Heat" [] in
  db = [Db.WatchedRow "ann" "Heat"] ∧
  Dashboard1299.mark_watched "ann" "Heat" db
    = [Db.WatchedRow "ann" "Heat"; Db.WatchedRow "ann" "Heat"] ∧
  Dashboard1299.mark_watched "ann" "Heat" db ≠ db ∧
  Dashboard1299.get_watched (Dashboard1299.mark_watched "ann" "Heat" db) "ann"
    = ["Heat"; "Heat"] ∧
  Dashboard1901.get_watched
    (Dashboard1901.mark_watched "ann" "Heat"
       (Dashboard1901.mark_watched "ann" "Heat" [])) "ann"
    = ["Heat"; "Heat"] ∧
  Dashboard365.mark_watched "ann" "Heat" (Dashboard365.mark_watched "ann" "Heat" [])
    = [Db.WatchedRow "ann" "Heat"].
Proof. by split_and!. Qed.

(** ** [Counter] and [most_common] *)

Section counter_facts.
Context {K : Type} `{EqDecision K}.
Implicit Types (l : list K) (k g : K).

Lemma elem_of_first_seen l k : k ∈ first_seen l ↔ k ∈ l.
Proof.
  induction l as [|x l IH]; simpl; [done|].
  rewrite !elem_of_cons, list_elem_of_filter, IH.
  destruct (decide (k = x)); tauto.
Qed.

Lemma NoDup_first_seen l : NoDup (first_seen l).
Proof.
  induction l as [|x l IH]; simpl; constructor.
  - rewrite list_elem_of_filter. tauto.
  - by apply NoDup_filter.
Qed.

Lemma first_seen_snoc l k :
  first_seen (l ++ [k]) = if decide (k ∈ l) then first_seen l else first_seen l ++ [k].
Proof.
  induction l as [|x l IH]; [done|].
  cbn [app first_seen]. rewrite IH. destruct (decide (k ∈ l)) as [Hin|Hin].
  - by rewrite decide_True by by right.
  - rewrite filter_app, filter_singleton by done.
    destruct (decide (k = x)) as [->|Hne].
    + rewrite decide_False by tauto.
      rewrite decide_True by left. by rewrite app_nil_r.
    + rewrite decide_True by done.
      by rewrite decide_False by (rewrite elem_of_cons; tauto).
Qed.

Lemma occurrences_snoc l k g :
  occurrences g (l ++ [k]) = if decide (k = g) then S (occurrences g l) else occurrences g l.
Proof.
  unfold occurrences. rewrite filter_app, length_app, filter_singleton by done.
  destruct (decide (k = g)); simpl; lia.
Qed.

Lemma occurrences_not_elem_of l k : k ∉ l → occurrences k l = 0.
Proof.
  intros Hk. unfold occurrences.
  rewrite (elem_of_nil_inv (filter _ l)); [done|].
  by intros x [-> ?]%list_elem_of_filter.
Qed.

Lemma occurrences_elem_of l k : k ∈ l → 0 < occurrences k l.
Proof.
  intros Hk. unfold occurrences.
  assert (k ∈ filter (λ y, y = k) l) as Hin by by apply list_elem_of_filter.
  destruct (filter _ l); [by apply elem_of_nil in Hin|simpl; lia].
Qed.

Lemma counter_incr_fmap (cnt : K → nat) (L : list K) k :
  NoDup L →
  Py.counter_incr k ((λ g, (g, cnt g)) <$> L) =
    if decide (k ∈ L)
    then (λ g, (g, if decide (k = g) then S (cnt g) else cnt g)) <$> L
    else ((λ g, (g, cnt g)) <$> L) ++ [(k, 1)].
Proof.
  induction L as [|x L IH]; intros Hnd; [done|].
  apply NoDup_cons in Hnd as [Hx Hnd].
  cbn [fmap list_fmap Py.counter_incr].
  destruct (decide (k = x)) as [->|Hne].
  - rewrite decide_True by left. f_equal.
    apply list_fmap_ext. intros i g Hg. apply list_elem_of_lookup_2 in Hg.
    rewrite decide_False; [done|]. by intros <-.
  - rewrite IH by done. destruct (decide (k ∈ L)) as [Hin|Hin].
    + by rewrite decide_True by by right.
    + by rewrite decide_False by (rewrite elem_of_cons; tauto).
Qed.

(** The items of a [Counter]: every distinct element with the number of
    its occurrences, in the order of first encounter. *)
Lemma Counter_spec l :
  Py.Counter l = (λ g, (g, occurrences g l)) <$> first_seen l.
Proof.
  induction l as [|k l IH] using rev_ind; [done|].
  unfold Py.Counter in *. rewrite fold_left_app. simpl. rewrite IH.
  rewrite counter_incr_fmap by apply NoDup_first_seen.
  rewrite first_seen_snoc.
  destruct (decide (k ∈ l)) as [Hin|Hin].
  - rewrite decide_True by by apply elem_of_first_seen.
    apply list_fmap_ext. intros i g _. by rewrite occurrences_snoc.
  - rewrite decide_False by by rewrite elem_of_first_seen.
    rewrite fmap_app. simpl. f_equal.
    + apply list_fmap_ext. intros i g Hg. apply list_elem_of_lookup_2 in Hg.
      rewrite occurrences_snoc, decide_False; [done|].
      intros Heq. subst g. apply Hin. by apply elem_of_first_seen.
    + rewrite occurrences_snoc, decide_True by done.
      by rewrite occurrences_not_elem_of.
Qed.

Lemma index_of_lt l k : k ∈ l → index_of k l < length l.
Proof.
  induction l as [|x l IH]; simpl; [by intros ?%elem_of_nil|].
  intros Hk. destruct (decide (x = k)); [lia|].
  apply elem_of_cons in Hk as [->|Hk]; [done|]. apply IH in Hk. lia.
Qed.


End counter_facts.


(** ** [get_top_genres] *)

Section top_genres.
Context (movies_df : list Catalog.movie).

#[local] Instance by_count_trans : Transitive by_count.
Proof. unfold by_count. intros a b c ??. lia. Qed.

Lemma isin_nil : Catalog.isin [] movies_df = [].
Proof.
  unfold Catalog.isin. apply elem_of_nil_inv.
  intros m [Hm _]%list_elem_of_filter. by apply elem_of_nil in Hm.
Qed.




End top_genres.


(** ** The titles of the recommendations tab *)

(** What holds of the tab of the iteration at line 2605: no title the
    user has watched is among its titles. *)
Lemma recommendations_2605_excludes_watched (S : Pd.SortValues)
    (final_recs : gmap Z (list string)) (movies_df : list Catalog.movie)
    (db : list Db.watched_row) (username : string) (recs : list string) (t : string) :
  Dashboard2605.recommendations final_recs movies_df db username = Py.Ok recs →
  t ∈ recs → t ∉ Dashboard2605.get_watched db username.
Proof.
  unfold Dashboard2605.recommendations. intros Hrun Ht.
  destruct (match Py.int username ≫= (final_recs !!.) with
            | Some recs0 => Py.Ok recs0
            | None => _
            end) as [recs0|e]; simpl in Hrun; [|discriminate].
  injection Hrun as <-.
  apply list_elem_of_filter in Ht as [Ht _]. by rewrite elem_of_list_to_set in Ht.
Qed.

(** C1.  The tab of the iteration at line 2605, for the user named "1"
    for whom the model has thirteen titles of the catalog: all thirteen
    are its titles and thirteen rows are shown, above [TOP_N = 10].  The
    tab of the iteration at line 365 cuts the same list to its [TOP_N],
    which is 12. *)
Theorem recommendations_exceed_limit :
  Dashboard2605.recommendations (H := stable_sort_values) model_of_user_1
    thirteen_movies [] "1" = Py.Ok thirteen_titles ∧
  length thirteen_titles = 13 ∧
  length (Dashboard2605.rec_df thirteen_movies thirteen_titles) = 13 ∧
  Dashboard2605.TOP_N = 10 ∧
  Dashboard365.recommendations (H := stable_sort_values) model_of_user_1
    thirteen_movies [] "1" = take 12 thirteen_titles.
Proof. split_and!; [vm_compute; reflexivity|done|vm_compute; reflexivity|done..]. Qed.

(** ** The fallback of the iteration at line 1901 *)

Lemma map_result_ok {A B} (f : A → Py.result B) (g : A → B) (l : list A) :
  (∀ x, x ∈ l → f x = Py.Ok (g x)) → Py.map_result f l = Py.Ok (g <$> l).
Proof.
  induction l as [|x l IH]; intros Hf; [done|]. simpl.
  rewrite (Hf x) by left. simpl. rewrite IH; [done|].
  intros y Hy. apply Hf. by right.
Qed.

Lemma mask_filter {A} (g : A → bool) (l : list A) :
  (filter (λ mb : A * bool, mb.2 = true) (zip l (g <$> l))).*1
  = filter (λ m, g m = true) l.
Proof.
  induction l as [|x l IH]; [done|]. cbn [fmap list_fmap zip zip_with].
  rewrite !filter_cons. simpl. destruct (g x) eqn:Hg.
  - rewrite !decide_True by done. simpl. by f_equal.
  - rewrite !decide_False by done. done.
Qed.

Lemma sort_values_desc_nil `{!Pd.SortValues} {A} (key : A → Q) :
  Pd.sort_values_desc key [] = [].
Proof. apply Permutation_nil_r, Pd.sort_values_perm. Qed.

Lemma any_genre_in_1901_strings (top_genres : list (option string)) (m : Catalog.movie) :
  Forall is_Some top_genres → is_Some (Catalog.genres_clean m) →
  Dashboard1901.any_genre_in top_genres (Catalog.genres_clean m)
  = Py.Ok (matches_top_genre top_genres m).
Proof.
  intros Htop [s Hs]. unfold matches_top_genre. rewrite Hs.
  induction Htop as [|o top [p ->] _ IH]; [done|]. simpl.
  destruct (Py.contains p s); [done|]. by rewrite IH.
Qed.

Lemma split_explode_strings (df : list Catalog.movie) :
  Forall (λ m, is_Some (Catalog.genres_clean m)) df →
  Forall is_Some (Catalog.split_explode df).
Proof.
  intros Hdf. unfold Catalog.split_explode. apply Forall_forall.
  intros o (m & Ho & Hm)%list_elem_of_bind.
  rewrite Forall_forall in Hdf. destruct (Hdf m Hm) as [s Hs].
  rewrite Hs in Ho. apply list_elem_of_fmap in Ho as (piece & -> & _). by eexists.
Qed.

Lemma top_genres_1901_strings (movies_df : list Catalog.movie) (watched : list string) :
  Forall (λ m, is_Some (Catalog.genres_clean m)) movies_df →
  Forall is_Some (top_genres_1901 movies_df watched).
Proof.
  intros Hdf. apply Forall_forall. intros o Ho.
  unfold top_genres_1901, Py.most_common in Ho.
  apply list_elem_of_fmap in Ho as (a & -> & Ha).
  pose proof (elem_of_sublist _ _ _ Ha (sublist_take _ _)) as Ha'.
  rewrite sorted_desc_perm, Counter_spec in Ha'.
  apply list_elem_of_fmap in Ha' as (g & -> & Hg). simpl.
  rewrite elem_of_first_seen in Hg.
  assert (Forall is_Some (Catalog.split_explode (Catalog.isin watched movies_df)))
    as Hall.
  { apply split_explode_strings. unfold Catalog.isin.
    apply Forall_forall. intros m [_ Hm]%list_elem_of_filter.
    rewrite Forall_forall in Hdf. by apply Hdf. }
  rewrite Forall_forall in Hall. by apply Hall.
Qed.

Lemma get_genre_recommendations_1901_history `{!Pd.SortValues}
    (movies_df : list Catalog.movie) (db : list Db.watched_row)
    (username : string) (top_n : nat) :
  Dashboard1901.get_watched db username ≠ [] →
  Catalog.not_isin (Dashboard1901.get_watched db username) movies_df ≠ [] →
  Forall (λ m, is_Some (Catalog.genres_clean m)) movies_df →
  Dashboard1901.get_genre_recommendations movies_df db username top_n
  = Py.Ok (Catalog.title <$>
             take top_n
               (Pd.sort_values_desc Catalog.avg_rating
                  (filter (λ m, matches_top_genre
                                  (top_genres_1901 movies_df
                                     (Dashboard1901.get_watched db username)) m
                                = true)
                          (Catalog.not_isin (Dashboard1901.get_watched db username)
                             movies_df)))).
Proof.
  intros Hwatched Hleft Hdf. unfold Dashboard1901.get_genre_recommendations.
  destruct (Dashboard1901.get_watched db username) as [|t w] eqn:Hw; [done|].
  fold (top_genres_1901 movies_df (t :: w)).
  rewrite (map_result_ok _ (matches_top_genre (top_genres_1901 movies_df (t :: w)))).
  - simpl. revert Hleft.
    destruct (Catalog.not_isin (t :: w) movies_df) as [|m0 rest]; [done|].
    intros _.
    by rewrite <-(mask_filter
                    (matches_top_genre (top_genres_1901 movies_df (t :: w)))
                    (m0 :: rest)).
  - intros m Hm. apply any_genre_in_1901_strings.
    + by apply top_genres_1901_strings.
    + unfold Catalog.not_isin in Hm. apply list_elem_of_filter in Hm as [_ Hm].
      rewrite Forall_forall in Hdf. by apply Hdf.
Qed.

(** With a history and nothing left to watch, the frame of candidates
    has no row and the call ends in the [KeyError] of [sort_values]. *)
Remark get_genre_recommendations_1901_nothing_left `{!Pd.SortValues}
    (movies_df : list Catalog.movie) (db : list Db.watched_row)
    (username : string) (top_n : nat) :
  Dashboard1901.get_watched db username ≠ [] →
  Catalog.not_isin (Dashboard1901.get_watched db username) movies_df = [] →
  Dashboard1901.get_genre_recommendations movies_df db username top_n
  = Py.Raise Py.KeyError.
Proof.
  intros Hwatched Hleft. unfold Dashboard1901.get_genre_recommendations.
  destruct (Dashboard1901.get_watched db username) as [|t w] eqn:Hw; [done|].
  by rewrite Hleft.
Qed.

(** C6, as the code has it.  When the model has a list for the number
    the user name reads as, the titles come from the model, and their
    first [TOP_N] are the first [TOP_N] of that list.  Otherwise the
    fallback is used.  For a user who has watched nothing it gives the
    [TOP_N] highest rated titles of the catalog.  For a user with a
    history, some title left to watch, and a catalog in which every
    title has a genre string, it gives the [TOP_N] highest rated among
    the titles that the user has not watched and whose genre string
    contains one of the user's four most seen genres: the first [TOP_N]
    of these titles in descending order of rating.  For an empty catalog
    and a user who has watched nothing it gives the empty list. *)
Theorem base_recommendations_fallback (S : Pd.SortValues)
    (final_recs : gmap Z (list string)) (movies_df : list Catalog.movie)
    (db : list Db.watched_row) (username : string) :
  let watched := Dashboard1901.get_watched db username in
  let recommended :=
    Dashboard1901.recommendations final_recs movies_df db username in
  (∀ uid l, Py.int username = Some uid → final_recs !! uid = Some l →
     ∃ recs, recommended = Py.Ok recs ∧
             take Dashboard1901.TOP_N recs = take Dashboard1901.TOP_N l) ∧
  (Py.int username ≫= (final_recs !!.) = None →
     (watched = [] →
        recommended
        = Py.Ok (Catalog.title <$>
                   take Dashboard1901.TOP_N
                     (Pd.sort_values_desc Catalog.avg_rating movies_df))) ∧
     (watched ≠ [] →
      Catalog.not_isin watched movies_df ≠ [] →
      Forall (λ m, is_Some (Catalog.genres_clean m)) movies_df →
        recommended
        = Py.Ok (Catalog.title <$>
                   take Dashboard1901.TOP_N
                     (Pd.sort_values_desc Catalog.avg_rating
                        (filter (λ m, (Catalog.title m ∉ watched) ∧
                                      matches_top_genre
                                        (top_genres_1901 movies_df watched) m
                                      = true) movies_df)))) ∧
     (movies_df = [] → watched = [] → recommended = Py.Ok [])).
Proof.
  intros watched recommended. subst recommended.
  unfold Dashboard1901.recommendations. split.
  - intros uid l -> Hl. simpl. rewrite Hl. by exists l.
  - intros ->. split_and!.
    + intros Hw. unfold Dashboard1901.get_genre_recommendations.
      fold watched. by rewrite Hw.
    + intros Hw Hleft Hdf.
      rewrite get_genre_recommendations_1901_history by done. fold watched.
      unfold Catalog.not_isin. rewrite list_filter_filter.
      do 4 f_equal. apply list_filter_iff. intros m; tauto.
    + intros -> Hw. unfold Dashboard1901.get_genre_recommendations.
      fold watched. rewrite Hw. by rewrite sort_values_desc_nil.
Qed.

Lemma base_recommendations_fallback_witness :
  Dashboard1901.recommendations (H := stable_sort_values) ∅ action_first
    bob_watched_a "bob" = Py.Ok ["C"].
Proof.
  rewrite (proj1 (proj2 (proj2 (base_recommendations_fallback stable_sort_values
             ∅ action_first bob_watched_a "bob") eq_refl))).
  - vm_compute. reflexivity.
  - discriminate.
  - discriminate.
  - repeat constructor; by eexists.
Defined.

(** C6 fails as stated: bob has watched "A", an action film.  Of the two
    titles he has not watched, the comedy "B" has the highest rating, and
    the fallback does not give it: it gives the action film "C" alone. *)
Lemma fallback_counterexample :
  Dashboard1901.recommendations (H := stable_sort_values) ∅ action_first
    bob_watched_a "bob" = Py.Ok ["C"] ∧
  Catalog.title <$>
    take Dashboard1901.TOP_N
      (Pd.sort_values_desc (SortValues := stable_sort_values) Catalog.avg_rating
         (Catalog.not_isin (Dashboard1901.get_watched bob_watched_a "bob")
            action_first))
  = ["B"; "C"].
Proof. split; vm_compute; reflexivity. Qed.

(** * Further properties *)

(** ** [slug_key] *)

Lemma isalnum_underscore : PyText.isalnum "_" = false.
Proof. reflexivity. Qed.

Lemma sub_non_alnum_shape (b : bool) (s : string) :
  slug_shape b (PyText.sub_non_alnum b s) = true.
Proof.
  revert b. induction s as [|c s IH]; intros b; [done|].
  cbn [PyText.sub_non_alnum].
  destruct (PyText.isalnum c) eqn:Hc.
  - cbn [slug_shape]. by rewrite Hc.
  - destruct b; [done|]. cbn [slug_shape]. rewrite isalnum_underscore.
    by rewrite bool_decide_eq_true_2, IH.
Qed.

Lemma slice_to_shape (n : nat) (b : bool) (s : string) :
  slug_shape b s = true → slug_shape b (PyText.slice_to n s) = true.
Proof.
  revert b s. induction n as [|n IH]; intros b [|c s]; try done.
  cbn [slug_shape PyText.slice_to].
  destruct (PyText.isalnum c); [by apply IH|].
  intros [[-> ->]%andb_prop Hs]%andb_prop. by rewrite IH.
Qed.

Lemma sub_non_alnum_fixed (b : bool) (s : string) :
  slug_shape b s = true → PyText.sub_non_alnum b s = s.
Proof.
  revert b. induction s as [|c s IH]; intros b; [done|]. simpl.
  destruct (PyText.isalnum c); [intros ?; f_equal; by apply IH|].
  intros [[Hc Hb]%andb_prop Hs]%andb_prop.
  apply bool_decide_eq_true in Hc as ->. apply negb_true_iff in Hb as ->.
  f_equal. by apply IH.
Qed.

Lemma length_slice_to (n : nat) (s : string) :
  String.length (PyText.slice_to n s) = Nat.min n (String.length s).
Proof. revert s. induction n as [|n IH]; intros [|c s]; simpl; auto. Qed.

Lemma slice_to_all (n : nat) (s : string) :
  String.length s ≤ n → PyText.slice_to n s = s.
Proof.
  revert s. induction n as [|n IH]; intros [|c s]; simpl; try done; [lia|].
  intros ?. f_equal. apply IH. lia.
Qed.

Lemma slug_shape_chars (b : bool) (s : string) :
  slug_shape b s = true →
  str_all (λ c, PyText.isalnum c || bool_decide (c = "_"%char)) s = true.
Proof.
  revert b. induction s as [|c s IH]; intros b; [done|]. simpl.
  destruct (PyText.isalnum c); [by apply IH|]. simpl.
  intros [[-> _]%andb_prop ?]%andb_prop. simpl. by eapply IH.
Qed.

Lemma slug_shape_no_double (b : bool) (s : string) :
  slug_shape b s = true → Py.contains "__" s = false.
Proof.
  revert b. induction s as [|c s IH]; intros b; [done|].
  cbn [slug_shape Py.contains Py.startswith].
  destruct (PyText.isalnum c) eqn:Hc.
  - intros Hs. rewrite (IH _ Hs), orb_false_r.
    destruct (bool_decide_reflect ("_"%char = c)) as [<-|]; [done|done].
  - intros [[Hus _]%andb_prop Hs]%andb_prop. rewrite (IH _ Hs), orb_false_r.
    apply bool_decide_eq_true in Hus as ->. rewrite bool_decide_eq_true_2 by done.
    destruct s as [|c' s]; [done|]. simpl in Hs. simpl.
    destruct (bool_decide_reflect ("_"%char = c')) as [<-|]; [|done].
    by rewrite isalnum_underscore in Hs.
Qed.

(** X1.  A key made by [slug_key] has at most 40 characters, all of them
    letters, digits or underscores, and never two underscores in a
    row. *)
Theorem slug_key_shape (text : string) :
  String.length (Dashboard365More.slug_key text) ≤ 40 ∧
  str_all (λ c, PyText.isalnum c || bool_decide (c = "_"%char))
    (Dashboard365More.slug_key text) = true ∧
  Py.contains "__" (Dashboard365More.slug_key text) = false.
Proof.
  unfold Dashboard365More.slug_key.
  assert (slug_shape false
            (PyText.slice_to 40 (PyText.sub_non_alnum false text)) = true) as Hs
    by apply slice_to_shape, sub_non_alnum_shape.
  split_and!.
  - rewrite length_slice_to. lia.
  - by eapply slug_shape_chars.
  - by eapply slug_shape_no_double.
Qed.

(** X2.  [slug_key] is idempotent: the key of a key is that key. *)
Theorem slug_key_idempotent (text : string) :
  Dashboard365More.slug_key (Dashboard365More.slug_key text)
  = Dashboard365More.slug_key text.
Proof.
  unfold Dashboard365More.slug_key.
  rewrite sub_non_alnum_fixed by apply slice_to_shape, sub_non_alnum_shape.
  apply slice_to_all. rewrite length_slice_to. lia.
Qed.

(** ** Rounding, and [rating_to_stars] *)

Lemma Qfloor_bounds (x : Q) :
  (inject_Z (Qfloor x) <= x)%Q ∧ (x < inject_Z (Qfloor x) + 1)%Q.
Proof.
  split; [apply Qfloor_le|].
  pose proof (Qlt_floor x) as H. by rewrite inject_Z_plus in H.
Qed.

Lemma inject_Z_lt_succ (a b : Z) : (inject_Z a < inject_Z b + 1)%Q → (a ≤ b)%Z.
Proof.
  intros H. apply Z.lt_succ_r. rewrite Zlt_Qlt.
  unfold Z.succ. rewrite inject_Z_plus. exact H.
Qed.

(** The three cases of [round]. *)
Lemma round_cases (x : Q) :
  let f := Qfloor x in
  let r := (x - inject_Z f)%Q in
  ((r < 1 # 2)%Q ∧ PyText.round x = f) ∨
  ((1 # 2 < r)%Q ∧ PyText.round x = (f + 1)%Z) ∨
  ((r == 1 # 2)%Q ∧ PyText.round x = if Z.even f then f else (f + 1)%Z).
Proof.
  intros f r. unfold PyText.round. fold f. fold r.
  destruct (Qle_bool r (1 # 2)) eqn:H1; destruct (Qle_bool (1 # 2) r) eqn:H2.
  - apply Qle_bool_iff in H1, H2. right; right. split; [lra|done].
  - apply Qle_bool_iff in H1. left. split; [|done].
    apply Qnot_le_lt. rewrite <-Qle_bool_iff. congruence.
  - apply Qle_bool_iff in H2. right; left. split; [|done].
    apply Qnot_le_lt. rewrite <-Qle_bool_iff. congruence.
  - exfalso. assert (¬ (r <= 1 # 2)%Q) by (rewrite <-Qle_bool_iff; congruence).
    assert (¬ (1 # 2 <= r)%Q) by (rewrite <-Qle_bool_iff; congruence). lra.
Qed.

Lemma round_le (x : Q) (n : Z) : (x < inject_Z n + (1 # 2))%Q → (PyText.round x ≤ n)%Z.
Proof.
  intros Hx. destruct (Qfloor_bounds x) as [Hf1 Hf2].
  assert (Qfloor x ≤ n)%Z as Hfn by (apply inject_Z_lt_succ; lra).
  destruct (round_cases x) as [[_ ->]|[[Hr ->]|[Hr ->]]]; [done|..].
  - destruct (decide (Qfloor x = n)) as [Heq|]; [|lia].
    rewrite Heq in Hr. lra.
  - destruct (decide (Qfloor x = n)) as [Heq|]; [|destruct (Z.even _); lia].
    rewrite Heq in Hr. lra.
Qed.

Lemma round_ge (x : Q) (n : Z) : (inject_Z n - (1 # 2) < x)%Q → (n ≤ PyText.round x)%Z.
Proof.
  intros Hx. destruct (Qfloor_bounds x) as [Hf1 Hf2].
  assert (n ≤ Qfloor x + 1)%Z as Hfn.
  { apply inject_Z_lt_succ. rewrite inject_Z_plus.
    change (inject_Z 1) with 1%Q. lra. }
  destruct (round_cases x) as [[Hr ->]|[[_ ->]|[Hr ->]]]; [| done |].
  - destruct (decide (n = Qfloor x + 1)%Z) as [Heq|]; [|lia].
    rewrite Heq, inject_Z_plus in Hx. change (inject_Z 1) with 1%Q in Hx. lra.
  - destruct (decide (n = Qfloor x + 1)%Z) as [Heq|]; [|destruct (Z.even _); lia].
    rewrite Heq, inject_Z_plus in Hx. change (inject_Z 1) with 1%Q in Hx. lra.
Qed.

#[local] Instance round_proper : Proper (Qeq ==> eq) PyText.round.
Proof.
  intros x y Hxy. unfold PyText.round. rewrite (Qfloor_comp _ _ Hxy).
  assert (∀ a b c d, (a == b)%Q → (c == d)%Q → Qle_bool a c = Qle_bool b d) as Hle.
  { intros a b c d Hab Hcd. apply eq_true_iff_eq.
    rewrite !Qle_bool_iff. by rewrite Hab, Hcd. }
  rewrite (Hle (x - inject_Z (Qfloor y)) (y - inject_Z (Qfloor y)) (1 # 2) (1 # 2))%Q;
    [|by rewrite Hxy|done].
  by rewrite (Hle (1 # 2) (1 # 2) (x - inject_Z (Qfloor y)) (y - inject_Z (Qfloor y)))%Q;
    [|done|by rewrite Hxy].
Qed.

Lemma length_stars (n : Z) :
  length (stars n) = (Z.to_nat n + Z.to_nat (5 - n))%nat.
Proof. unfold stars. by rewrite length_app, !length_replicate. Qed.

(** X3.  The star string of the last iteration always has five
    characters, as many full stars as the rating rounded and then kept
    within 0 and 5; the iteration at line 2862, which keeps the rating
    within 0 and 5 first and rounds then, gives the same string for every
    rating. *)
Theorem rating_to_stars_five (rating : Q) :
  length (Dashboard3556More.rating_to_stars rating) = 5 ∧
  Dashboard3556More.rating_to_stars rating
  = replicate (Z.to_nat (Z.max 0 (Z.min 5 (PyText.round rating)))) FullStar
    ++ replicate (5 - Z.to_nat (Z.max 0 (Z.min 5 (PyText.round rating)))) HollowStar ∧
  Dashboard2862.rating_to_stars rating = Dashboard3556More.rating_to_stars rating.
Proof.
  unfold Dashboard3556More.rating_to_stars, Dashboard2862.rating_to_stars.
  split_and!.
  - rewrite length_stars. lia.
  - unfold stars. do 2 f_equal. lia.
  - f_equal. unfold Pd.max, PyText.min.
    destruct (Qle_bool 0 rating) eqn:H0.
    + apply Qle_bool_iff in H0. destruct (Qle_bool rating 5) eqn:H5.
      * apply Qle_bool_iff in H5.
        assert (PyText.round rating ≤ 5)%Z by (apply round_le; unfold inject_Z; lra).
        assert (0 ≤ PyText.round rating)%Z by (apply round_ge; unfold inject_Z; lra). lia.
      * assert (5 < rating)%Q
          by (apply Qnot_le_lt; rewrite <-Qle_bool_iff; congruence).
        assert (5 ≤ PyText.round rating)%Z by (apply round_ge; unfold inject_Z; lra).
        change (PyText.round 5) with 5%Z. lia.
    + assert (rating < 0)%Q
        by (apply Qnot_le_lt; rewrite <-Qle_bool_iff; congruence).
      assert (PyText.round rating ≤ 0)%Z by (apply round_le; unfold inject_Z; lra).
      change (Qle_bool 0 5) with true. cbv iota.
      change (PyText.round 0) with 0%Z. lia.
Qed.

(** X4.  The star string of the iterations at lines 725 and 3079 has
    five characters exactly for the ratings from -0.5 up to, but not
    including, 5.5; on the ratings from 0 to 5 it is the string of the
    last iteration. *)
Theorem rating_to_stars_unclamped (rating : Q) :
  (length (Dashboard725.rating_to_stars rating) = 5
   ↔ (- (1 # 2) <= rating)%Q ∧ (rating < 11 # 2)%Q) ∧
  ((0 <= rating)%Q → (rating <= 5)%Q →
   Dashboard725.rating_to_stars rating = Dashboard3556More.rating_to_stars rating).
Proof.
  unfold Dashboard725.rating_to_stars, Dashboard3556More.rating_to_stars.
  split.
  - rewrite length_stars. split.
    + intros Hlen. assert (0 ≤ PyText.round rating ≤ 5)%Z as [H0 H5] by lia.
      split.
      * apply Qnot_lt_le. intros Hlt.
        assert (PyText.round rating ≤ -1)%Z by (apply round_le; unfold inject_Z; lra). lia.
      * apply Qnot_le_lt. intros Hle.
        destruct (Qlt_le_dec (11 # 2) rating) as [Hgt|Hle'].
        -- assert (6 ≤ PyText.round rating)%Z by (apply round_ge; unfold inject_Z; lra). lia.
        -- assert (rating == 11 # 2)%Q as Heq by lra.
           rewrite Heq in H5. by vm_compute in H5.
    + intros [Hlo Hhi].
      assert (PyText.round rating ≤ 5)%Z by (apply round_le; unfold inject_Z; lra).
      assert (0 ≤ PyText.round rating)%Z.
      { destruct (Qlt_le_dec (- (1 # 2)) rating) as [Hgt|Hle'].
        - apply round_ge. unfold inject_Z. lra.
        - assert (rating == - (1 # 2))%Q as Heq by lra.
          rewrite Heq. by vm_compute. }
      lia.
  - intros H0 H5. f_equal.
    assert (PyText.round rating ≤ 5)%Z by (apply round_le; unfold inject_Z; lra).
    assert (0 ≤ PyText.round rating)%Z by (apply round_ge; unfold inject_Z; lra). lia.
Qed.

Lemma rating_to_stars_unclamped_witness :
  ((0 <= 7 # 2)%Q ∧ (7 # 2 <= 5)%Q) ∧
  Dashboard725.rating_to_stars (7 # 2) = Dashboard3556More.rating_to_stars (7 # 2).
Proof.
  assert ((0 <= 7 # 2)%Q ∧ (7 # 2 <= 5)%Q) as H by (split; lra).
  split; [exact H|].
  exact (proj2 (rating_to_stars_unclamped (7 # 2)) (proj1 H) (proj2 H)).
Defined.

(** ** The watch list of the last iteration *)

Lemma select_titles_app u (db1 db2 : list Db.watched_row) :
  Db.select_titles u (db1 ++ db2) = Db.select_titles u db1 ++ Db.select_titles u db2.
Proof. unfold Db.select_titles. by rewrite filter_app, fmap_app. Qed.

Lemma elem_of_select_titles u t (db : list Db.watched_row) :
  t ∈ Db.select_titles u db ↔ Db.WatchedRow u t ∈ db.
Proof.
  unfold Db.select_titles. rewrite list_elem_of_fmap. split.
  - intros ([u' t'] & -> & [Hu Hin]%list_elem_of_filter). simpl in *. by subst.
  - intros Hin. exists (Db.WatchedRow u t). split; [done|].
    by apply list_elem_of_filter.
Qed.

Lemma StronglySorted_filter {A} (R : relation A) (P : A → Prop)
    `{!∀ x, Decision (P x)} (l : list A) :
  StronglySorted R l → StronglySorted R (filter P l).
Proof.
  induction 1 as [|x l Hl IH Hx]; [constructor|].
  rewrite filter_cons. case_decide; [|done]. constructor; [done|].
  apply Forall_forall. intros y [_ Hy]%list_elem_of_filter.
  rewrite Forall_forall in Hx. by apply Hx.
Qed.

Lemma filter_fmap {A B} (f : A → B) (P : B → Prop) `{!∀ y, Decision (P y)}
    (l : list A) :
  filter P (f <$> l) = f <$> filter (λ x, P (f x)) l.
Proof.
  induction l as [|x l IH]; [done|]. rewrite fmap_cons, !filter_cons, IH.
  by case_decide.
Qed.

(** *** The order of the titles *)

Lemma string_compare_lt_trans (a b c : string) :
  String.compare a b = Lt → String.compare b c = Lt → String.compare a c = Lt.
Proof.
  revert b c. induction a as [|x a IH]; intros [|y b] [|z c]; simpl; try done.
  destruct (Ascii.compare x y) eqn:Hxy; [|intros _|done].
  - apply Ascii.compare_eq_iff in Hxy as ->.
    destruct (Ascii.compare y z); [apply IH|done..].
  - destruct (Ascii.compare y z) eqn:Hyz; [|intros _|done].
    + apply Ascii.compare_eq_iff in Hyz as <-. by rewrite Hxy.
    + unfold Ascii.compare in *. rewrite N.compare_lt_iff in Hxy, Hyz.
      assert ((N_of_ascii x ?= N_of_ascii z)%N = Lt) as Hxz
        by (apply N.compare_lt_iff; lia).
      by rewrite Hxz.
Qed.

Lemma title_le_cases (a b : string) :
  Dashboard3556More.title_le a b ↔ a = b ∨ String.compare a b = Lt.
Proof.
  unfold Dashboard3556More.title_le, String.leb. split.
  - destruct (String.compare a b) eqn:H; [|by right|done].
    left. by apply String.compare_eq_iff.
  - intros [Hab|Hab]; [subst a|by rewrite Hab].
    pose proof (String.compare_antisym b b) as H.
    by destruct (String.compare b b).
Qed.

#[local] Instance title_le_trans : Transitive Dashboard3556More.title_le.
Proof.
  intros a b c. rewrite !title_le_cases.
  intros [->|Hab] [->|Hbc]; eauto using string_compare_lt_trans.
Qed.

#[local] Instance title_le_total : Total Dashboard3556More.title_le.
Proof. intros a b. apply String.leb_total. Qed.

#[local] Instance title_le_antisymm : AntiSymm (=) Dashboard3556More.title_le.
Proof. intros a b. apply String.leb_antisym. Qed.

(** The list that [get_watched] of the last iteration returns holds the
    titles of the rows of the user, in the order of the titles. *)
Lemma get_watched_3556_perm (db : list Db.watched_row) (username : string) :
  Dashboard3556More.get_watched db username ≡ₚ Db.select_titles username db.
Proof. apply merge_sort_Permutation. Qed.

Lemma get_watched_3556_sorted (db : list Db.watched_row) (username : string) :
  StronglySorted Dashboard3556More.title_le
    (Dashboard3556More.get_watched db username).
Proof. apply (StronglySorted_merge_sort _). Qed.

Lemma elem_of_get_watched_3556 (db : list Db.watched_row) (username t : string) :
  t ∈ Dashboard3556More.get_watched db username ↔ Db.WatchedRow username t ∈ db.
Proof. by rewrite get_watched_3556_perm, elem_of_select_titles. Qed.

(** Two lists of titles in the order of the index that hold the same
    titles are one list. *)
Lemma sorted_titles_unique (l k : list string) :
  l ≡ₚ k → merge_sort Dashboard3556More.title_le l
           = merge_sort Dashboard3556More.title_le k.
Proof.
  intros Hlk. apply (StronglySorted_unique Dashboard3556More.title_le).
  - apply (StronglySorted_merge_sort _).
  - apply (StronglySorted_merge_sort _).
  - by rewrite !merge_sort_Permutation.
Qed.

Lemma merge_sort_titles_filter (P : string → Prop) `{!∀ t, Decision (P t)}
    (l : list string) :
  merge_sort Dashboard3556More.title_le (filter P l)
  = filter P (merge_sort Dashboard3556More.title_le l).
Proof.
  apply (StronglySorted_unique Dashboard3556More.title_le).
  - apply (StronglySorted_merge_sort _).
  - apply StronglySorted_filter, (StronglySorted_merge_sort _).
  - by rewrite !merge_sort_Permutation.
Qed.

Lemma select_titles_delete (username movie_title other : string)
    (db : list Db.watched_row) :
  Db.select_titles other (Db.delete username movie_title db)
  = if decide (other = username)
    then filter (λ t, t ≠ movie_title) (Db.select_titles other db)
    else Db.select_titles other db.
Proof.
  unfold Db.delete, Db.select_titles.
  rewrite list_filter_filter.
  destruct (decide (other = username)) as [->|Hne].
  - rewrite filter_fmap, list_filter_filter. f_equal.
    apply list_filter_iff. intros [u t]. unfold Db.matches. simpl.
    split.
    + intros [-> Hm]. split; [|done]. intros ->. apply Hm.
      by rewrite !bool_decide_eq_true_2.
    + intros [Ht ->]. split; [done|].
      rewrite (bool_decide_eq_false_2 (t = movie_title)) by done.
      rewrite andb_false_r. by intros [].
  - f_equal. apply list_filter_iff. intros [u t]. unfold Db.matches. simpl.
    split; [by intros [? _]|]. intros ->. split; [done|].
    rewrite (bool_decide_eq_false_2 (other = username)) by done. by intros [].
Qed.

(** X5.  What [mark_watched] of the last iteration does to the lists
    that [get_watched] reads.  A list is in the order of the titles,
    whatever the order in which they were marked.  Marking a title that
    is not in the list of the user puts it into that list, at its place
    in the order of the titles; nothing else changes. *)
Theorem mark_watched_get_watched (username movie_title other : string)
    (db : list Db.watched_row) :
  StronglySorted Dashboard3556More.title_le
    (Dashboard3556More.get_watched
       (Dashboard3556.mark_watched username movie_title db) other) ∧
  Dashboard3556More.get_watched
    (Dashboard3556.mark_watched username movie_title db) other
  = if decide (other = username ∧
               movie_title ∉ Dashboard3556More.get_watched db username)
    then merge_sort Dashboard3556More.title_le
           (movie_title :: Dashboard3556More.get_watched db other)
    else Dashboard3556More.get_watched db other.
Proof.
  split; [apply get_watched_3556_sorted|].
  unfold Dashboard3556.mark_watched.
  destruct (decide (Db.WatchedRow username movie_title ∈ db)) as [Hin|Hin].
  - rewrite decide_False; [done|].
    rewrite elem_of_get_watched_3556. by intros [_ []].
  - unfold Dashboard3556More.get_watched at 1.
    unfold Db.insert. rewrite select_titles_app. unfold Db.select_titles at 2.
    destruct (decide (other = username)) as [->|Hne].
    + rewrite decide_True by (by rewrite elem_of_get_watched_3556).
      rewrite filter_cons_True by done. rewrite filter_nil.
      apply sorted_titles_unique. simpl.
      rewrite get_watched_3556_perm. by rewrite <-Permutation_cons_append.
    + rewrite decide_False by (by intros [? _]).
      rewrite filter_cons_False by (simpl; congruence).
      by rewrite filter_nil, app_nil_r.
Qed.

Lemma mark_watched_get_watched_witness :
  Dashboard3556More.get_watched
    (Dashboard3556.mark_watched "ann" "Alien"
       (Dashboard3556.mark_watched "ann" "Heat" [])) "ann"
  = ["Alien"; "Heat"].
Proof.
  rewrite (proj2 (mark_watched_get_watched "ann" "Alien" "ann"
                    (Dashboard3556.mark_watched "ann" "Heat" []))).
  vm_compute. reflexivity.
Defined.

(** X6.  What [unwatch_movie] of the last iteration does to the lists
    that [get_watched] reads: the title leaves the list of that user, the
    other titles keep their order, and nothing else changes. *)
Theorem unwatch_movie_get_watched (username movie_title other : string)
    (db : list Db.watched_row) :
  Dashboard3556More.get_watched
    (Dashboard3556.unwatch_movie username movie_title db) other
  = if decide (other = username)
    then filter (λ t, t ≠ movie_title) (Dashboard3556More.get_watched db other)
    else Dashboard3556More.get_watched db other.
Proof.
  unfold Dashboard3556More.get_watched, Dashboard3556.unwatch_movie.
  rewrite select_titles_delete. case_decide; [|done].
  apply merge_sort_titles_filter.
Qed.

(** X7.  In the last iteration, marking a title that is not in the
    user's list and unwatching it again gives the table back. *)
Theorem unwatch_after_mark_restores (username movie_title : string)
    (db : list Db.watched_row) :
  movie_title ∉ Dashboard3556More.get_watched db username →
  Dashboard3556.unwatch_movie username movie_title
    (Dashboard3556.mark_watched username movie_title db) = db.
Proof.
  rewrite elem_of_get_watched_3556.
  intros Hnot. unfold Dashboard3556.mark_watched, Dashboard3556.unwatch_movie.
  rewrite decide_False by done. unfold Db.insert, Db.delete.
  rewrite filter_app. fold (Db.delete username movie_title db).
  rewrite delete_absent by done.
  rewrite filter_cons_False, filter_nil, app_nil_r; [done|].
  unfold Db.matches. simpl. rewrite !bool_decide_eq_true_2 by done.
  by intros H.
Qed.

Lemma unwatch_after_mark_restores_witness :
  Dashboard3556.unwatch_movie "ann" "Heat"
    (Dashboard3556.mark_watched "ann" "Heat" [Db.WatchedRow "ann" "Alien"])
  = [Db.WatchedRow "ann" "Alien"].
Proof.
  apply (unwatch_after_mark_restores "ann" "Heat" [Db.WatchedRow "ann" "Alien"]).
  apply (bool_decide_unpack _). vm_compute. exact I.
Defined.

(** X8.  The [mark_watched] that looks before it inserts (line 439)
    leaves the table that [INSERT OR IGNORE] of the last iteration leaves,
    whatever the table. *)
Theorem mark_watched_365_is_insert_or_ignore (username movie_title : string)
    (db : list Db.watched_row) :
  Dashboard365.mark_watched username movie_title db
  = Dashboard3556.mark_watched username movie_title db.
Proof.
  unfold Dashboard3556.mark_watched.
  destruct (decide (Db.WatchedRow username movie_title ∈ db)) as [Hin|Hin].
  - by apply mark_watched_365_present.
  - unfold Dashboard365.mark_watched.
    destruct (filter _ db) as [|[u' t'] rows] eqn:Hf; [done|].
    assert (Db.WatchedRow u' t' ∈ filter (λ r, Db.matches username movie_title r) db)
      as Hx by (rewrite Hf; left).
    apply list_elem_of_filter in Hx as [[Hu Ht]%andb_prop_elim Hx].
    apply bool_decide_unpack in Hu, Ht. simpl in *. by subst.
Qed.

(** ** [strip], [split] and [split_genres] *)

Lemma append_cons (x : ascii) (a b : string) : String x a +:+ b = String x (a +:+ b).
Proof. reflexivity. Qed.

Lemma append_nil_l (b : string) : EmptyString +:+ b = b.
Proof. reflexivity. Qed.

Lemma append_assoc (a b c : string) : (a +:+ b) +:+ c = a +:+ (b +:+ c).
Proof. induction a as [|x a IH]; [done|]. rewrite !append_cons. by f_equal. Qed.

Lemma lstrip_cases (s : string) :
  Py.lstrip s = EmptyString ∨
  ∃ c r, Py.lstrip s = String c r ∧ Py.isspace c = false.
Proof.
  induction s as [|c s IH]; [by left|]. simpl.
  destruct (Py.isspace c) eqn:Hc; [done|]. right. by exists c, s.
Qed.

Lemma rstrip_cons_nonspace (c : ascii) (r : string) :
  Py.isspace c = false → Py.rstrip (String c r) = String c (Py.rstrip r).
Proof. intros Hc. simpl. rewrite Hc. by destruct (Py.rstrip r). Qed.

Lemma rstrip_idemp (s : string) : Py.rstrip (Py.rstrip s) = Py.rstrip s.
Proof.
  induction s as [|c s IH]; [done|]. simpl.
  destruct (Py.rstrip s) as [|c' r'] eqn:Hr.
  - destruct (Py.isspace c) eqn:Hc; [done|]. simpl. by rewrite Hc.
  - change (Py.rstrip (String c (String c' r'))) with
      (match Py.rstrip (String c' r') with
       | EmptyString => if Py.isspace c then EmptyString else String c EmptyString
       | r => String c r
       end).
    by rewrite IH.
Qed.

Lemma strip_idemp (s : string) : Py.strip (Py.strip s) = Py.strip s.
Proof.
  unfold Py.strip. destruct (lstrip_cases s) as [->|(c & r & -> & Hc)]; [done|].
  rewrite (rstrip_cons_nonspace c r Hc).
  cbn [Py.lstrip]. rewrite Hc.
  rewrite (rstrip_cons_nonspace c _ Hc). by rewrite rstrip_idemp.
Qed.

Lemma strip_space_cons (s : string) : Py.strip (String " " s) = Py.strip s.
Proof. done. Qed.

Lemma str_all_lstrip P s : str_all P s = true → str_all P (Py.lstrip s) = true.
Proof.
  induction s as [|c s IH]; [done|]. simpl. intros [Hc Hs]%andb_true_iff.
  destruct (Py.isspace c); [by apply IH|]. simpl. by rewrite Hc, Hs.
Qed.

Lemma str_all_rstrip P s : str_all P s = true → str_all P (Py.rstrip s) = true.
Proof.
  induction s as [|c s IH]; [done|]. simpl. intros [Hc Hs]%andb_true_iff.
  specialize (IH Hs). destruct (Py.rstrip s) as [|a s0].
  - destruct (Py.isspace c); [done|]. simpl. by rewrite Hc.
  - change (P c && str_all P (String a s0) = true). by rewrite Hc, IH.
Qed.

Lemma str_all_strip P s : str_all P s = true → str_all P (Py.strip s) = true.
Proof. intros. by apply str_all_rstrip, str_all_lstrip. Qed.

Lemma split_nonempty sep s : Py.split sep s ≠ [].
Proof.
  induction s as [|c s IH]; [done|]. simpl.
  case_decide; [done|]. by destruct (Py.split sep s).
Qed.

(** The pieces of [split] have no separator in them, and keep what holds
    of every character of the string. *)
Lemma split_pieces sep P s piece :
  str_all P s = true → piece ∈ Py.split sep s →
  str_all (λ c, P c && bool_decide (c ≠ sep)) piece = true.
Proof.
  revert piece. induction s as [|c s IH]; intros piece Hs Hin.
  - simpl in Hin. by apply list_elem_of_singleton in Hin as ->.
  - simpl in Hs. apply andb_true_iff in Hs as [Hc Hs]. simpl in Hin.
    destruct (decide (c = sep)) as [->|Hne].
    + apply elem_of_cons in Hin as [->|Hin]; [done|]. by apply IH.
    + destruct (Py.split sep s) as [|p ps] eqn:Hsp.
      * apply list_elem_of_singleton in Hin as ->. simpl.
        by rewrite Hc, bool_decide_eq_true_2.
      * apply elem_of_cons in Hin as [->|Hin].
        -- simpl. rewrite Hc, bool_decide_eq_true_2 by done. simpl.
           apply IH; [done|left].
        -- apply IH; [done|by right].
Qed.

Lemma split_no_sep sep s :
  str_all (λ c, bool_decide (c ≠ sep)) s = true → Py.split sep s = [s].
Proof.
  induction s as [|c s IH]; [done|]. simpl. intros [Hc Hs]%andb_true_iff.
  apply bool_decide_eq_true in Hc. rewrite decide_False by done.
  by rewrite IH.
Qed.

Lemma split_app_sep sep a b :
  str_all (λ c, bool_decide (c ≠ sep)) a = true →
  Py.split sep (a +:+ String sep b) = a :: Py.split sep b.
Proof.
  induction a as [|c a IH].
  - intros _. rewrite append_nil_l. simpl. by rewrite decide_True.
  - intros [Hc Ha]%andb_true_iff. apply bool_decide_eq_true in Hc.
    rewrite append_cons. cbn [Py.split]. rewrite decide_False by done.
    by rewrite IH.
Qed.

Lemma replace_app old new a b :
  PyText.replace old new (a +:+ b)
  = PyText.replace old new a +:+ PyText.replace old new b.
Proof.
  induction a as [|c a IH]; [done|]. rewrite append_cons. simpl. case_decide.
  - rewrite IH. by rewrite append_assoc.
  - by rewrite IH, append_cons.
Qed.

Lemma replace_absent old new s :
  str_all (λ c, bool_decide (c ≠ old)) s = true → PyText.replace old new s = s.
Proof.
  induction s as [|c s IH]; [done|]. simpl. intros [Hc Hs]%andb_true_iff.
  apply bool_decide_eq_true in Hc. rewrite decide_False by done. by rewrite IH.
Qed.

Lemma str_all_replace_bar s :
  str_all (λ c, bool_decide (c ≠ "|"%char)) (PyText.replace "|" "," s) = true.
Proof.
  induction s as [|c s IH]; [done|]. simpl. case_decide; simpl; [done|].
  by rewrite bool_decide_eq_true_2.
Qed.

Lemma str_all_impl (P Q : ascii → bool) s :
  (∀ c, P c = true → Q c = true) → str_all P s = true → str_all Q s = true.
Proof.
  intros HPQ. induction s as [|c s IH]; [done|]. simpl.
  intros [Hc Hs]%andb_true_iff. by rewrite (HPQ c Hc), IH.
Qed.

(** X9.  Every genre that [split_genres] gives is a genre name: not
    empty, without white space at its ends, and without a comma or a bar
    in it. *)
Theorem split_genres_names (genres_str : option string) (g : string) :
  g ∈ Dashboard3556More.split_genres genres_str → genre_name g.
Proof.
  destruct genres_str as [s|]; simpl; [|by intros ?%elem_of_nil].
  intros [Hne (piece & -> & Hin)%list_elem_of_fmap]%list_elem_of_filter.
  split_and!; [done|apply strip_idemp|].
  apply str_all_strip.
  eapply str_all_impl;
    [|apply (split_pieces _ _ _ _ (str_all_replace_bar s) Hin)].
  intros c [H1 H2]%andb_true_iff. apply bool_decide_eq_true in H1, H2.
  by apply bool_decide_eq_true.
Qed.
Lemma split_genres_names_witness : genre_name "Sci-Fi".
Proof.
  apply (split_genres_names (Some "Action| Sci-Fi ,") "Sci-Fi").
  apply (bool_decide_unpack _). vm_compute. exact I.
Defined.

Lemma genre_name_no_comma g :
  genre_name g → str_all (λ c, bool_decide (c ≠ ","%char)) g = true.
Proof.
  intros (_ & _ & H). eapply str_all_impl; [|exact H].
  intros c [H1 _]%bool_decide_eq_true. by apply bool_decide_eq_true.
Qed.

Lemma genre_name_no_bar g :
  genre_name g → str_all (λ c, bool_decide (c ≠ "|"%char)) g = true.
Proof.
  intros (_ & _ & H). eapply str_all_impl; [|exact H].
  intros c [_ H2]%bool_decide_eq_true. by apply bool_decide_eq_true.
Qed.

Lemma join_cons_cons sep x y l :
  PyText.join sep (x :: y :: l) = x +:+ sep +:+ PyText.join sep (y :: l).
Proof. reflexivity. Qed.

Lemma str_all_app P a b :
  str_all P (a +:+ b) = str_all P a && str_all P b.
Proof.
  induction a as [|c a IH]; [done|]. rewrite append_cons. simpl.
  by rewrite IH, andb_assoc.
Qed.

Lemma str_all_join P sep l :
  str_all P sep = true → Forall (λ g, str_all P g = true) l →
  str_all P (PyText.join sep l) = true.
Proof.
  intros Hsep. induction 1 as [|x l Hx Hl IH]; [done|].
  destruct l as [|y l]; [done|].
  rewrite join_cons_cons, !str_all_app, Hx, Hsep. exact IH.
Qed.

(** The pieces of a joined list. *)
Lemma split_join_comma (pad : string) x l :
  str_all (λ c, bool_decide (c ≠ ","%char)) pad = true →
  Forall (λ g, str_all (λ c, bool_decide (c ≠ ","%char)) g = true) (x :: l) →
  Py.split "," (PyText.join (String "," pad) (x :: l))
  = x :: ((λ g, pad +:+ g) <$> l).
Proof.
  intros Hpad. revert x. induction l as [|y l IH]; intros x Hall.
  - simpl. apply split_no_sep. by apply Forall_cons in Hall as [? _].
  - apply Forall_cons in Hall as [Hx Hall].
    rewrite join_cons_cons. rewrite append_cons.
    rewrite split_app_sep by done. f_equal.
    assert (pad +:+ PyText.join (String "," pad) (y :: l)
            = PyText.join (String "," pad) ((pad +:+ y) :: l)) as ->.
    { destruct l as [|z l]; [done|]. rewrite !join_cons_cons.
      by rewrite append_assoc. }
    rewrite IH; [done|].
    apply Forall_cons in Hall as [Hy Hall]. apply Forall_cons. split; [|done].
    by rewrite str_all_app, Hpad, Hy.
Qed.

Lemma replace_join_bar l :
  Forall genre_name l →
  PyText.replace "|" "," (PyText.join "|" l) = PyText.join "," l.
Proof.
  induction 1 as [|x l Hx Hl IH]; [done|].
  destruct l as [|y l]; [by apply replace_absent, genre_name_no_bar|].
  rewrite !join_cons_cons, !replace_app, IH.
  by rewrite (replace_absent _ _ x) by by apply genre_name_no_bar.
Qed.

Lemma strip_padded_names (pad : string) l :
  (∀ g, Py.strip (pad +:+ g) = Py.strip g) → Forall genre_name l →
  filter (λ g, g ≠ EmptyString) (Py.strip <$> ((λ g, pad +:+ g) <$> l)) = l.
Proof.
  intros Hpad. induction 1 as [|x l (Hne & Hx & _) Hl IH]; [done|].
  rewrite !fmap_cons, Hpad, Hx, filter_cons_True by done. by rewrite IH.
Qed.

(** X10.  [split_genres] reads both formats that its documentation
    names: from genre names joined with bars, or with a comma and a
    space, it gives the names back, in their order. *)
Theorem split_genres_join (l : list string) :
  Forall genre_name l →
  Dashboard3556More.split_genres (Some (PyText.join "|" l)) = l ∧
  Dashboard3556More.split_genres (Some (PyText.join ", " l)) = l.
Proof.
  intros Hl.
  assert (Forall (λ g, str_all (λ c, bool_decide (c ≠ ","%char)) g = true) l) as Hc.
  { eapply Forall_impl; [exact Hl|]. apply genre_name_no_comma. }
  assert (Forall (λ g, str_all (λ c, bool_decide (c ≠ "|"%char)) g = true) l) as Hb.
  { eapply Forall_impl; [exact Hl|]. apply genre_name_no_bar. }
  unfold Dashboard3556More.split_genres. split.
  - rewrite replace_join_bar by done.
    destruct l as [|x l]; [done|].
    rewrite (split_join_comma EmptyString) by done.
    apply Forall_cons in Hl as [(Hne & Hx & _) Hl].
    rewrite fmap_cons, Hx, filter_cons_True by done. f_equal.
    by apply strip_padded_names.
  - rewrite replace_absent by (by apply str_all_join).
    destruct l as [|x l]; [done|].
    rewrite (split_join_comma " ") by done.
    apply Forall_cons in Hl as [(Hne & Hx & _) Hl].
    rewrite fmap_cons, Hx, filter_cons_True by done. f_equal.
    by apply strip_padded_names.
Qed.

Lemma split_genres_join_witness :
  Dashboard3556More.split_genres (Some "Action|Sci-Fi") = ["Action"; "Sci-Fi"] ∧
  Dashboard3556More.split_genres (Some "Action, Sci-Fi") = ["Action"; "Sci-Fi"].
Proof.
  apply (split_genres_join ["Action"; "Sci-Fi"]).
  repeat constructor; vm_compute; congruence.
Defined.

(** ** The recommendations of the last iteration *)

Lemma elem_of_fromkeys {K} `{EqDecision K} (l : list K) (k : K) :
  k ∈ PyText.fromkeys l ↔ k ∈ l.
Proof.
  unfold PyText.fromkeys.
  assert (∀ acc, k ∈ foldl (λ keys k, if decide (k ∈ keys) then keys else keys ++ [k])
                        acc l ↔ k ∈ acc ∨ k ∈ l) as Hgen.
  { induction l as [|x l IH]; intros acc; simpl.
    - rewrite elem_of_nil. tauto.
    - rewrite IH, elem_of_cons. case_decide as Hx.
      + split; [tauto|]. intros [?|[->|?]]; tauto.
      + rewrite elem_of_app, list_elem_of_singleton. tauto. }
  rewrite Hgen, elem_of_nil. tauto.
Qed.

Lemma length_filter_submseteq {A} (P : A → Prop) `{!∀ x, Decision (P x)}
    (l1 l2 : list A) :
  l1 ⊆+ l2 → length (filter P l1) ≤ length (filter P l2).
Proof.
  intros [k Hk]%submseteq_Permutation. rewrite Hk, filter_app, length_app. lia.
Qed.

Lemma filter_True_all {A} (P : A → Prop) `{!∀ x, Decision (P x)} (l : list A) :
  Forall P l → filter P l = l.
Proof.
  induction 1 as [|x l Hx Hl IH]; [done|]. by rewrite filter_cons_True, IH.
Qed.

Lemma filter_False_all {A} (P : A → Prop) `{!∀ x, Decision (P x)} (l : list A) :
  Forall (λ x, ¬ P x) l → filter P l = [].
Proof.
  induction 1 as [|x l Hx Hl IH]; [done|]. by rewrite filter_cons_False.
Qed.

Section top_rated.
Context (S : Pd.SortValues).
Context (movies_df : list Catalog.movie).

Lemma sorted_take_drop {A} (key : A → Q) (l : list A) (n : nat) (x y : A) :
  x ∈ take n (Pd.sort_values_desc key l) →
  y ∈ drop n (Pd.sort_values_desc key l) → (key y <= key x)%Q.
Proof.
  intros Hx Hy. pose proof (Pd.sort_values_sorted A key l) as Hs.
  rewrite <-(take_drop n (Pd.sort_values_desc key l)) in Hs.
  by apply (StronglySorted_app_1_elem_of _ _ _ x y) in Hs.
Qed.

Lemma elem_of_sort_values {A} (key : A → Q) (l : list A) (x : A) :
  x ∈ Pd.sort_values_desc key l ↔ x ∈ l.
Proof. by rewrite (Pd.sort_values_perm A key l). Qed.

Lemma elem_of_take_sort {A} (key : A → Q) (l : list A) (n : nat) (x : A) :
  x ∈ take n (Pd.sort_values_desc key l) → x ∈ l.
Proof.
  intros Hx. apply (elem_of_sort_values key).
  by apply (sublist_subseteq _ _ (sublist_take _ n)).
Qed.

(** [get_genre_top_rated] gives no excluded title. *)
Lemma get_genre_top_rated_unwatched genres (exclude : gset string) top_n recs t :
  Dashboard3556More.get_genre_top_rated movies_df genres exclude top_n = Py.Ok recs →
  t ∈ recs → t ∉ exclude.
Proof.
  unfold Dashboard3556More.get_genre_top_rated.
  destruct genres as [|g genres].
  - intros [= <-] (m & -> & Hm%elem_of_take_sort)%list_elem_of_fmap.
    by apply list_elem_of_filter in Hm as [? _].
  - destruct (Py.map_result _ movies_df) as [mask|e]; simpl; [|done].
    intros [= <-] (m & -> & Hm%elem_of_take_sort)%list_elem_of_fmap.
    apply list_elem_of_fmap in Hm as ([m' b] & -> & Hmb).
    by apply list_elem_of_filter in Hmb as [[_ ?] _].
Qed.


(** X11.  What [get_combined_recommendations] returns, when it returns:
    the titles of at most [top_n] rows of the catalogue, in descending
    order of rating; a watched title is among them only if the model
    lists it for the user; and the result is the top of the catalogue:
    no unwatched movie that is left out is rated higher than a movie
    that is in. *)
Theorem get_combined_recommendations_top_rated
    (final_recs : gmap string (list string)) (db : list Db.watched_row)
    (username : string) (top_n : nat) (ranked : list string) :
  Dashboard3556More.get_combined_recommendations final_recs movies_df db
    username top_n = Py.Ok ranked →
  ∃ rows : list Catalog.movie,
    ranked = Catalog.title <$> rows ∧
    length rows ≤ top_n ∧
    rows ⊆+ movies_df ∧
    StronglySorted (λ a b, Catalog.avg_rating b <= Catalog.avg_rating a)%Q rows ∧
    (∀ r, r ∈ rows →
       Catalog.title r ∈ default [] (final_recs !! username) ∨
       Catalog.title r ∉ Dashboard3556More.get_watched db username) ∧
    (∀ m r, m ∈ movies_df →
       Catalog.title m ∉ Dashboard3556More.get_watched db username →
       Catalog.title m ∉ ranked → r ∈ rows →
       (Catalog.avg_rating m <= Catalog.avg_rating r)%Q).
Proof.
  unfold Dashboard3556More.get_combined_recommendations.
  set (W := list_to_set (Dashboard3556More.get_watched db username) : gset string).
  set (hybrid := default [] (final_recs !! username)).
  set (U := filter (λ m, Catalog.title m ∉ W) movies_df).
  destruct (Dashboard3556More.get_genre_top_rated movies_df _ W (top_n * 3))
    as [genre_recs|e] eqn:Hg; simpl; [|done].
  set (O := take (top_n * 3) (Pd.sort_values_desc Catalog.avg_rating U)).
  set (M := PyText.fromkeys (hybrid ++ genre_recs ++ (Catalog.title <$> O))).
  set (R := filter (λ m, Catalog.title m ∈ M) movies_df).
  intros [= <-].
  exists (take top_n (Pd.sort_values_desc Catalog.avg_rating R)).
  assert (∀ t, t ∈ W ↔ t ∈ Dashboard3556More.get_watched db username) as HW
    by (intros t; apply elem_of_list_to_set).
  split_and!.
  - done.
  - rewrite length_take. lia.
  - etrans; [apply submseteq_take|].
    etrans; [apply Permutation_submseteq, Pd.sort_values_perm|].
    apply sublist_submseteq, sublist_filter.
  - pose proof (Pd.sort_values_sorted _ Catalog.avg_rating R) as Hs.
    rewrite <-(take_drop top_n (Pd.sort_values_desc Catalog.avg_rating R)) in Hs.
    by apply StronglySorted_app_1_l in Hs.
  - intros r Hr%elem_of_take_sort.
    apply list_elem_of_filter in Hr as [Hr _]. unfold M in Hr.
    rewrite elem_of_fromkeys, !elem_of_app in Hr.
    destruct Hr as [?|[Hr|Hr]]; [by left|right..]; rewrite <-HW.
    + by eapply get_genre_top_rated_unwatched.
    + apply list_elem_of_fmap in Hr as (o & -> & Ho%elem_of_take_sort).
      by apply list_elem_of_filter in Ho as [? _].
  - intros m r Hm Hmw Hmr Hr. rewrite <-HW in Hmw.
    destruct (decide (Catalog.title m ∈ M)) as [HmM|HmM].
    + (* the movie was a candidate: it stands after the ones taken *)
      assert (m ∈ Pd.sort_values_desc Catalog.avg_rating R) as Hin.
      { apply elem_of_sort_values. by apply list_elem_of_filter. }
      rewrite <-(take_drop top_n (Pd.sort_values_desc Catalog.avg_rating R)) in Hin.
      apply elem_of_app in Hin as [Hin|Hin].
      * destruct Hmr. apply list_elem_of_fmap. by exists m.
      * by eapply sorted_take_drop.
    + (* the movie was no candidate: [3 * top_n] unwatched ones are rated
         as high, and they were candidates *)
      destruct (Qlt_le_dec (Catalog.avg_rating r) (Catalog.avg_rating m))
        as [Hlt|]; [exfalso|done].
      assert (m ∈ drop (top_n * 3) (Pd.sort_values_desc Catalog.avg_rating U)) as Hdrop.
      { assert (m ∈ Pd.sort_values_desc Catalog.avg_rating U) as Hin.
        { apply elem_of_sort_values. by apply list_elem_of_filter. }
        rewrite <-(take_drop (top_n * 3) (Pd.sort_values_desc Catalog.avg_rating U)) in Hin.
        apply elem_of_app in Hin as [Hin|Hin]; [|done].
        destruct HmM. unfold M. rewrite elem_of_fromkeys, !elem_of_app.
        right; right. apply list_elem_of_fmap. by exists m. }
      assert (length O = top_n * 3) as HlenO.
      { unfold O. rewrite length_take. apply Nat.min_l.
        assert (length (drop (top_n * 3) (Pd.sort_values_desc Catalog.avg_rating U)) ≠ 0)
          as Hne by (intros ?%nil_length_inv; rewrite H in Hdrop; by apply elem_of_nil in Hdrop).
        rewrite length_drop in Hne. lia. }
      set (P := λ x : Catalog.movie, (Catalog.avg_rating m <= Catalog.avg_rating x)%Q).
      assert (∀ x, Decision (P x)) as Pdec.
      { intros x. unfold P.
        destruct (Qlt_le_dec (Catalog.avg_rating x) (Catalog.avg_rating m)) as [Hx|Hx];
          [right|by left].
        by apply Qlt_not_le. }
      assert (O ⊆+ Pd.sort_values_desc Catalog.avg_rating R) as Hsub.
      { rewrite (Pd.sort_values_perm _ Catalog.avg_rating R).
        assert (filter (λ x, Catalog.title x ∈ M) O = O) as <-.
        { apply filter_True_all, Forall_forall. intros o Ho.
          unfold M. rewrite elem_of_fromkeys, !elem_of_app.
          right; right. apply list_elem_of_fmap. by exists o. }
        assert (O ⊆+ movies_df) as [k Hk]%submseteq_Permutation.
        { unfold O. etrans; [apply submseteq_take|].
          etrans; [apply Permutation_submseteq, Pd.sort_values_perm|].
          apply sublist_submseteq, sublist_filter. }
        unfold R. rewrite Hk, filter_app. apply submseteq_inserts_r. done. }
      pose proof (length_filter_submseteq P _ _ Hsub) as Hlen.
      rewrite (filter_True_all P O) in Hlen.
      2:{ apply Forall_forall. intros o Ho. unfold P.
          by eapply sorted_take_drop. }
      rewrite <-(take_drop top_n (Pd.sort_values_desc Catalog.avg_rating R)),
        filter_app in Hlen.
      rewrite (filter_False_all P (drop _ _)), app_nil_r in Hlen.
      2:{ apply Forall_forall. intros y Hy. unfold P. apply Qlt_not_le.
          eapply Qle_lt_trans; [|exact Hlt]. by eapply sorted_take_drop. }
      assert (length (filter P (take top_n (Pd.sort_values_desc Catalog.avg_rating R)))
              < length (take top_n (Pd.sort_values_desc Catalog.avg_rating R))) as Hlt'.
      { apply (length_filter_lt _ _ r); [done|]. unfold P. by apply Qlt_not_le. }
      rewrite length_take in Hlt'. lia.
Qed.

End top_rated.
Lemma get_combined_recommendations_top_rated_witness :
  ∃ rows : list Catalog.movie,
    ["B"; "C"] = Catalog.title <$> rows ∧
    length rows ≤ 2 ∧
    rows ⊆+ comedy_on_top ∧
    StronglySorted (λ a b, Catalog.avg_rating b <= Catalog.avg_rating a)%Q rows ∧
    (∀ r, r ∈ rows →
       Catalog.title r ∈ default [] ((∅ : gmap string (list string)) !! "bob") ∨
       Catalog.title r ∉ Dashboard3556More.get_watched bob_saw_a "bob") ∧
    (∀ m r, m ∈ comedy_on_top →
       Catalog.title m ∉ Dashboard3556More.get_watched bob_saw_a "bob" →
       Catalog.title m ∉ ["B"; "C"] → r ∈ rows →
       (Catalog.avg_rating m <= Catalog.avg_rating r)%Q).
Proof.
  apply (get_combined_recommendations_top_rated stable_sort_values comedy_on_top
           ∅ bob_saw_a "bob" 2 ["B"; "C"]).
  vm_compute. reflexivity.
Defined.

Section returns.
Context (S : Pd.SortValues).
Context (final_recs : gmap string (list string)) (movies_df : list Catalog.movie).

Lemma Counter_nonempty {K} `{EqDecision K} (l : list K) :
  l ≠ [] → Py.Counter l ≠ [].
Proof.
  intros Hl. rewrite Counter_spec. destruct l as [|k l]; [done|].
  assert (k ∈ first_seen (k :: l)) as Hk by (apply elem_of_first_seen; left).
  destruct (first_seen (k :: l)); [by apply elem_of_nil in Hk|done].
Qed.

Lemma elem_of_most_common {K} `{EqDecision K} (n : nat) (l : list K) (k : K) :
  k ∈ (Py.most_common n (Py.Counter l)).*1 → k ∈ l.
Proof.
  unfold Py.most_common. intros (a & -> & Ha)%list_elem_of_fmap.
  pose proof (elem_of_sublist _ _ _ Ha (sublist_take _ _)) as Ha'.
  rewrite sorted_desc_perm, Counter_spec in Ha'.
  apply list_elem_of_fmap in Ha' as (g & -> & Hg). simpl.
  by rewrite elem_of_first_seen in Hg.
Qed.

Lemma most_common_nonempty {K} `{EqDecision K} (n : nat) (l : list K) :
  l ≠ [] → 0 < n → (Py.most_common n (Py.Counter l)).*1 ≠ [].
Proof.
  intros Hl Hn Hnil. apply fmap_nil_inv in Hnil. unfold Py.most_common in Hnil.
  apply (f_equal length) in Hnil. rewrite length_take in Hnil.
  pose proof (Counter_nonempty l Hl) as Hc.
  assert (length (Py.sorted_desc (λ y x : K * nat, bool_decide (x.2 < y.2))
                    (Py.Counter l)) = length (Py.Counter l)) as Hlen
    by (by rewrite sorted_desc_perm).
  destruct (Py.Counter l); [done|]. simpl in *. lia.
Qed.

Lemma elem_of_watched_genres_series (W : gset string) (o : option string) :
  o ∈ Dashboard3556More.watched_genres_series movies_df W →
  ∃ m, m ∈ movies_df ∧ Catalog.title m ∈ W ∧
       match o with
       | Some g =>
           g ∈ Dashboard3556More.split_genres
                 (Some (Dashboard2605.str (Catalog.genres_clean m)))
       | None =>
           Dashboard3556More.split_genres
             (Some (Dashboard2605.str (Catalog.genres_clean m))) = []
       end.
Proof.
  unfold Dashboard3556More.watched_genres_series.
  intros (m & Ho & [HW Hm]%list_elem_of_filter)%list_elem_of_bind.
  exists m. split_and!; [done..|].
  destruct (Dashboard3556More.split_genres _) as [|g gs].
  - by apply list_elem_of_singleton in Ho as ->.
  - by apply list_elem_of_fmap in Ho as (g' & -> & Hg').
Qed.

(** X12.  On a catalogue in which every cell of [genres_clean] holds a
    genre, [get_combined_recommendations] returns; and when no two rows
    share a title, as [load_movies] leaves it, no title comes twice. *)
Theorem get_combined_recommendations_returns (db : list Db.watched_row)
    (username : string) (top_n : nat) :
  Forall has_genre movies_df →
  ∃ ranked,
    Dashboard3556More.get_combined_recommendations final_recs movies_df db
      username top_n = Py.Ok ranked ∧
    (NoDup (Catalog.title <$> movies_df) → NoDup ranked).
Proof.
  intros Hall. rewrite Forall_forall in Hall.
  unfold Dashboard3556More.get_combined_recommendations.
  set (W := list_to_set (Dashboard3556More.get_watched db username) : gset string).
  set (series := Dashboard3556More.watched_genres_series movies_df W).
  set (top_genres := match series with [] => [] | _ :: _ => _ end).
  assert (Forall is_Some top_genres) as Htop.
  { apply Forall_forall. intros o Ho. unfold top_genres in Ho.
    destruct series as [|o1 series'] eqn:Hs; [by apply elem_of_nil in Ho|].
    apply elem_of_most_common in Ho. rewrite <-Hs in Ho.
    apply elem_of_watched_genres_series in Ho as (m & Hm & _ & Ho).
    destruct o as [g|]; [by eexists|].
    destruct (Hall m Hm) as (g & Hg & Hne). rewrite Hg in Ho. simpl in Ho.
    simpl in Hne. done. }
  assert (∃ genre_recs,
            Dashboard3556More.get_genre_top_rated movies_df top_genres W (top_n * 3)
            = Py.Ok genre_recs) as [genre_recs ->].
  { unfold Dashboard3556More.get_genre_top_rated.
    destruct top_genres as [|o top']; [by eexists|].
    rewrite (map_result_ok _ (matches_top_genre (o :: top'))); [by eexists|].
    intros m Hm. apply any_genre_in_1901_strings; [done|].
    destruct (Hall m Hm) as (g & -> & _). by eexists. }
  simpl. eexists. split; [done|]. intros Hnd.
  assert (∀ l k : list Catalog.movie, l `sublist_of` k →
            NoDup (Catalog.title <$> k) → NoDup (Catalog.title <$> l)) as Hsub.
  { intros l k Hlk Hk. eapply sublist_NoDup; [exact Hk|]. by apply fmap_sublist. }
  apply (Hsub _ _ (sublist_take _ _)).
  rewrite (Pd.sort_values_perm _ Catalog.avg_rating).
  by apply (Hsub _ _ (sublist_filter _ _)).
Qed.

(** X13.  When the user has watched titles of the catalogue and the
    cell of every such row holds no genre, the only genre counted is the
    missing value, and [get_combined_recommendations] raises
    [TypeError] on the first row of the catalogue. *)
Theorem get_combined_recommendations_blank_genres (db : list Db.watched_row)
    (username : string) (top_n : nat) (seen : Catalog.movie) :
  seen ∈ movies_df →
  Catalog.title seen ∈ Dashboard3556More.get_watched db username →
  (∀ m, m ∈ movies_df →
     Catalog.title m ∈ Dashboard3556More.get_watched db username →
     Dashboard3556More.split_genres
       (Some (Dashboard2605.str (Catalog.genres_clean m))) = []) →
  Dashboard3556More.get_combined_recommendations final_recs movies_df db
    username top_n = Py.Raise Py.TypeError.
Proof.
  intros Hseen Hw Hblank.
  unfold Dashboard3556More.get_combined_recommendations.
  set (W := list_to_set (Dashboard3556More.get_watched db username) : gset string).
  assert (∀ t, t ∈ W ↔ t ∈ Dashboard3556More.get_watched db username) as HW
    by (intros t; apply elem_of_list_to_set).
  set (series := Dashboard3556More.watched_genres_series movies_df W).
  assert (None ∈ series) as Hnone.
  { unfold series, Dashboard3556More.watched_genres_series.
    apply list_elem_of_bind. exists seen. split.
    - rewrite (Hblank seen) by done. by apply list_elem_of_singleton.
    - apply list_elem_of_filter. by rewrite HW. }
  assert (∀ o, o ∈ series → o = None) as Hall.
  { intros [g|] Ho; [|done].
    apply elem_of_watched_genres_series in Ho as (m & Hm & HmW & Hg).
    rewrite (Hblank m) in Hg by (by rewrite <-?HW). by apply elem_of_nil in Hg. }
  set (top_genres := match series with [] => [] | _ :: _ => _ end).
  assert (∃ rest, top_genres = None :: rest) as [rest ->].
  { unfold top_genres. destruct series as [|o1 series'] eqn:Hs;
      [by apply elem_of_nil in Hnone|].
    destruct ((Py.most_common 3 (Py.Counter (o1 :: series'))).*1)
      as [|o rest] eqn:Hmc.
    - by apply (most_common_nonempty 3 (o1 :: series')) in Hmc; [|done|lia].
    - exists rest. f_equal. apply Hall. apply (elem_of_most_common 3).
      rewrite Hmc. left. }
  unfold Dashboard3556More.get_genre_top_rated.
  destruct movies_df as [|m0 df]; [by apply elem_of_nil in Hseen|].
  simpl. by destruct (Catalog.genres_clean m0).
Qed.

End returns.

Lemma get_combined_recommendations_returns_witness :
  ∃ ranked,
    Dashboard3556More.get_combined_recommendations (H := stable_sort_values)
      ∅ comedy_on_top bob_saw_a "bob" 2 = Py.Ok ranked ∧
    (NoDup (Catalog.title <$> comedy_on_top) → NoDup ranked).
Proof.
  apply (get_combined_recommendations_returns stable_sort_values ∅ comedy_on_top
           bob_saw_a "bob" 2).
  repeat constructor; eexists; (split; [reflexivity|vm_compute; congruence]).
Defined.

Lemma get_combined_recommendations_blank_genres_witness :
  Dashboard3556More.get_combined_recommendations (H := stable_sort_values)
    ∅ blank_cell bob_saw_b "bob" 2 = Py.Raise Py.TypeError.
Proof.
  apply (get_combined_recommendations_blank_genres stable_sort_values ∅ blank_cell
           bob_saw_b "bob" 2 (Catalog.Movie "B" (Some " , ") 5)).
  - unfold blank_cell. apply elem_of_cons. right. apply elem_of_cons. by left.
  - apply (bool_decide_unpack _). vm_compute. exact I.
  - intros m Hm Hw. apply elem_of_cons in Hm as [->|Hm].
    + exfalso. revert Hw. apply (bool_decide_unpack _). vm_compute. exact I.
    + apply list_elem_of_singleton in Hm as ->. reflexivity.
Defined.

(** ** [load_movies] *)

Lemma drop_duplicates_spec (seen : list (option string))
    (df : list Dashboard3556More.raw_movie) :
  NoDup (Dashboard3556More.raw_title <$> Dashboard3556More.drop_duplicates seen df) ∧
  (∀ r, r ∈ Dashboard3556More.drop_duplicates seen df →
        (Dashboard3556More.raw_title r ∉ seen) ∧
        head (filter (λ r', Dashboard3556More.raw_title r'
                            = Dashboard3556More.raw_title r) df) = Some r) ∧
  (∀ r, r ∈ df → Dashboard3556More.raw_title r ∉ seen →
        Dashboard3556More.raw_title r
        ∈ (Dashboard3556More.raw_title <$> Dashboard3556More.drop_duplicates seen df)).
Proof.
  revert seen. induction df as [|x df IH]; intros seen.
  { split_and!; [constructor|by intros r ?%elem_of_nil..]. }
  simpl. destruct (decide (Dashboard3556More.raw_title x ∈ seen)) as [Hx|Hx].
  - destruct (IH seen) as (Hnd & Hin & Hcov). split_and!; [done| |].
    + intros r Hr. destruct (Hin r Hr) as [Hseen Hhead]. split; [done|].
      rewrite filter_cons_False; [done|]. congruence.
    + intros r [->|Hr]%elem_of_cons Hseen; [done|]. by apply Hcov.
  - destruct (IH (Dashboard3556More.raw_title x :: seen)) as (Hnd & Hin & Hcov).
    split_and!.
    + rewrite fmap_cons. constructor; [|done].
      intros (r & Heq & Hr)%list_elem_of_fmap.
      destruct (Hin r Hr) as [Hseen _]. apply Hseen. rewrite Heq. left.
    + intros r [->|Hr]%elem_of_cons.
      * split; [done|]. by rewrite filter_cons_True.
      * destruct (Hin r Hr) as [Hseen Hhead].
        apply not_elem_of_cons in Hseen as [Hne Hseen]. split; [done|].
        rewrite filter_cons_False; [done|]. congruence.
    + intros r [->|Hr]%elem_of_cons Hseen; rewrite fmap_cons; [left|].
      destruct (decide (Dashboard3556More.raw_title r
                        = Dashboard3556More.raw_title x)) as [->|Hne]; [left|].
      right. apply Hcov; [done|]. by apply not_elem_of_cons.
Qed.

(** X14.  The frame that [load_movies] makes of a frame read, whatever
    the library makes of a missing cell in [astype(str)], provided that,
    where a title is missing, what a missing title becomes is not itself
    a title of the frame (the text "nan", where the library writes
    that).  No two rows share a title; the titles are those of the frame
    read; each row is made of the first row of the frame read with its
    title, a cell that holds a string keeping it and a rating that is
    missing or not a number becoming 0; and where the library writes a
    text for a missing genres cell, every cell of [genres_clean] holds a
    string. *)
Theorem load_movies_unique_titles (missing_title missing_genres : option string)
    (df : list Dashboard3556More.raw_movie) :
  (None ∈ (Dashboard3556More.raw_title <$> df) →
   missing_title ∈ (Dashboard3556More.raw_title <$> df) → missing_title = None) →
  let movies_df :=
    Dashboard3556More.load_movies missing_title missing_genres df in
  NoDup (Dashboard3556More.loaded_title <$> movies_df) ∧
  (∀ t, t ∈ (Dashboard3556More.loaded_title <$> movies_df) ↔
        ∃ r, r ∈ df ∧
             Dashboard3556More.astype_str missing_title
               (Dashboard3556More.raw_title r) = t) ∧
  (∀ m, m ∈ movies_df →
        ∃ r, head (filter (λ r', Dashboard3556More.raw_title r'
                                 = Dashboard3556More.raw_title r) df) = Some r ∧
             m = Dashboard3556More.LoadedMovie
                   (Dashboard3556More.astype_str missing_title
                      (Dashboard3556More.raw_title r))
                   (Dashboard3556More.astype_str missing_genres
                      (Dashboard3556More.raw_genres r))
                   (default 0%Q (Dashboard3556More.raw_rating r)) ∧
             (∀ s, Dashboard3556More.raw_title r = Some s →
                   Dashboard3556More.loaded_title m = Some s) ∧
             (∀ s, Dashboard3556More.raw_genres r = Some s →
                   Dashboard3556More.loaded_genres m = Some s)) ∧
  (is_Some missing_genres →
   Forall (λ m, is_Some (Dashboard3556More.loaded_genres m)) movies_df).
Proof.
  intros Hnan movies_df. subst movies_df.
  destruct (drop_duplicates_spec [] df) as (Hnd & Hin & Hcov).
  unfold Dashboard3556More.load_movies.
  assert (∀ r, r ∈ Dashboard3556More.drop_duplicates [] df → r ∈ df) as Hsub.
  { intros r Hr. destruct (Hin r Hr) as [_ Hhead].
    apply head_Some_elem_of in Hhead. by apply list_elem_of_filter in Hhead as [_ ?]. }
  split_and!.
  - rewrite <-list_fmap_compose.
    change (NoDup ((Dashboard3556More.astype_str missing_title
                      ∘ Dashboard3556More.raw_title)
                     <$> Dashboard3556More.drop_duplicates [] df)).
    rewrite list_fmap_compose. apply NoDup_fmap_2_strong; [|done].
    intros o1 o2 (r1 & -> & Hr1)%list_elem_of_fmap (r2 & -> & Hr2)%list_elem_of_fmap Heq.
    apply Hsub in Hr1, Hr2.
    assert (∀ r, r ∈ df → Dashboard3556More.raw_title r
                           ∈ (Dashboard3556More.raw_title <$> df)) as Hmem
      by (intros r Hr; apply list_elem_of_fmap; eauto).
    destruct (Dashboard3556More.raw_title r1) as [t1|] eqn:H1;
      destruct (Dashboard3556More.raw_title r2) as [t2|] eqn:H2; simpl in Heq;
      [done| | |done].
    + assert (missing_title = None) as Hm; [|by rewrite Hm in Heq].
      apply Hnan; [rewrite <-H2|rewrite <-Heq, <-H1]; by apply Hmem.
    + assert (missing_title = None) as Hm; [|by rewrite Hm in Heq].
      apply Hnan; [rewrite <-H1|rewrite Heq, <-H2]; by apply Hmem.
  - intros t. rewrite <-list_fmap_compose. rewrite list_elem_of_fmap. split.
    + intros (r & -> & Hr). exists r. split; [by apply Hsub|done].
    + intros (r & Hr & <-).
      pose proof (Hcov r Hr (not_elem_of_nil _)) as Hc.
      apply list_elem_of_fmap in Hc as (r' & Heq & Hr').
      exists r'. split; [|done]. simpl. by rewrite Heq.
  - intros m (r & -> & Hr)%list_elem_of_fmap. exists r.
    split_and!; [by destruct (Hin r Hr)|done|..]; intros s Hs; simpl; by rewrite Hs.
  - intros [s ->]. apply Forall_forall.
    intros m (r & -> & _)%list_elem_of_fmap. simpl.
    by destruct (Dashboard3556More.raw_genres r).
Qed.

Lemma load_movies_unique_titles_witness :
  Dashboard3556More.load_movies None None two_rows_of_a_title
  = [Dashboard3556More.LoadedMovie (Some "A") (Some "Action") 3;
     Dashboard3556More.LoadedMovie None (Some "Drama") 0] ∧
  Dashboard3556More.load_movies (Some "nan") (Some "nan") two_rows_of_a_title
  = [Dashboard3556More.LoadedMovie (Some "A") (Some "Action") 3;
     Dashboard3556More.LoadedMovie (Some "nan") (Some "Drama") 0] ∧
  NoDup (Dashboard3556More.loaded_title
           <$> Dashboard3556More.load_movies None None two_rows_of_a_title) ∧
  NoDup (Dashboard3556More.loaded_title
           <$> Dashboard3556More.load_movies (Some "nan") (Some "nan")
                 two_rows_of_a_title).
Proof.
  split; [reflexivity|]. split; [reflexivity|]. split.
  - apply (load_movies_unique_titles None None two_rows_of_a_title). done.
  - apply (load_movies_unique_titles (Some "nan") (Some "nan") two_rows_of_a_title).
    intros _ Hnan. revert Hnan. apply (bool_decide_unpack _). vm_compute. exact I.
Defined.

(** ** The loop that collects recommendations *)

Lemma any_genre_of_strings top_genres (m : Catalog.movie) :
  is_Some (Catalog.genres_clean m) →
  Dashboard3263.any_genre_of top_genres (Catalog.genres_clean m)
  = Dashboard3263.Return (bool_decide (has_top_genre top_genres m)).
Proof.
  intros [s Hs]. unfold Dashboard3263.any_genre_of. rewrite Hs.
  destruct top_genres as [|g0 top'] eqn:Htop.
  - f_equal. symmetry. apply bool_decide_eq_false.
    by intros (p & s' & ?%elem_of_nil & _).
  - rewrite <-Htop. clear Htop. f_equal. apply eq_true_iff_eq.
    rewrite existsb_exists, bool_decide_eq_true. split.
    + intros ([p|] & Hin%list_elem_of_In & Hp); [|done].
      apply bool_decide_eq_true in Hp. by exists p, s.
    + intros (p & s' & Hin & Hs' & Hp). exists (Some p).
      split; [by apply list_elem_of_In|]. apply bool_decide_eq_true.
      congruence.
Qed.

Lemma collect_spec top_n watched top_genres (rows : list Catalog.movie)
    (recs : list string) :
  Forall (λ m, is_Some (Catalog.genres_clean m)) rows →
  length recs < top_n →
  Dashboard3263.collect top_n watched top_genres rows recs
  = Dashboard3263.Return
      (take top_n
         (recs ++ (Catalog.title <$>
                     filter (λ m, (Catalog.title m ∉ watched) ∧
                                  has_top_genre top_genres m) rows))).
Proof.
  intros Hrows. revert recs.
  induction Hrows as [|row rows Hrow Hrows IH]; intros recs Hlen.
  { simpl. rewrite app_nil_r, take_ge by lia. done. }
  simpl. destruct (decide (Catalog.title row ∈ watched)) as [Hw|Hw].
  - rewrite filter_cons_False by (by intros [? _]). by apply IH.
  - rewrite any_genre_of_strings by done.
    destruct (decide (has_top_genre top_genres row)) as [Hg|Hg].
    + rewrite bool_decide_eq_true_2 by done.
      rewrite filter_cons_True by done. rewrite fmap_cons.
      set (rest := Catalog.title <$> filter _ rows).
      rewrite (cons_middle (Catalog.title row) recs rest), app_assoc.
      case_decide as Hfull; rewrite length_app in Hfull; simpl in Hfull.
      * rewrite take_app_length' by (rewrite length_app; simpl; lia).
        done.
      * apply IH. rewrite length_app. simpl. lia.
    + rewrite bool_decide_eq_false_2 by done.
      rewrite filter_cons_False by (by intros [_ ?]).
      rewrite decide_False by lia. by apply IH.
Qed.

(** X15.  The loop of [get_genre_recommendations], for a user with a
    history, a limit of at least one and a catalogue without missing
    genres: it returns the first [top_n] titles of the catalogue, in the
    order of the catalogue, that the user has not watched and of which a
    genre is among the three most seen. *)
Theorem get_genre_recommendations_loop
    (final_recs : gmap string (list string)) (movies_df : list Catalog.movie)
    (db : list Db.watched_row) (username : string) (top_n : nat) :
  Dashboard3263.get_watched db username ≠ [] →
  1 ≤ top_n →
  Forall (λ m, is_Some (Catalog.genres_clean m)) movies_df →
  let watched := Dashboard3263.get_watched db username in
  Dashboard3263.get_genre_recommendations final_recs movies_df db username top_n
  = Dashboard3263.Return
      (take top_n
         (Catalog.title <$>
            filter (λ m, (Catalog.title m ∉ watched) ∧
                         has_top_genre (top_genres_3263 movies_df watched) m)
              movies_df)).
Proof.
  intros Hw Hn Hall watched. unfold Dashboard3263.get_genre_recommendations.
  fold watched. destruct watched as [|w ws] eqn:Hwatched; [done|].
  rewrite collect_spec by (done || simpl; lia). done.
Qed.

Lemma get_genre_recommendations_loop_witness :
  Dashboard3263.get_genre_recommendations ∅ five_action_films bob_saw_a "bob" 2
  = Dashboard3263.Return ["B"; "D"].
Proof.
  refine (get_genre_recommendations_loop ∅ five_action_films bob_saw_a "bob" 2
            _ _ _).
  - discriminate.
  - lia.
  - repeat constructor; by eexists.
Defined.

Lemma collect_skips_watched top_n watched top_genres
    (before rows : list Catalog.movie) (recs : list string) :
  Forall (λ m, Catalog.title m ∈ watched) before →
  Dashboard3263.collect top_n watched top_genres (before ++ rows) recs
  = Dashboard3263.collect top_n watched top_genres rows recs.
Proof.
  induction 1 as [|m before Hm _ IH]; [done|]. simpl. by rewrite decide_True.
Qed.

(** X16.  The loop of [get_genre_recommendations] on a missing cell: when
    the user has watched a title of the catalogue, and the first row of
    the catalogue that the user has not watched has no [genres_clean],
    the call raises [AttributeError]. *)
Theorem get_genre_recommendations_loop_missing_cell
    (final_recs : gmap string (list string)) (movies_df : list Catalog.movie)
    (db : list Db.watched_row) (username : string) (top_n : nat)
    (seen : Catalog.movie) (before after : list Catalog.movie) (row : Catalog.movie) :
  seen ∈ movies_df →
  Catalog.title seen ∈ Dashboard3263.get_watched db username →
  movies_df = before ++ row :: after →
  Forall (λ m, Catalog.title m ∈ Dashboard3263.get_watched db username) before →
  Catalog.title row ∉ Dashboard3263.get_watched db username →
  Catalog.genres_clean row = None →
  Dashboard3263.get_genre_recommendations final_recs movies_df db username top_n
  = Dashboard3263.AttributeError.
Proof.
  intros Hseen Hw Hdf Hbefore Hrow Hcell.
  unfold Dashboard3263.get_genre_recommendations.
  destruct (Dashboard3263.get_watched db username) as [|w ws] eqn:Hwatched;
    [by apply elem_of_nil in Hw|].
  rewrite <-Hwatched in *.
  set (watched := Dashboard3263.get_watched db username) in *.
  set (series := Catalog.split_explode (Catalog.isin watched movies_df)).
  assert (series ≠ []) as Hseries.
  { assert (∃ o, o ∈ series) as [o Ho].
    { unfold series, Catalog.split_explode.
      destruct (Catalog.genres_clean seen) as [s|] eqn:Hs.
      - destruct (Py.split "|" s) as [|p ps] eqn:Hsp;
          [by apply split_nonempty in Hsp|].
        exists (Some p). apply list_elem_of_bind. exists seen. split.
        + rewrite Hs, Hsp. left.
        + by apply list_elem_of_filter.
      - exists None. apply list_elem_of_bind. exists seen. split.
        + rewrite Hs. left.
        + by apply list_elem_of_filter. }
    intros Hnil. rewrite Hnil in Ho. by apply elem_of_nil in Ho. }
  pose proof (most_common_nonempty 3 series Hseries ltac:(lia)) as Htop.
  rewrite Hdf at 1. rewrite collect_skips_watched by done.
  simpl. rewrite decide_False by done. rewrite Hcell.
  by destruct ((Py.most_common 3 (Py.Counter series)).*1).
Qed.

Lemma get_genre_recommendations_loop_missing_cell_witness :
  Dashboard3263.get_genre_recommendations ∅
    [Catalog.Movie "A" (Some "Action") 3; Catalog.Movie "B" None 5]
    bob_saw_a "bob" 10
  = Dashboard3263.AttributeError.
Proof.
  apply (get_genre_recommendations_loop_missing_cell ∅
           [Catalog.Movie "A" (Some "Action") 3; Catalog.Movie "B" None 5]
           bob_saw_a "bob" 10 (Catalog.Movie "A" (Some "Action") 3)
           [Catalog.Movie "A" (Some "Action") 3] [] (Catalog.Movie "B" None 5)).
  - left.
  - apply (bool_decide_unpack _). vm_compute. exact I.
  - reflexivity.
  - repeat constructor.
  - apply (bool_decide_unpack _). vm_compute. exact I.
  - reflexivity.
Defined.

(** ** [order_df_by_titles] *)

Lemma StronglySorted_pairs {A} (R : relation A) (l : list A) :
  (∀ i j a b, i < j → l !! i = Some a → l !! j = Some b → R a b) →
  StronglySorted R l.
Proof.
  induction l as [|x l IH]; intros Hp; constructor.
  - apply IH. intros i j a b Hij Hi Hj. by apply (Hp (S i) (S j)); [lia|..].
  - apply Forall_forall. intros y [j Hj]%list_elem_of_lookup.
    by apply (Hp 0 (S j)); [lia|..].
Qed.

Lemma order_map_fold_lookup (l : list string) (i : nat) (m0 : gmap string nat)
    (t : string) (k : nat) :
  foldl (λ m it, <[it.2 := it.1]> m) m0 (Dashboard365More.enumerate_from i l) !! t
    = Some k →
  (i ≤ k ∧ l !! (k - i) = Some t) ∨ m0 !! t = Some k.
Proof.
  revert i m0. induction l as [|x l IH]; intros i m0; simpl; [by right|].
  intros [[Hk Hl]|Hm]%IH.
  - left. split; [lia|]. by replace (k - i) with (S (k - S i)) by lia.
  - destruct (decide (t = x)) as [->|Hne].
    + rewrite lookup_insert_eq in Hm. injection Hm as <-. left.
      split; [lia|]. by rewrite Nat.sub_diag.
    + rewrite lookup_insert_ne in Hm by done. by right.
Qed.

Lemma order_map_fold_is_Some (l : list string) (i : nat) (m0 : gmap string nat)
    (t : string) :
  t ∈ l ∨ is_Some (m0 !! t) →
  is_Some (foldl (λ m it, <[it.2 := it.1]> m) m0
             (Dashboard365More.enumerate_from i l) !! t).
Proof.
  revert i m0. induction l as [|x l IH]; intros i m0; simpl.
  - by intros [?%elem_of_nil|?].
  - intros Ht. apply IH. destruct (decide (t = x)) as [->|Hne].
    + right. rewrite lookup_insert_eq. by eexists.
    + rewrite lookup_insert_ne by done.
      destruct Ht as [[?|?]%elem_of_cons|?]; [done|by left|by right].
Qed.

(** On a list without repetition, [order_map] gives every title its
    index. *)
Lemma order_map_index (l : list string) (i : nat) (t : string) :
  NoDup l → l !! i = Some t → Dashboard365More.order_map l !! t = Some i.
Proof.
  intros Hnd Hi. unfold Dashboard365More.order_map.
  destruct (order_map_fold_is_Some l 0 ∅ t) as [k Hk].
  { left. by eapply list_elem_of_lookup_2. }
  rewrite Hk. f_equal.
  apply order_map_fold_lookup in Hk as [[_ Hk]|Hk]; [|by rewrite lookup_empty in Hk].
  rewrite Nat.sub_0_r in Hk. by eapply NoDup_lookup.
Qed.

(** The titles of the rows that [order_df_by_titles] returns. *)
Lemma order_df_by_titles_titles (S : PdMore.SortValuesAsc)
    (df : list Catalog.movie) (ordered_titles : list string) :
  NoDup ordered_titles →
  NoDup (Catalog.title <$> df) →
  Catalog.title <$> Dashboard365More.order_df_by_titles df ordered_titles
  = filter (λ t, t ∈ (Catalog.title <$> df)) ordered_titles.
Proof.
  intros Hord Hdf. unfold Dashboard365More.order_df_by_titles.
  set (key := λ t : string, default 0 (Dashboard365More.order_map ordered_titles !! t)).
  set (rows := Catalog.isin ordered_titles df).
  set (R := λ t1 t2 : string, key t1 ≤ key t2).
  assert (∀ i t, ordered_titles !! i = Some t → key t = i) as Hkey.
  { intros i t Hi. unfold key. by rewrite (order_map_index _ i). }
  assert (∀ t, t ∈ (Catalog.title <$>
                      PdMore.sort_values_asc (λ m, key (Catalog.title m)) rows)
               ↔ t ∈ ordered_titles ∧ t ∈ (Catalog.title <$> df)) as Helem.
  { intros t. rewrite (PdMore.sort_values_asc_perm _ _ rows).
    unfold rows, Catalog.isin. rewrite !list_elem_of_fmap. split.
    - intros (m & -> & [Hin Hm]%list_elem_of_filter). split; [done|by exists m].
    - intros (Hin & m & -> & Hm). exists m. split; [done|].
      by apply list_elem_of_filter. }
  change (Catalog.title <$>
            PdMore.sort_values_asc (λ m, key (Catalog.title m)) rows
          = filter (λ t, t ∈ (Catalog.title <$> df)) ordered_titles).
  apply (StronglySorted_unique_strong R).
  - intros t1 t2 [Ht1 _]%Helem [_ Ht2]%list_elem_of_filter H12 H21.
    apply list_elem_of_lookup in Ht1 as [i1 Hi1], Ht2 as [i2 Hi2].
    unfold R in H12, H21. rewrite (Hkey _ _ Hi1), (Hkey _ _ Hi2) in H12, H21.
    assert (i1 = i2) as -> by lia. congruence.
  - apply (StronglySorted_fmap _ (λ x y, key (Catalog.title x) ≤ key (Catalog.title y)));
      [done|]. apply PdMore.sort_values_asc_sorted.
  - apply StronglySorted_filter, StronglySorted_pairs.
    intros i j a b Hij Hi Hj. unfold R. rewrite (Hkey _ _ Hi), (Hkey _ _ Hj). lia.
  - apply NoDup_Permutation.
    + rewrite (PdMore.sort_values_asc_perm _ _ rows).
      eapply sublist_NoDup; [exact Hdf|]. apply fmap_sublist, sublist_filter.
    + by apply NoDup_filter.
    + intros t. rewrite Helem, list_elem_of_filter. tauto.
Qed.

(** X17.  [order_df_by_titles] keeps the given order, as its
    documentation says, when no title is given twice and no two rows of
    the frame share a title: the rows returned are rows of the frame, and
    their titles are the given titles that the frame has, in the order
    given.  This holds of every sort that meets the contract. *)
Theorem order_df_by_titles_keeps_order (S : PdMore.SortValuesAsc)
    (df : list Catalog.movie) (ordered_titles : list string) :
  NoDup ordered_titles →
  NoDup (Catalog.title <$> df) →
  Catalog.title <$> Dashboard365More.order_df_by_titles df ordered_titles
  = filter (λ t, t ∈ (Catalog.title <$> df)) ordered_titles ∧
  Dashboard365More.order_df_by_titles df ordered_titles ⊆+ df.
Proof.
  intros Hord Hdf. split; [by apply order_df_by_titles_titles|].
  unfold Dashboard365More.order_df_by_titles.
  rewrite (PdMore.sort_values_asc_perm _ _ (Catalog.isin ordered_titles df)).
  apply sublist_submseteq, sublist_filter.
Qed.

Lemma order_df_by_titles_keeps_order_witness :
  Catalog.title <$>
    Dashboard365More.order_df_by_titles (H := merge_sort_values) comedy_on_top
      ["C"; "Z"; "A"]
  = ["C"; "A"] ∧
  Dashboard365More.order_df_by_titles (H := merge_sort_values) comedy_on_top
    ["C"; "Z"; "A"] ⊆+ comedy_on_top.
Proof.
  apply (order_df_by_titles_keeps_order merge_sort_values comedy_on_top
           ["C"; "Z"; "A"]).
  - apply (bool_decide_unpack _). vm_compute. exact I.
  - apply (bool_decide_unpack _). vm_compute. exact I.
Defined.

(** ** [build_reason_map] *)

Lemma fold_insert_lookup {V} (f : string → V) (l : list string)
    (m0 : gmap string V) (t : string) :
  foldl (λ m t, <[t := f t]> m) m0 l !! t
  = if decide (t ∈ l) then Some (f t) else m0 !! t.
Proof.
  revert m0. induction l as [|x l IH]; intros m0.
  - simpl. destruct (decide (t ∈ [])) as [H%elem_of_nil|]; done.
  - cbn [foldl]. rewrite IH.
    destruct (decide (t ∈ l)) as [Hin|Hin];
      destruct (decide (t ∈ x :: l)) as [Hin'|Hin']; try done.
    + destruct Hin'. by right.
    + apply elem_of_cons in Hin' as [->|?]; [|done]. by rewrite lookup_insert_eq.
    + rewrite lookup_insert_ne; [done|]. intros <-. apply Hin'. left.
Qed.

Lemma score_nonneg (a b : gset string) : (0 <= Dashboard2605More.score a b)%Q.
Proof.
  unfold Dashboard2605More.score. case_decide; [done|].
  unfold Qle. simpl. lia.
Qed.

(** The loop keeps the first item of the greatest score. *)
Lemma best_watched_spec (rec_set : gset string)
    (items : list (string * gset string)) :
  items ≠ [] →
  ∃ pre w w_set post,
    items = pre ++ (w, w_set) :: post ∧
    Dashboard2605More.best_watched rec_set items
      = (Some w, Dashboard2605More.score rec_set w_set) ∧
    (∀ it, it ∈ pre →
       (Dashboard2605More.score rec_set it.2
        < Dashboard2605More.score rec_set w_set)%Q) ∧
    (∀ it, it ∈ post →
       (Dashboard2605More.score rec_set it.2
        <= Dashboard2605More.score rec_set w_set)%Q).
Proof.
  unfold Dashboard2605More.best_watched.
  induction items as [|[x x_set] items IH] using rev_ind; [done|]. intros _.
  rewrite foldl_snoc. cbn beta iota zeta. simpl (_.1). simpl (_.2).
  destruct (decide (items = [])) as [->|Hne].
  - simpl. exists [], x, x_set, []. split_and!; [done| |by intros ? ?%elem_of_nil..].
    destruct (Qle_bool _ _) eqn:Hle; [|done].
    apply Qle_bool_iff in Hle. pose proof (score_nonneg rec_set x_set). lra.
  - destruct (IH Hne) as (pre & w & w_set & post & -> & -> & Hpre & Hpost).
    simpl (_.2).
    destruct (Qle_bool (Dashboard2605More.score rec_set x_set)
                (Dashboard2605More.score rec_set w_set)) eqn:Hle.
    + apply Qle_bool_iff in Hle.
      exists pre, w, w_set, (post ++ [(x, x_set)]).
      split_and!; [by rewrite <-app_assoc|done|done|].
      intros it [Hit|Hit%list_elem_of_singleton]%elem_of_app;
        [by apply Hpost|by subst].
    + assert (Dashboard2605More.score rec_set w_set
              < Dashboard2605More.score rec_set x_set)%Q as Hlt.
      { apply Qnot_le_lt. rewrite <-Qle_bool_iff. congruence. }
      exists (pre ++ (w, w_set) :: post), x, x_set, [].
      split_and!; [done..| |by intros ? ?%elem_of_nil].
      intros it [Hit|[->|Hit]%elem_of_cons]%elem_of_app.
      * specialize (Hpre it Hit). lra.
      * done.
      * specialize (Hpost it Hit). lra.
Qed.

Section fromkeys_facts.
Context {K : Type} `{EqDecision K}.
Implicit Types l acc : list K.

Let step := λ (keys : list K) (k : K), if decide (k ∈ keys) then keys else keys ++ [k].

Lemma fromkeys_fold_spec l acc :
  NoDup acc →
  ∃ rest, foldl step acc l = acc ++ rest ∧ NoDup (acc ++ rest) ∧
          ∀ k, k ∈ rest ↔ k ∈ l ∧ k ∉ acc.
Proof.
  revert acc. induction l as [|x l IH]; intros acc Hnd.
  - exists []. rewrite app_nil_r. split_and!; [done..|].
    intros k. rewrite !elem_of_nil. tauto.
  - simpl. unfold step at 2. destruct (decide (x ∈ acc)) as [Hx|Hx].
    + destruct (IH acc Hnd) as (rest & -> & Hnd' & Hrest).
      exists rest. split_and!; [done..|]. intros k. rewrite Hrest, elem_of_cons.
      split; [tauto|]. intros [[->|?] ?]; tauto.
    + destruct (IH (acc ++ [x])) as (rest & -> & Hnd' & Hrest).
      { apply NoDup_app. split_and!; [done| |apply NoDup_singleton].
        by intros k Hk ->%list_elem_of_singleton. }
      exists (x :: rest). rewrite <-app_assoc in *. simpl in *.
      split_and!; [done..|]. intros k. rewrite !elem_of_cons, Hrest, elem_of_app,
        list_elem_of_singleton.
      destruct (decide (k = x)) as [->|]; [tauto|]. tauto.
Qed.

Lemma NoDup_fromkeys l : NoDup (PyText.fromkeys l).
Proof.
  destruct (fromkeys_fold_spec l [] (NoDup_nil_2)) as (rest & Heq & Hnd & _).
  unfold PyText.fromkeys. fold step. by rewrite Heq.
Qed.

(** Up to the first occurrence of [k], [fromkeys] has seen what stands
    before it. *)
Lemma fromkeys_first_occurrence l1 k l2 :
  k ∉ l1 →
  ∃ rest, PyText.fromkeys (l1 ++ k :: l2) = PyText.fromkeys l1 ++ k :: rest.
Proof.
  intros Hk. unfold PyText.fromkeys at 1. rewrite foldl_app.
  change (foldl _ [] l1) with (PyText.fromkeys l1).
  simpl (foldl _ _ (k :: l2)).
  rewrite decide_False by (by rewrite elem_of_fromkeys).
  destruct (fromkeys_fold_spec l2 (PyText.fromkeys l1 ++ [k])) as (rest & Heq & _).
  { apply NoDup_app. split_and!; [apply NoDup_fromkeys| |apply NoDup_singleton].
    intros k' Hk' ->%list_elem_of_singleton. revert Hk'.
    by rewrite elem_of_fromkeys. }
  exists rest. unfold step in Heq. rewrite Heq. by rewrite <-app_assoc.
Qed.

Lemma NoDup_split_unique (a a' b b' : list K) (x : K) :
  NoDup (a ++ x :: b) → a ++ x :: b = a' ++ x :: b' → a = a'.
Proof.
  revert a'. induction a as [|y a IH]; intros a' Hnd Heq.
  - destruct a' as [|y' a']; [done|]. simpl in *. injection Heq as <- ->.
    apply NoDup_cons in Hnd as [Hx _]. destruct Hx. set_solver.
  - destruct a' as [|y' a']; simpl in *.
    + injection Heq as -> <-. apply NoDup_cons in Hnd as [Hx _]. destruct Hx.
      set_solver.
    + injection Heq as <- Heq. apply NoDup_cons in Hnd as [_ Hnd].
      f_equal. by apply IH.
Qed.

Lemma first_occurrence l k :
  k ∈ l → ∃ i, l !! i = Some k ∧ k ∉ take i l.
Proof.
  induction l as [|x l IH]; [by intros ?%elem_of_nil|].
  destruct (decide (k = x)) as [->|Hne].
  - intros _. exists 0. split; [done|]. simpl. apply not_elem_of_nil.
  - intros [?|Hin]%elem_of_cons; [done|]. destruct (IH Hin) as (i & Hi & Hnot).
    exists (S i). split; [done|]. simpl. by intros [?|?]%elem_of_cons.
Qed.

End fromkeys_facts.

(** X18.  [build_reason_map], for a user with a history: the reason of
    every recommended title names the watched title of the greatest
    Jaccard overlap with it, the one watched first when several have the
    greatest overlap; only when that title is the empty text is the
    reason the general one. *)
Theorem build_reason_map_best_overlap (movies_df : list Catalog.movie)
    (db : list Db.watched_row) (username : string) (rec_titles : list string)
    (t : string) :
  Dashboard2605.get_watched db username ≠ [] →
  t ∈ rec_titles →
  ∃ (i : nat) (w : string),
    Dashboard2605.get_watched db username !! i = Some w ∧
    (∀ w', w' ∈ Dashboard2605.get_watched db username →
           (jaccard movies_df t w' <= jaccard movies_df t w)%Q) ∧
    (∀ j w', j < i → Dashboard2605.get_watched db username !! j = Some w' →
             (jaccard movies_df t w' < jaccard movies_df t w)%Q) ∧
    Dashboard2605More.build_reason_map movies_df db username rec_titles !! t
    = Some (if decide (w = EmptyString) then "Recommended for you"
            else "Because you watched " +:+ w).
Proof.
  intros Hw Ht. unfold Dashboard2605More.build_reason_map.
  set (watched := Dashboard2605.get_watched db username) in *.
  destruct watched as [|w0 ws] eqn:Hwatched; [done|]. rewrite <-Hwatched in *.
  clear Hwatched w0 ws.
  rewrite fold_insert_lookup, decide_True by done.
  unfold Dashboard2605More.reason.
  cbv zeta.
  match goal with |- context [fmap ?g (PyText.fromkeys _)] => set (f := g) end.
  set (rec_set := Dashboard2605More.to_set (Dashboard2605More.genre_map movies_df !! t)).
  assert (PyText.fromkeys watched ≠ []) as HL.
  { destruct watched as [|w0 ws]; [done|]. intros Hnil.
    assert (w0 ∈ PyText.fromkeys (w0 :: ws)) as Hin by (apply elem_of_fromkeys; left).
    rewrite Hnil in Hin. by apply elem_of_nil in Hin. }
  destruct (best_watched_spec rec_set (f <$> PyText.fromkeys watched))
    as (pre & w & w_set & post & Hitems & Hbest & Hpre & Hpost).
  { by intros ?%fmap_nil_inv. }
  apply fmap_app_inv in Hitems as (preL & restL & -> & Hrest & HLeq).
  symmetry in Hrest. apply fmap_cons_inv in Hrest as (w1 & postL & [= <- ->] & -> & ->).
  rewrite Hbest. simpl.
  assert (w ∈ watched) as Hwin.
  { apply elem_of_fromkeys. rewrite HLeq. set_solver. }
  destruct (first_occurrence watched w Hwin) as (i & Hi & Hnot).
  exists i, w. split_and!; [done| | |done].
  - intros w' Hw'. apply elem_of_fromkeys in Hw'. rewrite HLeq in Hw'.
    apply elem_of_app in Hw' as [Hw'|[->|Hw']%elem_of_cons].
    + apply Qlt_le_weak. apply (Hpre (f w')). by apply list_elem_of_fmap_2.
    + apply Qle_refl.
    + apply (Hpost (f w')). by apply list_elem_of_fmap_2.
  - intros j w' Hj Hjw'.
    destruct (fromkeys_first_occurrence (take i watched) w (drop (S i) watched) Hnot)
      as [rest Hsplit].
    rewrite take_drop_middle in Hsplit by done. rewrite HLeq in Hsplit.
    apply NoDup_split_unique in Hsplit as ->.
    2:{ rewrite <-HLeq. apply NoDup_fromkeys. }
    apply (Hpre (f w')). apply list_elem_of_fmap_2, elem_of_fromkeys.
    apply list_elem_of_lookup. exists j. by rewrite lookup_take_lt.
Qed.

Lemma build_reason_map_best_overlap_witness :
  ∃ (i : nat) (w : string),
    Dashboard2605.get_watched bob_saw_b_then_a "bob" !! i = Some w ∧
    (∀ w', w' ∈ Dashboard2605.get_watched bob_saw_b_then_a "bob" →
           (jaccard comedy_on_top "C" w' <= jaccard comedy_on_top "C" w)%Q) ∧
    (∀ j w', j < i →
             Dashboard2605.get_watched bob_saw_b_then_a "bob" !! j = Some w' →
             (jaccard comedy_on_top "C" w' < jaccard comedy_on_top "C" w)%Q) ∧
    Dashboard2605More.build_reason_map comedy_on_top bob_saw_b_then_a "bob" ["C"]
      !! "C"
    = Some (if decide (w = EmptyString) then "Recommended for you"
            else "Because you watched " +:+ w).
Proof.
  apply (build_reason_map_best_overlap comedy_on_top bob_saw_b_then_a "bob"
           ["C"] "C").
  - discriminate.
  - left.
Defined.

(** ** The wrapper *)

Lemma genres_map_fold_lookup (rows : list Wrapper.meta) (m0 : gmap Z (list string))
    (k : Z) :
  NoDup rows.*1 →
  foldl (λ m row, <[row.1 := row.2]> m) m0 rows !! k
  = match filter (λ kr : Wrapper.meta, kr.1 = k) rows with
    | [] => m0 !! k
    | kr :: _ => Some kr.2
    end.
Proof.
  revert m0. induction rows as [|[k' g] rows IH]; intros m0 Hnd; [done|].
  apply NoDup_cons in Hnd as [Hk' Hnd]. cbn [foldl]. rewrite IH by done.
  rewrite filter_cons. simpl. destruct (decide (k' = k)) as [->|Hne].
  - rewrite (elem_of_nil_inv (filter _ rows)).
    + by rewrite lookup_insert_eq.
    + intros [k2 g2] [? Hin]%list_elem_of_filter. simpl in *. subst k2.
      apply Hk', list_elem_of_fmap. by exists (k, g2).
  - destruct (filter _ rows); [|done]. by rewrite lookup_insert_ne.
Qed.

(** X19.  On metadata without two rows of an id, the wrapper of
    [recommender_wrapper.py], which merges, and the wrapper of the
    dashboards, which maps, give the same frame, whatever the model's
    function returns: the recommendations, each one once and in its
    place, with the genres of its id or the missing value. *)
Theorem wrapper_merge_is_map
    (recommend_for_user_func : Z → list Wrapper.meta → nat → list Dashboard52.Rec)
    (movie_metadata : list Wrapper.meta) (user_id : Z) (top_n : nat) :
  NoDup movie_metadata.*1 →
  Wrapper.recommend_movies_for_user recommend_for_user_func movie_metadata
    user_id top_n
  = Wrapper.recommend_movies_for_user_map recommend_for_user_func movie_metadata
      user_id top_n ∧
  (Wrapper.recommend_movies_for_user recommend_for_user_func movie_metadata
     user_id top_n).*1
  = recommend_for_user_func user_id movie_metadata top_n.
Proof.
  intros Hnd. split; [|by apply merge_left_fst].
  unfold Wrapper.recommend_movies_for_user, Wrapper.recommend_movies_for_user_map,
    Pd.merge_left, Wrapper.genres_map.
  induction (recommend_for_user_func user_id movie_metadata top_n) as [|r recs IH];
    [done|].
  rewrite bind_cons, fmap_cons, IH. rewrite genres_map_fold_lookup by done.
  pose proof (filter_key_NoDup movie_metadata (Dashboard52.movie_id r) Hnd) as Hlen.
  destruct (filter (λ kr : Z * list string, kr.1 = Dashboard52.movie_id r)
              movie_metadata) as [|kr [|kr' matched]]; simpl in *;
    [by rewrite lookup_empty|done|lia].
Qed.

Lemma wrapper_merge_is_map_witness :
  Wrapper.recommend_movies_for_user two_recs two_metadata 1 10
  = Wrapper.recommend_movies_for_user_map two_recs two_metadata 1 10 ∧
  (Wrapper.recommend_movies_for_user two_recs two_metadata 1 10).*1
  = two_recs 1 two_metadata 10.
Proof.
  apply (wrapper_merge_is_map two_recs two_metadata 1 10).
  apply (bool_decide_unpack _). vm_compute. exact I.
Defined.

Lemma map_result_raise {A B} (f : A → Py.result B) (l : list A) (e : Py.exn) :
  (∀ x e', f x = Py.Raise e' → e' = e) →
  (∃ x, x ∈ l ∧ f x = Py.Raise e) → Py.map_result f l = Py.Raise e.
Proof.
  intros Hone (x & Hx & Hfx). induction l as [|y l IH]; [by apply elem_of_nil in Hx|].
  simpl. destruct (f y) as [b|e'] eqn:Hfy; simpl.
  - apply elem_of_cons in Hx as [->|Hx]; [congruence|]. by rewrite IH.
  - by rewrite (Hone y e' Hfy).
Qed.

(** X20.  The genre filter of the dashboards raises [TypeError] exactly
    when a row has no genres, that is when the model recommends an id
    the metadata lacks; in every other case it keeps, in their order, the
    rows whose genres hold the selected one. *)
Theorem genre_filter_missing_genres (selected_genre : string)
    (rec_df : list (Dashboard52.Rec * option (list string))) :
  (Wrapper.genre_filter selected_genre rec_df = Py.Raise Py.TypeError
   ↔ ∃ row, row ∈ rec_df ∧ row.2 = None) ∧
  ((∀ row, row ∈ rec_df → row.2 ≠ None) →
   Wrapper.genre_filter selected_genre rec_df
   = Py.Ok (filter (λ row, selected_genre ∈ default [] row.2) rec_df)).
Proof.
  assert ((∀ row, row ∈ rec_df → row.2 ≠ None) →
          Wrapper.genre_filter selected_genre rec_df
          = Py.Ok (filter (λ row, selected_genre ∈ default [] row.2) rec_df)) as Hok.
  { intros Hall. unfold Wrapper.genre_filter.
    rewrite (map_result_ok _ (λ row, bool_decide (selected_genre ∈ default [] row.2))).
    - simpl. f_equal. rewrite mask_filter. apply list_filter_iff.
      intros row. by rewrite bool_decide_eq_true.
    - intros [r [g|]] Hrow; [done|]. by destruct (Hall _ Hrow). }
  split; [|done]. split.
  - intros Hraise.
    destruct (decide (Exists (λ row : Dashboard52.Rec * option (list string),
                                row.2 = None) rec_df)) as [Hex|Hex].
    + by apply Exists_exists in Hex.
    + rewrite Hok in Hraise; [done|]. intros row Hrow Hnone. apply Hex.
      apply Exists_exists. by exists row.
  - intros Hex. unfold Wrapper.genre_filter.
    rewrite (map_result_raise _ _ Py.TypeError); [done| |].
    + intros [r [g|]] e'; simpl; congruence.
    + destruct Hex as ([r o] & Hrow & Ho). simpl in Ho. subst o. by exists (r, None).
Qed.

Lemma genre_filter_missing_genres_witness :
  Wrapper.genre_filter "Drama"
    (Wrapper.recommend_movies_for_user_map two_recs two_metadata 1 1)
  = Py.Ok (filter (λ row, "Drama" ∈ default [] row.2)
             (Wrapper.recommend_movies_for_user_map two_recs two_metadata 1 1)).
Proof.
  apply (proj2 (genre_filter_missing_genres "Drama"
                  (Wrapper.recommend_movies_for_user_map two_recs two_metadata 1 1))).
  intros row Hrow. apply list_elem_of_singleton in Hrow as ->. discriminate.
Defined.

(** ** Accounts *)

(** X21.  [signup] and [login] of the iteration with users in memory:
    [signup] succeeds exactly for a new name; afterwards [login] accepts
    for that name the passwords of the same hash as the one given, and
    for every other name, and after a refused [signup], it answers as
    before; a refused [signup] changes nothing, so the watched titles of
    the account stay. *)
Theorem signup_then_login (hash_password : string → string)
    (username password : string)
    (users_db : gmap string Dashboard725Users.user) :
  let r := Dashboard725Users.signup hash_password username password users_db in
  (r.1 = true ↔ users_db !! username = None) ∧
  (r.1 = false → r.2 = users_db) ∧
  (∀ other attempt,
     Dashboard725Users.login hash_password other attempt r.2
     = if decide (other = username ∧ users_db !! username = None)
       then bool_decide (hash_password attempt = hash_password password)
       else Dashboard725Users.login hash_password other attempt users_db).
Proof.
  unfold Dashboard725Users.signup.
  destruct (decide (is_Some (users_db !! username))) as [[u Hu]|Hnone]; simpl.
  - split_and!; [by rewrite Hu|done|]. intros other attempt.
    rewrite decide_False; [done|]. intros [_ ?]. congruence.
  - apply eq_None_not_Some in Hnone. split_and!; [done..|].
    intros other attempt. unfold Dashboard725Users.login.
    destruct (decide (other = username)) as [->|Hne].
    + rewrite decide_True by done. rewrite lookup_insert_eq. simpl.
      apply bool_decide_ext. split; congruence.
    + rewrite decide_False by (by intros [? _]). by rewrite lookup_insert_ne.
Qed.

(** X22.  [watch_movie] of the iteration with users in memory: it raises
    [KeyError] exactly for a name without an account; otherwise watching
    a title again changes nothing, the title is in the list afterwards,
    a list without repetition stays so, and passwords and the lists of
    the other accounts are as before. *)
Theorem watch_movie_once (username title : string)
    (users_db : gmap string Dashboard725Users.user) :
  (Dashboard725Users.watch_movie username title users_db = Py.Raise Py.KeyError
   ↔ users_db !! username = None) ∧
  (∀ users_db',
     Dashboard725Users.watch_movie username title users_db = Py.Ok users_db' →
     Dashboard725Users.watch_movie username title users_db' = Py.Ok users_db' ∧
     (∃ u u', users_db !! username = Some u ∧ users_db' !! username = Some u' ∧
              Dashboard725Users.password u' = Dashboard725Users.password u ∧
              title ∈ Dashboard725Users.watched u' ∧
              filter (λ t, t ≠ title) (Dashboard725Users.watched u')
              = filter (λ t, t ≠ title) (Dashboard725Users.watched u) ∧
              (NoDup (Dashboard725Users.watched u) →
               NoDup (Dashboard725Users.watched u'))) ∧
     (∀ other, other ≠ username → users_db' !! other = users_db !! other)).
Proof.
  unfold Dashboard725Users.watch_movie.
  destruct (users_db !! username) as [u|] eqn:Hu.
  - split; [by case_decide|]. intros users_db' Hrun.
    destruct (decide (title ∉ Dashboard725Users.watched u)) as [Hnot|Hin].
    + injection Hrun as <-. rewrite lookup_insert_eq. simpl.
      rewrite decide_False by set_solver. split_and!; [done| |].
      * exists u, (Dashboard725Users.User (Dashboard725Users.password u)
                     (Dashboard725Users.watched u ++ [title])).
        simpl. split_and!; [done..|set_solver| |].
        -- rewrite filter_app, filter_cons_False, filter_nil, app_nil_r; [done|].
           by intros H.
        -- intros Hnd. apply NoDup_app. split_and!; [done| |apply NoDup_singleton].
           by intros t Ht ->%list_elem_of_singleton.
      * intros other Hne. by rewrite lookup_insert_ne.
    + injection Hrun as <-. rewrite Hu, decide_False by done.
      split_and!; [done| |done]. exists u, u. split_and!; [done..| |done|done].
      by apply dec_stable.
  - split; [done|]. by intros users_db' [=].
Qed.

Lemma watch_movie_once_witness :
  Dashboard725Users.watch_movie "ann" "Heat"
    {[ "ann" := Dashboard725Users.User "#pw" ["Heat"] ]}
  = Py.Ok {[ "ann" := Dashboard725Users.User "#pw" ["Heat"] ]}.
Proof.
  apply (proj2 (watch_movie_once "ann" "Heat"
                  {[ "ann" := Dashboard725Users.User "#pw" [] ]})
           {[ "ann" := Dashboard725Users.User "#pw" ["Heat"] ]}).
  vm_compute. reflexivity.
Defined.

(** X23.  [signup] and [login] of the last iteration, on the table
    [users]: after [signup], [login] accepts what it accepted before,
    and the new name with the new password when both are non-empty texts
    and the name was free; so a second [signup] under a name leaves the
    first password in force.  The names of the table stay distinct. *)
Theorem signup_keeps_first_password (username password : string)
    (db : list (string * string)) :
  (∀ other attempt,
     Dashboard3556Users.login other attempt
       (Dashboard3556Users.signup username password db)
     = Dashboard3556Users.login other attempt db
       || bool_decide (other = username ∧ attempt = password ∧
                       username ≠ EmptyString ∧ password ≠ EmptyString ∧
                       username ∉ db.*1)) ∧
  (NoDup db.*1 → NoDup (Dashboard3556Users.signup username password db).*1).
Proof.
  unfold Dashboard3556Users.signup, Dashboard3556Users.login. split.
  - intros other attempt.
    destruct (decide (username = EmptyString ∨ password = EmptyString)) as [Hempty|Hfull].
    { rewrite (bool_decide_eq_false_2 (_ ∧ _)); [by rewrite orb_false_r|].
      intros (_ & _ & ? & ? & _). by destruct Hempty. }
    destruct (decide (username ∈ db.*1)) as [Hin|Hfree].
    { rewrite (bool_decide_eq_false_2 (_ ∧ _)); [by rewrite orb_false_r|].
      by intros (_ & _ & _ & _ & ?). }
    rewrite filter_app, filter_cons, filter_nil. simpl.
    destruct (decide (username = other ∧ password = attempt)) as [[-> ->]|Hne].
    + rewrite (bool_decide_eq_true_2 (_ ∧ _ ∧ _)) by (split_and!; tauto).
      rewrite orb_true_r. apply bool_decide_eq_true_2.
      by intros [? ?]%app_eq_nil.
    + rewrite app_nil_r.
      rewrite (bool_decide_eq_false_2 (_ ∧ _ ∧ _)); [by rewrite orb_false_r|].
      intros (-> & -> & _). by apply Hne.
  - intros Hnd. repeat case_decide; [done..|].
    rewrite fmap_app. apply NoDup_app. split_and!; [done| |apply NoDup_singleton].
    simpl. by intros k Hk ->%list_elem_of_singleton.
Qed.

(** ** The recommendations of the first iteration with a database *)

Section recs_365.
Context (S : Pd.SortValues).
Context (final_recs : gmap Z (list string)) (movies_df : list Catalog.movie).



End recs_365.





(** ** The ranking of [recommend_for_user] *)

(** X26.  [recommend_for_user] ranks: the scores it returns are in
    descending order, and every prediction of the user is either
    returned, or scored no higher than any that is returned. *)
Theorem recommend_for_user_ranked (user_id : Z) (model_data : list Dashboard871.pred)
    (movies_meta : list Dashboard871.meta_row) (top_n : nat) :
  let recs := Dashboard871.recommend_for_user user_id model_data movies_meta top_n in
  StronglySorted (λ a b : string * Q, b.2 <= a.2)%Q recs ∧
  (∀ (i : Z) (s : Q), (user_id, i, s) ∈ model_data →
     (∃ t, (t, s) ∈ recs) ∨ (∀ r, r ∈ recs → (s <= r.2)%Q)).
Proof.
  intros recs. unfold recs, Dashboard871.recommend_for_user.
  set (gt := λ y x : Dashboard871.pred, negb (Qle_bool y.2 x.2)).
  set (user_preds := filter (λ p : Dashboard871.pred, p.1.1 = user_id) model_data).
  set (title_of := λ p : Dashboard871.pred, _).
  assert (StronglySorted (λ p q : Dashboard871.pred, q.2 <= p.2)%Q
            (Py.sorted_desc gt user_preds)) as Hsorted.
  { apply sorted_desc_sorted.
    - intros x y z ??. by eapply Qle_trans.
    - intros y x Hgt. unfold gt in Hgt. apply negb_true_iff in Hgt.
      apply Qlt_le_weak, Qnot_le_lt. rewrite <-Qle_bool_iff. congruence.
    - intros y x Hgt. unfold gt in Hgt. apply negb_false_iff in Hgt.
      by apply Qle_bool_iff. }
  rewrite <-(take_drop top_n (Py.sorted_desc gt user_preds)) in Hsorted.
  assert (∀ p, title_of p = ((title_of p).1, p.2)) as Htitle.
  { intros p. unfold title_of. by destruct (filter _ movies_meta). }
  split.
  - apply (StronglySorted_fmap _ (λ p q : Dashboard871.pred, q.2 <= p.2)%Q).
    + intros p q Hpq. by rewrite (Htitle p), (Htitle q).
    + by apply StronglySorted_app_1_l in Hsorted.
  - intros i s Hin.
    assert ((user_id, i, s) ∈ Py.sorted_desc gt user_preds) as Hp.
    { rewrite sorted_desc_perm. by apply list_elem_of_filter. }
    rewrite <-(take_drop top_n (Py.sorted_desc gt user_preds)) in Hp.
    apply elem_of_app in Hp as [Hp|Hp].
    + left. exists (title_of (user_id, i, s)).1.
      apply list_elem_of_fmap. exists (user_id, i, s). split; [|done].
      by rewrite (Htitle (user_id, i, s)).
    + right. intros r (q & -> & Hq)%list_elem_of_fmap. rewrite (Htitle q). simpl.
      by apply (StronglySorted_app_1_elem_of _ _ _ q (user_id, i, s)) in Hsorted.
Qed.

(** ** The recommendations tab of the last iteration *)

Lemma filter_title_unique (l : list Catalog.movie) (r : Catalog.movie) :
  NoDup (Catalog.title <$> l) → r ∈ l →
  filter (λ m, Catalog.title m = Catalog.title r) l = [r].
Proof.
  induction l as [|x l IH]; [by intros _ ?%elem_of_nil|].
  rewrite fmap_cons. intros [Hx Hnd]%NoDup_cons [->|Hr]%elem_of_cons.
  - rewrite filter_cons_True by done. f_equal.
    apply elem_of_nil_inv. intros m [Hm Hin]%list_elem_of_filter.
    apply Hx. rewrite <-Hm. by apply list_elem_of_fmap_2.
  - rewrite filter_cons_False; [by apply IH|].
    intros Heq. apply Hx. rewrite Heq. by apply list_elem_of_fmap_2.
Qed.

Lemma get_combined_recommendations_rows (S : Pd.SortValues)
    (final_recs : gmap string (list string)) (movies_df : list Catalog.movie)
    (db : list Db.watched_row) (username : string) (top_n : nat)
    (ranked : list string) :
  Dashboard3556More.get_combined_recommendations final_recs movies_df db
    username top_n = Py.Ok ranked →
  ∃ rows : list Catalog.movie,
    ranked = Catalog.title <$> rows ∧ rows ⊆+ movies_df ∧
    StronglySorted (λ a b, Catalog.avg_rating b <= Catalog.avg_rating a)%Q rows.
Proof.
  unfold Dashboard3556More.get_combined_recommendations.
  destruct (Dashboard3556More.get_genre_top_rated _ _ _ _) as [genre_recs|e];
    simpl; [|done].
  intros [= <-]. eexists. split_and!; [done| |].
  - etrans; [apply submseteq_take|].
    etrans; [apply Permutation_submseteq, Pd.sort_values_perm|].
    apply sublist_submseteq, sublist_filter.
  - match goal with
    | |- StronglySorted _ (take ?n (Pd.sort_values_desc ?k ?l)) =>
        pose proof (Pd.sort_values_sorted _ k l) as Hs;
        rewrite <-(take_drop n (Pd.sort_values_desc k l)) in Hs
    end.
    by apply StronglySorted_app_1_l in Hs.
Qed.

(** X27.  The recommendations tab of the last iteration shows a card for
    every title that [get_combined_recommendations] returned, in the
    order returned and none skipped; on a catalogue without a title
    twice each card carries the genres and the rating of its row, so that
    the cards come in descending order of the rating shown, and it is
    marked as watched exactly when the user has watched it. *)
Theorem recommendations_tab_cards (S : Pd.SortValues)
    (final_recs : gmap string (list string)) (movies_df : list Catalog.movie)
    (db : list Db.watched_row) (username : string) (top_n : nat)
    (ranked : list string) :
  Dashboard3556More.get_combined_recommendations final_recs movies_df db
    username top_n = Py.Ok ranked →
  let watched_now : gset string :=
    list_to_set (Dashboard3556More.get_watched db username) in
  let cards := Dashboard3556.recommendation_cards movies_df watched_now ranked in
  (λ c : Dashboard3556.card, c.1.1.1) <$> cards = ranked ∧
  (NoDup (Catalog.title <$> movies_df) →
   StronglySorted (λ a b : Dashboard3556.card, b.1.2 <= a.1.2)%Q cards ∧
   ∀ c, c ∈ cards →
     Catalog.Movie c.1.1.1 c.1.1.2 c.1.2 ∈ movies_df ∧
     (c.2 = true ↔ c.1.1.1 ∈ Dashboard3556More.get_watched db username)).
Proof.
  intros Hrun watched_now cards.
  destruct (get_combined_recommendations_rows _ _ _ _ _ _ _ Hrun)
    as (rows & -> & Hrows & Hsorted).
  split.
  - unfold cards. rewrite recommendation_cards_titles.
    apply filter_True_all, Forall_forall. intros t Ht.
    eapply elem_of_submseteq; [exact Ht|]. by apply fmap_submseteq.
  - intros Hnd.
    assert (cards = (λ r, (Catalog.title r, Catalog.genres_clean r,
                           Catalog.avg_rating r,
                           bool_decide (Catalog.title r ∈ watched_now))) <$> rows)
      as ->.
    { unfold cards, Dashboard3556.recommendation_cards.
      assert (∀ r, r ∈ rows → r ∈ movies_df) as Hin
        by (intros r Hr; by eapply elem_of_submseteq).
      clear Hrun Hrows Hsorted cards. induction rows as [|r rows IH]; [done|].
      rewrite !fmap_cons, bind_cons, IH by (intros; apply Hin; by right).
      rewrite filter_title_unique by (done || apply Hin; left). done. }
    split.
    + by apply (StronglySorted_fmap _
                  (λ a b, Catalog.avg_rating b <= Catalog.avg_rating a)%Q).
    + intros c (r & -> & Hr)%list_elem_of_fmap. simpl. split.
      * destruct r. by eapply elem_of_submseteq.
      * rewrite bool_decide_eq_true. unfold watched_now.
        by rewrite elem_of_list_to_set.
Qed.

Lemma recommendations_tab_cards_witness :
  (λ c : Dashboard3556.card, c.1.1.1)
    <$> Dashboard3556.recommendation_cards comedy_on_top
          (list_to_set (Dashboard3556More.get_watched bob_saw_a "bob")) ["B"; "C"]
  = ["B"; "C"] ∧
  (NoDup (Catalog.title <$> comedy_on_top) →
   StronglySorted (λ a b : Dashboard3556.card, b.1.2 <= a.1.2)%Q
     (Dashboard3556.recommendation_cards comedy_on_top
        (list_to_set (Dashboard3556More.get_watched bob_saw_a "bob")) ["B"; "C"]) ∧
   ∀ c, c ∈ Dashboard3556.recommendation_cards comedy_on_top
              (list_to_set (Dashboard3556More.get_watched bob_saw_a "bob"))
              ["B"; "C"] →
     Catalog.Movie c.1.1.1 c.1.1.2 c.1.2 ∈ comedy_on_top ∧
     (c.2 = true ↔ c.1.1.1 ∈ Dashboard3556More.get_watched bob_saw_a "bob")).
Proof.
  apply (recommendations_tab_cards stable_sort_values ∅ comedy_on_top bob_saw_a
           "bob" 2 ["B"; "C"]).
  vm_compute. reflexivity.
Defined.

(** ** The page of the iteration that boosts *)

Lemma show_recommendations_run (S : Pd.SortValues) (recs : list Dashboard52.Rec)
    (m : Dashboard52.Metadata) (user_pref : list string) (top_n : nat) :
  recs ≠ [] →
  fst <$> Dashboard52.show_recommendations 0 user_pref 1 top_n
            [Dashboard52.FRecs recs; Dashboard52.FMeta m]
  = Some (Dashboard52.show_rows
            (match user_pref with
             | [] => Dashboard52.FRecs recs
             | _ :: _ => Dashboard52.FBoosted
                 (Pd.sort_values_desc Dashboard52.score_boosted
                    (Boost52.scored_rows recs user_pref m (1 # 4)))
             end) top_n).
Proof.
  intros Hrecs. unfold Dashboard52.show_recommendations.
  erewrite Boost52Facts.bind_run by (by apply Boost52Facts.load_recs_run).
  destruct recs as [|r recs]; [done|].
  destruct user_pref as [|p prefs].
  - by erewrite Boost52Facts.bind_run by apply Boost52Facts.boost_recommendations_no_prefs.
  - erewrite Boost52Facts.bind_run
      by (by apply Boost52Facts.boost_recommendations_run).
    by erewrite Boost52Facts.bind_run by (by apply Boost52Facts.load_run).
Qed.

(** X28.  What the page of the iteration that boosts shows, for a model
    that recommends something and a page of at least one row.  Without
    preferred genres it raises [KeyError], whatever is recommended.  With
    preferred genres, when the catalogue has every recommended id it
    shows cards, in descending order of the boosted score and no more
    than [top_n]; and when the catalogue has none of the recommended ids
    it raises [TypeError]. *)
Theorem show_recommendations_outcome (S : Pd.SortValues)
    (recs : list Dashboard52.Rec) (m : Dashboard52.Metadata)
    (user_pref : list string) (top_n : nat) :
  recs ≠ [] → 1 ≤ top_n →
  let page :=
    fst <$> Dashboard52.show_recommendations 0 user_pref 1 top_n
              [Dashboard52.FRecs recs; Dashboard52.FMeta m] in
  let ids := Dashboard52.meta_movie_id <$> Dashboard52.meta_rows m in
  (user_pref = [] → page = Some (Py.Raise Py.KeyError)) ∧
  (user_pref ≠ [] → (∀ r, r ∈ recs → Dashboard52.movie_id r ∈ ids) →
   ∃ cards, page = Some (Py.Ok cards) ∧ length cards ≤ top_n ∧
            StronglySorted (λ a b : Dashboard52.card, b.1.2 <= a.1.2)%Q cards) ∧
  (user_pref ≠ [] → (∀ r, r ∈ recs → Dashboard52.movie_id r ∉ ids) →
   page = Some (Py.Raise Py.TypeError)).
Proof.
  intros Hrecs Hn page ids. unfold page.
  rewrite show_recommendations_run by done. split_and!.
  - intros ->. simpl. f_equal. destruct recs as [|r recs]; [done|].
    destruct top_n as [|n]; [lia|done].
  - intros Hpref Hids. destruct user_pref as [|p prefs]; [done|].
    set (rows := Pd.sort_values_desc _ _).
    assert (∀ row, row ∈ rows → is_Some (Dashboard52.genres_list row)) as Hsome.
    { intros row Hrow. unfold rows in Hrow. rewrite Pd.sort_values_perm in Hrow.
      apply list_elem_of_fmap in Hrow as ([r o] & -> & Hro). simpl.
      apply elem_of_merge_left in Hro as [Hr Ho]. destruct o as [gl|]; [by eexists|].
      destruct Ho. unfold ids in Hids. specialize (Hids r Hr).
      rewrite fst_zip; [done|]. by rewrite length_genres_list_of, length_fmap. }
    exists ((λ row, (Dashboard52.title (Dashboard52.rec row),
                     Dashboard52.score_boosted row,
                     default [] (Dashboard52.genres_list row))) <$> take top_n rows).
    split_and!.
    + simpl. f_equal. apply map_result_ok. intros row Hrow.
      destruct (Hsome row) as [gl ->]; [|done].
      by apply (sublist_subseteq _ _ (sublist_take _ top_n)).
    + rewrite length_fmap, length_take. lia.
    + apply (StronglySorted_fmap _
               (λ a b, Dashboard52.score_boosted b <= Dashboard52.score_boosted a)%Q);
        [done|].
      pose proof (Pd.sort_values_sorted _ Dashboard52.score_boosted
                    (Boost52.scored_rows recs (p :: prefs) m (1 # 4))) as Hs.
      fold rows in Hs. rewrite <-(take_drop top_n rows) in Hs.
      by apply StronglySorted_app_1_l in Hs.
  - intros Hpref Hids. destruct user_pref as [|p prefs]; [done|].
    set (rows := Pd.sort_values_desc _ _).
    assert (∀ row, row ∈ rows → Dashboard52.genres_list row = None) as Hnone.
    { intros row Hrow. unfold rows in Hrow. rewrite Pd.sort_values_perm in Hrow.
      apply list_elem_of_fmap in Hrow as ([r o] & -> & Hro). simpl.
      apply elem_of_merge_left in Hro as [Hr Ho]. destruct o as [gl|]; [|done].
      destruct (Hids r Hr). unfold ids.
      apply (list_elem_of_fmap_2 fst) in Ho. simpl in Ho.
      rewrite fst_zip in Ho; [done|]. by rewrite length_genres_list_of, length_fmap. }
    assert (rows ≠ []) as Hrows.
    { unfold rows. intros Hnil.
      pose proof (Pd.sort_values_perm _ Dashboard52.score_boosted
                    (Boost52.scored_rows recs (p :: prefs) m (1 # 4))) as Hperm.
      rewrite Hnil in Hperm. apply Permutation_nil_l in Hperm.
      apply (f_equal (fmap Dashboard52.rec)) in Hperm.
      rewrite scored_rows_rec in Hperm. simpl in Hperm. symmetry in Hperm.
      apply fmap_nil_inv in Hperm.
      destruct recs as [|r recs]; [done|].
      destruct (merge_left_covers Dashboard52.movie_id (r :: recs)
                  (zip (Dashboard52.meta_movie_id <$> Dashboard52.meta_rows m)
                     (Boost52.genres_list_of m)) r) as [o Ho]; [left|].
      unfold Boost52.merged_rows in Hperm. rewrite Hperm in Ho.
      by apply elem_of_nil in Ho. }
    simpl. f_equal. destruct rows as [|row rows'] eqn:Hr; [done|].
    destruct top_n as [|n]; [lia|]. simpl.
    rewrite (Hnone row); [done|]. left.
Qed.

Lemma show_recommendations_outcome_witness :
  ∃ cards,
    fst <$> Dashboard52.show_recommendations (H := stable_sort_values) 0 ["Drama"]
              1 10 [Dashboard52.FRecs two_base_recs; Dashboard52.FMeta three_meta_rows]
    = Some (Py.Ok cards) ∧ length cards ≤ 10 ∧
    StronglySorted (λ a b : Dashboard52.card, b.1.2 <= a.1.2)%Q cards.
Proof.
  refine (proj1 (proj2 (show_recommendations_outcome stable_sort_values
                          two_base_recs three_meta_rows ["Drama"] 10 _ _)) _ _).
  - discriminate.
  - lia.
  - discriminate.
  - intros r Hr. apply elem_of_cons in Hr as [->|Hr].
    + apply (bool_decide_unpack _). vm_compute. exact I.
    + apply list_elem_of_singleton in Hr as ->.
      apply (bool_decide_unpack _). vm_compute. exact I.
Defined.

(** ** A full page of recommendations *)

(** X29.  [get_combined_recommendations] fills the page: when it returns
    and the catalogue has at least [top_n] rows that the user has not
    watched, the list has exactly [top_n] titles, whatever the model and
    the genres give.  So the list is empty only for [top_n = 0] or when
    everything is watched. *)
Theorem get_combined_recommendations_full_page (S : Pd.SortValues)
    (final_recs : gmap string (list string)) (movies_df : list Catalog.movie)
    (db : list Db.watched_row) (username : string) (top_n : nat)
    (ranked : list string) :
  Dashboard3556More.get_combined_recommendations final_recs movies_df db
    username top_n = Py.Ok ranked →
  top_n ≤ length (filter (λ m, Catalog.title m
                               ∉ Dashboard3556More.get_watched db username)
                    movies_df) →
  length ranked = top_n.
Proof.
  unfold Dashboard3556More.get_combined_recommendations.
  set (W := list_to_set (Dashboard3556More.get_watched db username) : gset string).
  set (hybrid := default [] (final_recs !! username)).
  set (U := filter (λ m, Catalog.title m ∉ W) movies_df).
  destruct (Dashboard3556More.get_genre_top_rated movies_df _ W (top_n * 3))
    as [genre_recs|e] eqn:Hg; simpl; [|done].
  set (O := take (top_n * 3) (Pd.sort_values_desc Catalog.avg_rating U)).
  set (M := PyText.fromkeys (hybrid ++ genre_recs ++ (Catalog.title <$> O))).
  set (R := filter (λ m, Catalog.title m ∈ M) movies_df).
  intros [= <-] Hmany.
  assert (filter (λ m, Catalog.title m
                       ∉ Dashboard3556More.get_watched db username) movies_df = U)
    as HU.
  { apply list_filter_iff. intros m. unfold W. by rewrite elem_of_list_to_set. }
  rewrite HU in Hmany.
  assert (O ⊆+ R) as Hsub.
  { assert (filter (λ x, Catalog.title x ∈ M) O = O) as <-.
    { apply filter_True_all, Forall_forall. intros o Ho.
      unfold M. rewrite elem_of_fromkeys, !elem_of_app.
      right; right. by apply list_elem_of_fmap_2. }
    assert (O ⊆+ movies_df) as [k Hk]%submseteq_Permutation.
    { unfold O. etrans; [apply submseteq_take|].
      etrans; [apply Permutation_submseteq, Pd.sort_values_perm|].
      apply sublist_submseteq, sublist_filter. }
    unfold R. rewrite Hk, filter_app. by apply submseteq_inserts_r. }
  apply submseteq_length in Hsub.
  assert (top_n ≤ length O) as HO.
  { unfold O. rewrite length_take, (Pd.sort_values_perm _ Catalog.avg_rating U). lia. }
  rewrite length_fmap, length_take, (Pd.sort_values_perm _ Catalog.avg_rating R).
  lia.
Qed.

Lemma get_combined_recommendations_full_page_witness :
  length ["B"; "C"] = 2.
Proof.
  apply (get_combined_recommendations_full_page stable_sort_values ∅
           comedy_on_top bob_saw_a "bob" 2 ["B"; "C"]).
  - vm_compute. reflexivity.
  - vm_compute. lia.
Defined.

(** ** The recommendations of the first iteration with an unwatch
       action *)

Lemma genre_recs_no_genres (watched : list string) (rows : list Catalog.movie) :
  Dashboard3079More.genre_recs [] watched rows = Dashboard3079More.Return [].
Proof. induction rows as [|row rows IH]; [done|]. simpl. by rewrite IH. Qed.

(** X30.  In the iteration at line 3079 a user who has watched nothing
    and for whom the model holds no list gets no recommendation at all,
    whatever the catalogue: [get_combined_recommendations] returns the
    empty list.  (The last iteration fills the page for such a user.) *)
Theorem get_combined_recommendations_3079_new_user (S : Pd.SortValues)
    (final_recs : gmap string (list string)) (movies_df : list Catalog.movie)
    (db : list Db.watched_row) (username : string) (top_n : nat) :
  Dashboard3079More.get_watched db username = [] →
  final_recs !! username = None →
  Dashboard3079More.get_combined_recommendations final_recs movies_df db
    username top_n = Dashboard3079More.Return [].
Proof.
  intros Hw Hmodel. unfold Dashboard3079More.get_combined_recommendations.
  rewrite Hw, Hmodel. rewrite isin_nil. simpl.
  rewrite genre_recs_no_genres. simpl.
  rewrite (filter_False_all _ movies_df).
  - by rewrite sort_values_desc_nil, take_nil.
  - apply Forall_forall. intros m _. apply not_elem_of_nil.
Qed.

Lemma get_combined_recommendations_3079_new_user_witness :
  Dashboard3079More.get_combined_recommendations (H := stable_sort_values)
    ∅ comedy_on_top bob_saw_a "ann" 10 = Dashboard3079More.Return [].
Proof.
  apply (get_combined_recommendations_3079_new_user stable_sort_values ∅
           comedy_on_top bob_saw_a "ann" 10); reflexivity.
Defined.
